(** * Meural Manager: the upload-enrichment pipeline of [server.js]

    A shallow embedding of the EXIF-enabled server: the metadata extractor
    ([extractExif]), the metadata store ([savePhotoExif] over the [photos]
    table), the image normalizer ([resizeIfNeeded]), the enrichment helpers
    ([getSeason], [analyzeImageWithVision], [generateSmartDescription],
    [reverseGeocode]) and the upload route ([POST /api/items/upload]).

    JavaScript values are a small inductive type, exceptions are an error
    monad, and every call that leaves the process (file system, network,
    database engine, image library) is answered by an explicit outcome that
    the caller supplies. *)

From Stdlib Require Import String Ascii List ZArith QArith Qround Lia Bool.
Import ListNotations.
Local Open Scope string_scope.
Local Open Scope Z_scope.

(** ** Exceptions *)

(** A JavaScript computation either returns or throws an [Error]; the only
    part of the error the server ever reads is [err.message]. *)
Inductive result (A : Type) : Type :=
| Ok (a : A)
| Throw (message : string).
Arguments Ok {A} a.
Arguments Throw {A} message.

Definition bind {A B : Type} (m : result A) (k : A -> result B) : result B :=
  match m with
  | Ok a => k a
  | Throw e => Throw e
  end.

(** [try { m } catch (err) { h err.message }] *)
Definition try_catch {A : Type} (m : result A) (h : string -> A) : A :=
  match m with
  | Ok a => a
  | Throw e => h e
  end.

Declare Scope js_scope.
Delimit Scope js_scope with js.
Notation "'let*' x ':=' m 'in' k" := (bind m (fun x => k))
  (at level 10, x name, m at level 100, k at level 200) : js_scope.
Local Open Scope js_scope.

(** ** Numbers *)

Module Num.

(** A JavaScript number: a finite value, the two infinities, or NaN.  Finite
    values are kept as reduced fractions, so that arithmetic is exact; the
    rounding of IEEE doubles and the sign of zero are not represented. *)
Inductive number : Type :=
| Fin (q : Q)
| PInf
| NInf
| NaN.

Definition of_Z (z : Z) : number := Fin (inject_Z z).

Definition is_zero (q : Q) : bool := Qeq_bool q 0.
Definition is_pos (q : Q) : bool := negb (Qle_bool q 0).

(** [a / b] *)
Definition div (a b : number) : number :=
  match a, b with
  | NaN, _ | _, NaN => NaN
  | Fin x, Fin y =>
      if is_zero y then
        if is_zero x then NaN else if is_pos x then PInf else NInf
      else Fin (Qred (x / y))
  | Fin _, PInf | Fin _, NInf => Fin 0
  | PInf, Fin y => if is_pos y || is_zero y then PInf else NInf
  | NInf, Fin y => if is_pos y || is_zero y then NInf else PInf
  | PInf, PInf | PInf, NInf | NInf, PInf | NInf, NInf => NaN
  end.

(** [a * b] *)
Definition mul (a b : number) : number :=
  match a, b with
  | NaN, _ | _, NaN => NaN
  | Fin x, Fin y => Fin (Qred (x * y))
  | Fin x, PInf | PInf, Fin x =>
      if is_zero x then NaN else if is_pos x then PInf else NInf
  | Fin x, NInf | NInf, Fin x =>
      if is_zero x then NaN else if is_pos x then NInf else PInf
  | PInf, PInf | NInf, NInf => PInf
  | PInf, NInf | NInf, PInf => NInf
  end.

(** [a <= b]; every comparison with NaN is false. *)
Definition le (a b : number) : bool :=
  match a, b with
  | NaN, _ | _, NaN => false
  | Fin x, Fin y => Qle_bool x y
  | NInf, _ => true
  | _, PInf => true
  | _, _ => false
  end.

(** [a < b] *)
Definition lt (a b : number) : bool :=
  match a, b with
  | NaN, _ | _, NaN => false
  | Fin x, Fin y => negb (Qle_bool y x)
  | NInf, NInf | PInf, PInf => false
  | NInf, _ => true
  | _, PInf => true
  | _, _ => false
  end.

Definition ge (a b : number) : bool := le b a.
Definition gt (a b : number) : bool := lt b a.

(** [Math.round]: to the nearest integer, halves towards plus infinity. *)
Definition round (a : number) : number :=
  match a with
  | Fin x => of_Z (Qfloor (x + (1 # 2)))
  | other => other
  end.

(** A number is falsy when it is zero or NaN. *)
Definition truthy (a : number) : bool :=
  match a with
  | Fin x => negb (is_zero x)
  | PInf | NInf => true
  | NaN => false
  end.

End Num.
Export Num.

(** ** Values *)

#[warnings="-register-all"] Inductive value : Type :=
| VUndefined
| VNull
| VBool (b : bool)
| VNum (n : number)
| VStr (s : string)
| VArr (elems : list value)
| VObj (props : list (string * value)).

Definition VInt (z : Z) : value := VNum (of_Z z).

(** Truthiness, as tested by [if], [&&], [||], [!] and [?:]. *)
Definition truthy (v : value) : bool :=
  match v with
  | VUndefined | VNull => false
  | VBool b => b
  | VNum n => Num.truthy n
  | VStr s => negb (String.eqb s "")
  | VArr _ | VObj _ => true
  end.

(** [a || b] *)
Definition js_or (a b : value) : value := if truthy a then a else b.

Definition nullish (v : value) : bool :=
  match v with
  | VUndefined | VNull => true
  | _ => false
  end.

Fixpoint assoc (k : string) (ps : list (string * value)) : option value :=
  match ps with
  | [] => None
  | (k', v) :: rest => if String.eqb k k' then Some v else assoc k rest
  end.

(** [o.k] where [o] is neither null nor undefined: an own property of an
    object, [undefined] for every other receiver (the server reads no
    built-in property through this path). *)
Definition prop (o : value) (k : string) : value :=
  match o with
  | VObj ps => match assoc k ps with Some v => v | None => VUndefined end
  | _ => VUndefined
  end.

(** [o.k]: reading a property of null or undefined throws a TypeError. *)
Definition get (o : value) (k : string) : result value :=
  if nullish o
  then Throw ("Cannot read properties of undefined (reading '" ++ k ++ "')")
  else Ok (prop o k).

(** [o?.k] *)
Definition opt (o : value) (k : string) : value :=
  if nullish o then VUndefined else prop o k.

(** [a[i]] on a value that is neither null nor undefined. *)
Definition index (a : value) (i : nat) : value :=
  match a with
  | VArr l => nth i l VUndefined
  | VStr s => match String.get i s with
              | Some c => VStr (String c "")
              | None => VUndefined
              end
  | _ => VUndefined
  end.

(** [a?.[i]] *)
Definition opt_index (a : value) (i : nat) : value :=
  if nullish a then VUndefined else index a i.

(** [o.k = v]: overwrite the property where it is, or add it at the end. *)
Fixpoint set_assoc (k : string) (v : value) (ps : list (string * value))
  : list (string * value) :=
  match ps with
  | [] => [(k, v)]
  | (k', v') :: rest =>
      if String.eqb k k' then (k, v) :: rest else (k', v') :: set_assoc k v rest
  end.

Definition set_prop (o : value) (k : string) (v : value) : value :=
  match o with
  | VObj ps => VObj (set_assoc k v ps)
  | other => other
  end.

(** [arr.push(v)] *)
Definition push (arr : list value) (v : value) : list value := (arr ++ [v])%list.

(** A [Buffer]: the bytes of a file. *)
Definition Buffer : Type := list Byte.byte.

(** [buffer.length] *)
Definition buffer_length (b : Buffer) : Z := Z.of_nat (List.length b).

(** ** The runtime and the libraries

    What the server calls and does not define: the coercions of the language
    on operands that are not primitive, [Date], number formatting,
    [JSON.stringify], ExifReader and sharp.  Each is a function of its
    arguments; the ones that can throw return a [result]. *)
Class Runtime : Type := {
  (** [Number(v)] for strings, arrays and objects *)
  ToNumber_other : value -> number;
  (** [String(v)] for numbers, arrays and objects *)
  ToString_other : value -> string;
  (** [new Date(v).getMonth()], NaN for an invalid date *)
  Date_getMonth : value -> number;
  (** [new Date(v).toLocaleDateString('en-US', { month: 'long', year: 'numeric' })] *)
  Date_toLocaleDateString : value -> string;
  (** [n.toFixed(1)] *)
  Number_toFixed1 : number -> string;
  (** [s.trim()] *)
  String_trim : string -> string;
  (** [JSON.stringify(v)] *)
  JSON_stringify : value -> result value;
  (** [ExifReader.load(buffer, { expanded: true })] *)
  ExifReader_load : Buffer -> result value;
  (** [await sharp(buffer).metadata()] *)
  sharp_metadata : Buffer -> result value;
  (** [await sharp(buffer).resize(w, h, { fit: 'inside', withoutEnlargement: true })
                          .jpeg({ quality: 90, mozjpeg: true }).toBuffer()] *)
  sharp_resize_jpeg : Buffer -> value -> value -> result Buffer
}.

Section Coercions.
Context `{RT : Runtime}.

(** [Number(v)] *)
Definition ToNumber (v : value) : number :=
  match v with
  | VUndefined => NaN
  | VNull => Fin 0
  | VBool true => Fin 1
  | VBool false => Fin 0
  | VNum n => n
  | other => ToNumber_other other
  end.

(** [String(v)] *)
Definition ToString (v : value) : string :=
  match v with
  | VUndefined => "undefined"
  | VNull => "null"
  | VBool true => "true"
  | VBool false => "false"
  | VStr s => s
  | other => ToString_other other
  end.

(** [a / b], [a * b] and [a > b] on numeric operands *)
Definition js_div (a b : value) : value := VNum (Num.div (ToNumber a) (ToNumber b)).
Definition js_mul (a b : value) : value := VNum (Num.mul (ToNumber a) (ToNumber b)).
Definition js_gt (a b : value) : bool := Num.gt (ToNumber a) (ToNumber b).

(** [Math.round(v)] *)
Definition Math_round (v : value) : value := VNum (Num.round (ToNumber v)).

(** [parts.join(sep)]: null and undefined elements print as the empty string. *)
Fixpoint join (sep : string) (parts : list value) : string :=
  match parts with
  | [] => ""
  | [v] => if nullish v then "" else ToString v
  | v :: rest => (if nullish v then "" else ToString v) ++ sep ++ join sep rest
  end.

End Coercions.

(** ** Metadata Extractor: [extractExif] *)

Section Extractor.
Context `{RT : Runtime}.

Definition is_digit (c : ascii) : bool :=
  (N.leb 48 (N_of_ascii c) && N.leb (N_of_ascii c) 57)%bool.

(** [dt.replace(/^(\d{4}):(\d{2}):(\d{2})/, '$1-$2-$3')] *)
Definition replace_date_colons (dt : string) : string :=
  match dt with
  | String y1 (String y2 (String y3 (String y4 (String c1
      (String m1 (String m2 (String c2 (String d1 (String d2 rest))))))))) =>
      if (forallb is_digit [y1; y2; y3; y4; m1; m2; d1; d2]
          && Ascii.eqb c1 ":" && Ascii.eqb c2 ":")%bool
      then String y1 (String y2 (String y3 (String y4 (String "-"
             (String m1 (String m2 (String "-" (String d1 (String d2 rest)))))))))
      else dt
  | _ => dt
  end.

(** [s.replace(' ', 'T')]: the first space only. *)
Fixpoint replace_first_space (s : string) : string :=
  match s with
  | EmptyString => EmptyString
  | String c rest =>
      if Ascii.eqb c " " then String "T" rest
      else String c (replace_first_space rest)
  end.

(** [dt.replace(...).replace(' ', 'T')]: only a string has [replace]. *)
Definition normalize_date (dt : value) : result value :=
  match dt with
  | VStr s => Ok (VStr (replace_first_space (replace_date_colons s)))
  | _ => Throw "dt.replace is not a function"
  end.

(** [tags.group?.tag?.field] *)
Definition tag_field (tags : value) (group tag field : string) : result value :=
  let* g := get tags group in
  Ok (opt (opt g tag) field).

(** The body of the [try] block, after [ExifReader.load] has returned. *)
Definition extract_from_tags (tags : value) : result value :=
  (* Parse date taken *)
  let* dtDescription := tag_field tags "exif" "DateTimeOriginal" "description" in
  let* dateTaken :=
    if truthy dtDescription then normalize_date dtDescription else Ok VNull in
  (* Parse GPS *)
  let* gps := get tags "gps" in
  let hasGps := (truthy (opt gps "Latitude") && truthy (opt gps "Longitude"))%bool in
  let gpsLat := if hasGps then prop gps "Latitude" else VNull in
  let gpsLon := if hasGps then prop gps "Longitude" else VNull in
  let gpsAlt := if hasGps then js_or (opt gps "Altitude") VNull else VNull in
  (* Parse aperture (FNumber) *)
  let* fnumber := tag_field tags "exif" "FNumber" "value" in
  let aperture :=
    if truthy fnumber then js_div (index fnumber 0) (index fnumber 1) else VNull in
  (* Parse focal length *)
  let* focal := tag_field tags "exif" "FocalLength" "value" in
  let focalLength :=
    if truthy focal then js_div (index focal 0) (index focal 1) else VNull in
  let* make := tag_field tags "exif" "Make" "description" in
  let* model := tag_field tags "exif" "Model" "description" in
  let* lens := tag_field tags "exif" "LensModel" "description" in
  let* focal35 := tag_field tags "exif" "FocalLengthIn35mmFilm" "value" in
  let* exposureTime := tag_field tags "exif" "ExposureTime" "description" in
  let* isoRatings := tag_field tags "exif" "ISOSpeedRatings" "value" in
  let* bias := tag_field tags "exif" "ExposureBiasValue" "value" in
  let* imageWidth := tag_field tags "file" "Image Width" "value" in
  let* pixelX := tag_field tags "exif" "PixelXDimension" "value" in
  let* imageHeight := tag_field tags "file" "Image Height" "value" in
  let* pixelY := tag_field tags "exif" "PixelYDimension" "value" in
  let* orientation := tag_field tags "exif" "Orientation" "value" in
  let* colorSpace := tag_field tags "exif" "ColorSpace" "description" in
  let* whiteBalance := tag_field tags "exif" "WhiteBalance" "description" in
  let* json := JSON_stringify tags in
  Ok (VObj [
    ("date_taken", dateTaken);
    ("camera_make", js_or make VNull);
    ("camera_model", js_or model VNull);
    ("lens_model", js_or lens VNull);
    ("focal_length", focalLength);
    ("focal_length_35mm", js_or focal35 VNull);
    ("aperture", aperture);
    ("shutter_speed", js_or exposureTime VNull);
    ("iso", js_or isoRatings VNull);
    ("exposure_compensation",
       js_or (js_div (opt_index bias 0) (opt_index bias 1)) VNull);
    ("gps_latitude", gpsLat);
    ("gps_longitude", gpsLon);
    ("gps_altitude", gpsAlt);
    ("width", js_or imageWidth (js_or pixelX VNull));
    ("height", js_or imageHeight (js_or pixelY VNull));
    ("orientation", js_or orientation VNull);
    ("color_space", js_or colorSpace VNull);
    ("white_balance", js_or whiteBalance VNull);
    ("exif_json", json)
  ]).

(** [return { exif_json: null }] of the [catch] block *)
Definition degraded_record : value := VObj [("exif_json", VNull)].

Definition extractExif (buffer : Buffer) (filename : string) : value :=
  try_catch (let* tags := ExifReader_load buffer in extract_from_tags tags)
            (fun _ => degraded_record).

End Extractor.

(** The columns that [extractExif] fills besides the catch-all blob. *)
Definition typed_fields : list string :=
  ["date_taken"; "camera_make"; "camera_model"; "lens_model"; "focal_length";
   "focal_length_35mm"; "aperture"; "shutter_speed"; "iso";
   "exposure_compensation"; "gps_latitude"; "gps_longitude"; "gps_altitude";
   "width"; "height"; "orientation"; "color_space"; "white_balance"].

(** ** Metadata Store: the [photos] table and [savePhotoExif] *)

Module Store.

(** The columns of [CREATE TABLE photos], in declaration order. *)
Definition table_columns : list string :=
  ["id"; "meural_id"; "original_filename"; "uploaded_at";
   "date_taken"; "camera_make"; "camera_model"; "lens_model"; "focal_length";
   "focal_length_35mm"; "aperture"; "shutter_speed"; "iso";
   "exposure_compensation";
   "gps_latitude"; "gps_longitude"; "gps_altitude"; "location_name";
   "width"; "height"; "orientation"; "color_space"; "white_balance";
   "exif_json"].

(** The column list of the [INSERT OR REPLACE] statement. *)
Definition insert_columns : list string :=
  ["meural_id"; "original_filename"; "date_taken"; "camera_make"; "camera_model";
   "lens_model"; "focal_length"; "focal_length_35mm"; "aperture"; "shutter_speed";
   "iso"; "exposure_compensation"; "gps_latitude"; "gps_longitude"; "gps_altitude";
   "width"; "height"; "orientation"; "color_space"; "white_balance"; "exif_json"].

(** The database: the rows of [photos] (each row an object, as [stmt.get]
    returns it) and the largest row id handed out so far (AUTOINCREMENT). *)
Record DB : Type := {
  photos : list value;
  last_rowid : Z
}.

Definition empty : DB := {| photos := []; last_rowid := 0 |}.

(** SQL [=] on stored values: NULL equals nothing, numbers compare by value.
    Column affinity conversions are not represented. *)
Definition sql_eq (a b : value) : bool :=
  match a, b with
  | VNum (Fin x), VNum (Fin y) => Qeq_bool x y
  | VNum PInf, VNum PInf | VNum NInf, VNum NInf => true
  | VStr s, VStr t => String.eqb s t
  | _, _ => false
  end.

Definition has_meural_id (meuralId : value) (row : value) : bool :=
  sql_eq (prop row "meural_id") meuralId.

(** [SELECT * FROM photos WHERE meural_id = ?] *)
Definition select_by_meural_id (db : DB) (meuralId : value) : list value :=
  filter (has_meural_id meuralId) (photos db).

(** [stmt.get(meuralId)]: the first matching row, or undefined. *)
Definition stmt_get (db : DB) (meuralId : value) : value :=
  match select_by_meural_id db meuralId with
  | row :: _ => row
  | [] => VUndefined
  end.

(** The value a column of the inserted row takes: the bound parameter when
    the statement lists the column, the declared default otherwise.  The
    row holds what was bound: what the engine makes of a bound value on the
    way in (NULL for undefined and NaN, a number for a numeric string in a
    numeric column) is not represented. *)
Definition column_value (rowid : Z) (now : value) (bound : list (string * value))
    (column : string) : value :=
  if String.eqb column "id" then VInt rowid
  else match assoc column bound with
       | Some v => v
       | None => if String.eqb column "uploaded_at" then now else VNull
       end.

(** The row that [INSERT ... (insert_columns) VALUES (?, ..., ?)] builds
    from the bound parameters. *)
Definition new_row (rowid : Z) (now : value) (params : list value) : value :=
  let bound := combine insert_columns params in
  VObj (map (fun c => (c, column_value rowid now bound c)) table_columns).

(** [INSERT OR REPLACE INTO photos (insert_columns) VALUES (?, ..., ?)]:
    the rows that clash with the new one on the UNIQUE column [meural_id]
    are deleted, then the new row is added under a fresh row id. *)
Definition insert_or_replace (db : DB) (now : value) (params : list value) : DB :=
  let rowid := last_rowid db + 1 in
  let row := new_row rowid now params in
  {| photos := filter (fun r => negb (has_meural_id (prop row "meural_id") r))
                      (photos db) ++ [row];
     last_rowid := rowid |}.

(** The parameters [savePhotoExif] passes to [stmt.run], in order. *)
Definition run_parameters (meuralId filename exifData : value) : list value :=
  [meuralId; filename;
   prop exifData "date_taken"; prop exifData "camera_make";
   prop exifData "camera_model"; prop exifData "lens_model";
   prop exifData "focal_length"; prop exifData "focal_length_35mm";
   prop exifData "aperture"; prop exifData "shutter_speed";
   prop exifData "iso"; prop exifData "exposure_compensation";
   prop exifData "gps_latitude"; prop exifData "gps_longitude";
   prop exifData "gps_altitude"; prop exifData "width";
   prop exifData "height"; prop exifData "orientation";
   prop exifData "color_space"; prop exifData "white_balance";
   prop exifData "exif_json"].

(** [savePhotoExif(meuralId, filename, exifData)].  [fault] is the error the
    engine raises from [stmt.run], if any; [now] is CURRENT_TIMESTAMP. *)
Definition savePhotoExif (db : DB) (fault : option string) (now : value)
    (meuralId filename exifData : value) : result DB :=
  match fault with
  | Some e => Throw e
  | None =>
      Ok (insert_or_replace db now (run_parameters meuralId filename exifData))
  end.

(** No two rows carry the same remote id (the UNIQUE constraint). *)
Fixpoint unique_ids (rows : list value) : Prop :=
  match rows with
  | [] => True
  | row :: rest =>
      Forall (fun later => has_meural_id (prop row "meural_id") later = false) rest
      /\ unique_ids rest
  end.

End Store.

(** ** Image Normalizer: [resizeIfNeeded] *)

Module Normalizer.

Definition MAX_FILE_SIZE : Z := 20 * 1024 * 1024.
Definition MAX_DIMENSION : value := VInt 3000.
Definition QUALITY : Z := 90.

(** The object [resizeIfNeeded] returns; a field the object literal does
    not set reads as [VUndefined]. *)
Record ResizeResult : Type := {
  buffer : Buffer;
  resized : bool;
  originalSize : value;
  newSize : value;
  dimensions : value;
  error : value
}.

Section WithRuntime.
Context `{RT : Runtime}.

(** "Calculate new dimensions (maintain aspect ratio)".  The quotient and
    the product are exact here; the program computes them in doubles, which
    can round the other way where the exact product lies halfway between
    two integers. *)
Definition new_dimensions (width height : value) : value * value :=
  if (js_gt width height && js_gt width MAX_DIMENSION)%bool then
    (MAX_DIMENSION, Math_round (js_mul height (js_div MAX_DIMENSION width)))
  else if js_gt height MAX_DIMENSION then
    (Math_round (js_mul width (js_div MAX_DIMENSION height)), MAX_DIMENSION)
  else (width, height).

Definition resizeIfNeeded (fileBuffer : Buffer) (filename : string) : ResizeResult :=
  if buffer_length fileBuffer <=? MAX_FILE_SIZE then
    {| buffer := fileBuffer; resized := false; originalSize := VUndefined;
       newSize := VUndefined; dimensions := VUndefined; error := VUndefined |}
  else
    try_catch
      (let* metadata := sharp_metadata fileBuffer in
       let* width0 := get metadata "width" in
       let* height0 := get metadata "height" in
       let (width, height) := new_dimensions width0 height0 in
       let* resizedBuffer := sharp_resize_jpeg fileBuffer width height in
       Ok {| buffer := resizedBuffer; resized := true;
             originalSize := VInt (buffer_length fileBuffer);
             newSize := VInt (buffer_length resizedBuffer);
             dimensions := VObj [("width", width); ("height", height)];
             error := VUndefined |})
      (fun message =>
         {| buffer := fileBuffer; resized := false; originalSize := VUndefined;
            newSize := VUndefined; dimensions := VUndefined;
            error := VStr message |}).

End WithRuntime.
End Normalizer.

(** ** Enrichment: season, caption, description, geocoding *)

(** A [fetch] response: [response.ok] and the outcome of
    [await response.json()]. *)
Record HttpResponse : Type := {
  ok : bool;
  json : result value
}.

Module Enrich.
Section WithRuntime.
Context `{RT : Runtime}.

(** "Get season from date" (northern hemisphere) *)
Definition getSeason (dateString : value) : value :=
  if negb (truthy dateString) then VNull
  else
    let month := Date_getMonth dateString in
    if (Num.ge month (of_Z 2) && Num.le month (of_Z 4))%bool then VStr "Spring"
    else if (Num.ge month (of_Z 5) && Num.le month (of_Z 7))%bool then VStr "Summer"
    else if (Num.ge month (of_Z 8) && Num.le month (of_Z 10))%bool then VStr "Fall"
    else VStr "Winter".

(** "Analyze image with Claude Vision".  [anthropic] tells whether a client
    was configured; [created] is the outcome of [anthropic.messages.create]. *)
Definition analyzeImageWithVision (anthropic : bool) (created : result value)
    (imageBuffer : Buffer) (mimeType : value) : value :=
  if negb anthropic then VNull
  else
    try_catch
      (let* response := created in
       let* content := get response "content" in
       let* first := (if nullish content
                      then Throw "Cannot read properties of undefined (reading '0')"
                      else Ok (index content 0)) in
       let text := opt first "text" in
       if nullish text then Ok VUndefined
       else match text with
            | VStr t => Ok (VStr (String_trim t))
            | _ => Throw "response.content[0]?.text?.trim is not a function"
            end)
      (fun _ => VNull).

(** The separator of the composed description: a middle dot between spaces. *)
Definition separator : string := " · ".

(** The pieces the composer collects, in the order it pushes them. *)
Definition description_parts (exifData location visionCaption : value) : list value :=
  let parts0 := if truthy (opt location "city") then [prop location "city"] else [] in
  let season := getSeason (prop exifData "date_taken") in
  let parts1 := if truthy season then push parts0 season else parts0 in
  let parts2 := if truthy visionCaption then push parts1 visionCaption else parts1 in
  (* If we have nothing, fall back to date *)
  if (Nat.eqb (List.length parts2) 0 && truthy (prop exifData "date_taken"))%bool
  then push parts2 (VStr (Date_toLocaleDateString (prop exifData "date_taken")))
  else parts2.

(** "Generate smart name from EXIF, location, and vision" *)
Definition generateSmartDescription (exifData location visionCaption : value) : value :=
  js_or (VStr (join separator (description_parts exifData location visionCaption))) VNull.

(** "Reverse geocode GPS coordinates to location name".  [fetched] is the
    outcome of the request to the lookup service. *)
Definition reverseGeocode (fetched : result HttpResponse) (lat lon : value) : value :=
  try_catch
    (let* response := fetched in
     let* data := json response in
     let* address := get data "address" in
     let place := js_or (js_or (opt address "city") (opt address "town"))
                        (opt address "village") in
     let parts0 := if truthy place then [place] else [] in
     let parts1 := if truthy (opt address "state")
                   then push parts0 (prop address "state") else parts0 in
     let parts2 := if truthy (opt address "country")
                   then push parts1 (prop address "country") else parts1 in
     Ok (VObj [
       ("display_name", js_or (VStr (join ", " parts2)) (prop data "display_name"));
       ("city", js_or place VNull);
       ("state", js_or (opt address "state") VNull);
       ("country", js_or (opt address "country") VNull);
       ("country_code", js_or (opt address "country_code") VNull)
     ]))
    (fun _ => VNull).

End WithRuntime.
End Enrich.

(** ** Upload Orchestrator: [POST /api/items/upload] *)

Module Upload.
Import Store Normalizer Enrich.

(** One element of [req.files], as multer leaves it. *)
Record File : Type := {
  path : string;
  originalname : string;
  mimetype : value
}.

(** What the outside answers while one file is processed: one outcome for
    each call the loop body makes. *)
Record World : Type := {
  (** [fs.readFileSync(file.path)] *)
  readFileSync : result Buffer;
  (** [fetch(MEURAL_API + '/items', { method: 'POST', ... })] *)
  upload_fetch : result HttpResponse;
  (** the request of [reverseGeocode] *)
  geocode_fetch : result HttpResponse;
  (** [anthropic.messages.create(...)] *)
  vision_create : result value;
  (** [meuralRequest('PUT', '/items/' + id, ...)] *)
  update_request : result value;
  (** the error [stmt.run] raises, if any, and CURRENT_TIMESTAMP *)
  stmt_run_fault : option string;
  current_timestamp : value;
  (** the error [fs.unlinkSync(file.path)] raises, if any *)
  unlinkSync_fault : option string
}.

(** What the loop carries from one file to the next. *)
Record State : Type := {
  results : list value;
  db : DB
}.

Inductive Response : Type :=
| Json (status : Z) (body : value).

Section WithRuntime.
Context `{RT : Runtime}.

(** [`${(size / 1024 / 1024).toFixed(1)}MB`] *)
Definition megabytes (size : value) : value :=
  VStr (Number_toFixed1
          (Num.div (Num.div (ToNumber size) (of_Z 1024)) (of_Z 1024)) ++ "MB").

(** The entry the [catch] block pushes. *)
Definition failure_entry (file : File) (message : string) : value :=
  VObj [("filename", VStr (originalname file));
        ("success", VBool false);
        ("error", VStr message)].

(** The [try] block up to and including the construction of the entry that
    [results.push] receives: the entry and the database after the block's
    only write. *)
Definition attempt (anthropic : bool) (file : File) (w : World) (db0 : DB)
  : result (value * DB) :=
  (* Read file *)
  let* fileBuffer := readFileSync w in
  (* Extract EXIF before any processing *)
  let exifData := extractExif fileBuffer (originalname file) in
  (* Resize if needed (over 20MB) *)
  let resizeResult := resizeIfNeeded fileBuffer (originalname file) in
  let fileBuffer := buffer resizeResult in
  let* response := upload_fetch w in
  let* data := json response in
  (* response.ok && data.data?.id *)
  let* id := if ok response
             then (let* inner := get data "data" in Ok (opt inner "id"))
             else Ok VNull in
  let* enriched :=
    if (ok response && truthy id)%bool then
      (* Reverse geocode if we have GPS *)
      let hasGps := (truthy (prop exifData "gps_latitude")
                     && truthy (prop exifData "gps_longitude"))%bool in
      let location :=
        if hasGps
        then reverseGeocode (geocode_fetch w) (prop exifData "gps_latitude")
                            (prop exifData "gps_longitude")
        else VNull in
      let exifData :=
        if (hasGps && truthy location)%bool
        then set_prop exifData "location_name" (prop location "display_name")
        else exifData in
      (* Analyze image with Claude Vision *)
      let visionCaption :=
        analyzeImageWithVision anthropic (vision_create w) fileBuffer (mimetype file) in
      (* Generate smart description *)
      let smartDescription := generateSmartDescription exifData location visionCaption in
      (* Auto-apply description to Meural if we generated one: the request
         sits in a try/catch of its own and its outcome is only logged *)
      let applied :=
        if truthy smartDescription
        then try_catch (let* _ := update_request w in Ok tt) (fun _ => tt)
        else tt in
      (* Save to database *)
      let* db1 := savePhotoExif db0 (stmt_run_fault w) (current_timestamp w)
                    id (VStr (originalname file)) exifData in
      Ok (exifData, location, smartDescription, visionCaption, db1)
    else Ok (exifData, VNull, VNull, VNull, db0) in
  let '(exifData, location, smartDescription, visionCaption, db1) := enriched in
  Ok (VObj [
        ("filename", VStr (originalname file));
        ("success", VBool (ok response));
        ("meural_id", if ok response then id else VNull);
        ("data", if ok response then data else VNull);
        ("resized",
           if resized resizeResult
           then VObj [("from", megabytes (originalSize resizeResult));
                      ("to", megabytes (newSize resizeResult));
                      ("dimensions", dimensions resizeResult)]
           else VNull);
        ("exif",
           if ok response
           then VObj [("date_taken", prop exifData "date_taken");
                      ("camera", prop exifData "camera_model");
                      ("lens", prop exifData "lens_model");
                      ("aperture", prop exifData "aperture");
                      ("shutter", prop exifData "shutter_speed");
                      ("iso", prop exifData "iso");
                      ("gps", VBool (truthy (prop exifData "gps_latitude")));
                      ("location",
                         js_or (js_or (opt location "city")
                                      (opt location "display_name")) VNull);
                      ("season", getSeason (prop exifData "date_taken"))]
           else VNull);
        ("vision_caption", visionCaption);
        ("smart_description", smartDescription);
        ("error", if ok response then VNull else data)
      ], db1).

(** One turn of [for (const file of req.files)]: the [try] block, whose last
    two statements are [results.push(entry)] and [fs.unlinkSync(file.path)],
    and the [catch] block, which pushes a failure entry and unlinks inside a
    [try] of its own. *)
Definition process_file (anthropic : bool) (st : State) (fw : File * World) : State :=
  let (file, w) := fw in
  match attempt anthropic file w (db st) with
  | Throw message =>
      {| results := push (results st) (failure_entry file message); db := db st |}
  | Ok (entry, db1) =>
      let pushed := push (results st) entry in
      match unlinkSync_fault w with
      | None => {| results := pushed; db := db1 |}
      | Some message =>
          {| results := push pushed (failure_entry file message); db := db1 |}
      end
  end.

(** The route handler.  [token] is the outcome of [await getToken()]. *)
Definition upload_route (anthropic : bool) (token : result value)
    (files : list (File * World)) (db0 : DB) : Response * DB :=
  match token with
  | Throw message => (Json 500 (VObj [("error", VStr message)]), db0)
  | Ok _ =>
      let final :=
        fold_left (process_file anthropic) files {| results := []; db := db0 |} in
      (Json 200 (VObj [("results", VArr (results final))]), db final)
  end.

End WithRuntime.
End Upload.

(** ** Authentication: [getToken] and [meuralRequest] *)

Module Auth.

(** The two module variables [authToken] and [tokenExpiry]. *)
Record TokenCache : Type := {
  authToken : value;
  tokenExpiry : value
}.

(** [let authToken = null; let tokenExpiry = null;] *)
Definition signed_out : TokenCache :=
  {| authToken := VNull; tokenExpiry := VNull |}.

(** What the outside answers during one call of [getToken]. *)
Record AuthWorld : Type := {
  (** [Date.now()] in the test of the cached token *)
  clock_on_entry : Z;
  (** [process.env.MEURAL_USERNAME] and [process.env.MEURAL_PASSWORD] *)
  env_username : value;
  env_password : value;
  (** the file [.meural-password]: absent, or the outcome of reading it *)
  password_file : option (result string);
  (** [await client.send(command)] *)
  cognito_send : result value;
  (** [Date.now()] when the new token is stored *)
  clock_on_answer : Z
}.

(** [3600000]: one hour, in milliseconds *)
Definition TOKEN_LIFETIME : Z := 3600000.

Section WithRuntime.
Context `{RT : Runtime}.

(** The password: the environment variable, replaced by the trimmed content
    of the password file when the file is there and can be read. *)
Definition read_password (w : AuthWorld) : value :=
  match password_file w with
  | Some (Ok content) => VStr (String_trim content)
  | Some (Throw _) => env_password w
  | None => env_password w
  end.

(** "Auth helper using AWS Cognito": the result and the cache it leaves. *)
Definition getToken (cache : TokenCache) (w : AuthWorld) : result value * TokenCache :=
  if (truthy (authToken cache) && truthy (tokenExpiry cache)
      && js_gt (tokenExpiry cache) (VInt (clock_on_entry w)))%bool
  then (Ok (authToken cache), cache)
  else
    let username := env_username w in
    let password := read_password w in
    if (negb (truthy username) || negb (truthy password))%bool
    then (Throw "MEURAL_USERNAME and MEURAL_PASSWORD must be set in .env", cache)
    else
      match (let* response := cognito_send w in
             let* authentication := get response "AuthenticationResult" in
             Ok (response, opt authentication "AccessToken")) with
      | Throw message => (Throw message, cache)
      | Ok (response, token) =>
          if negb (truthy token)
          then match JSON_stringify response with
               | Ok text => (Throw ("Authentication failed: " ++ ToString text), cache)
               | Throw message => (Throw message, cache)
               end
          else (Ok token,
                {| authToken := token;
                   tokenExpiry := VInt (clock_on_answer w + TOKEN_LIFETIME) |})
      end.

(** "Meural API proxy": [body] is the request body ([null] when there is
    none) and [fetched] the outcome of the request to the vendor. *)
Definition meuralRequest (cache : TokenCache) (w : AuthWorld) (body : value)
    (fetched : result HttpResponse) : result value * TokenCache :=
  match getToken cache w with
  | (Throw message, cache') => (Throw message, cache')
  | (Ok token, cache') =>
      (let* serialized := if truthy body then JSON_stringify body else Ok VUndefined in
       let* res := fetched in
       json res,
       cache')
  end.

End WithRuntime.
End Auth.

(** ** Time of day: [getTimeOfDay] *)

Module TimeOfDay.
Section WithClock.
(** [new Date(v).getHours()], NaN for an invalid date *)
Variable Date_getHours : value -> number.

Definition between (hour : number) (low high : Z) : bool :=
  (Num.ge hour (of_Z low) && Num.lt hour (of_Z high))%bool.

(** "Get time of day from date" *)
Definition getTimeOfDay (dateString : value) : value :=
  if negb (truthy dateString) then VNull
  else
    let hour := Date_getHours dateString in
    if between hour 5 8 then VStr "dawn"
    else if between hour 8 11 then VStr "morning"
    else if between hour 11 14 then VStr "midday"
    else if between hour 14 17 then VStr "afternoon"
    else if between hour 17 20 then VStr "golden hour"
    else if between hour 20 22 then VStr "dusk"
    else VStr "night".

End WithClock.
End TimeOfDay.

(** ** Bulk routes: [POST /api/items/bulk-delete] and [POST /api/items/bulk-analyze] *)

Module Bulk.
Import Enrich Upload.

(** [for (const id of ids)]: the elements of an array, the characters of a
    string; nothing else that a JSON body can hold is iterable. *)
Definition iterate (ids : value) : result (list value) :=
  match ids with
  | VArr elems => Ok elems
  | VStr s => Ok (map (fun c => VStr (String c EmptyString)) (list_ascii_of_string s))
  | _ => Throw "ids is not iterable"
  end.

(** The entry of a failed turn: [{ id, success: false, error: err.message }] *)
Definition failed (id : value) (message : string) : value :=
  VObj [("id", id); ("success", VBool false); ("error", VStr message)].

(** One turn of the loop of bulk-delete; [deleted] is the outcome of
    [meuralRequest('DELETE', '/items/' + id)]. *)
Definition delete_one (id : value) (deleted : result value) : value :=
  try_catch (let* _ := deleted in Ok (VObj [("id", id); ("success", VBool true)]))
            (failed id).

(** The loop, turn by turn; the [i]-th turn gets the [i]-th outcome. *)
Fixpoint delete_loop (ids : list value) (i : nat) (outcome : nat -> result value)
    (entries : list value) : list value :=
  match ids with
  | [] => entries
  | id :: rest =>
      delete_loop rest (S i) outcome (push entries (delete_one id (outcome i)))
  end.

(** The handler of bulk-delete on the request body. *)
Definition bulk_delete (body : value) (outcome : nat -> result value) : Response :=
  match (let* ids := get body "ids" in iterate ids) with
  | Throw message => Json 500 (VObj [("error", VStr message)])
  | Ok ids => Json 200 (VObj [("results", VArr (delete_loop ids 0 outcome []))])
  end.

(** What the outside answers during one turn of bulk-analyze. *)
Record AnalyzeWorld : Type := {
  (** [meuralRequest('GET', '/items/' + id)] *)
  item_request : result value;
  (** [fetch(imageUrl)], then [imageResponse.arrayBuffer()] *)
  image_fetch : result (result Buffer);
  (** [anthropic.messages.create(...)] *)
  caption_create : result value;
  (** [db.prepare(...).get(id)] *)
  stored_record : result value;
  (** the request of [reverseGeocode] *)
  place_fetch : result HttpResponse;
  (** [meuralRequest('PUT', '/items/' + id, ...)] *)
  apply_request : result value
}.

Section WithRuntime.
Context `{RT : Runtime}.

(** One turn of the loop of bulk-analyze: the entry it pushes. *)
Definition analyze_one (anthropic : bool) (apply id : value) (w : AnalyzeWorld)
  : value :=
  try_catch
    ((* Get the photo from Meural *)
     let* itemData := item_request w in
     let* photo := get itemData "data" in
     if negb (truthy photo) then Ok (failed id "Not found")
     else
       let imageUrl := js_or (prop photo "image") (prop photo "image_large") in
       if negb (truthy imageUrl) then Ok (failed id "No image URL")
       else
         (* Download and analyze *)
         let* imageResponse := image_fetch w in
         let* imageBuffer := imageResponse in
         let visionCaption :=
           analyzeImageWithVision anthropic (caption_create w) imageBuffer
             (VStr "image/jpeg") in
         (* Get EXIF and location *)
         let* exifRecord := stored_record w in
         let location :=
           if (truthy (opt exifRecord "gps_latitude")
               && truthy (opt exifRecord "gps_longitude"))%bool
           then reverseGeocode (place_fetch w) (prop exifRecord "gps_latitude")
                               (prop exifRecord "gps_longitude")
           else VNull in
         let smartDescription :=
           generateSmartDescription (js_or exifRecord (VObj [])) location
             visionCaption in
         (* Apply if requested *)
         let* _ := if (truthy apply && truthy smartDescription)%bool
                   then apply_request w else Ok VUndefined in
         Ok (VObj [("id", id);
                   ("success", VBool true);
                   ("vision_caption", visionCaption);
                   ("smart_description", smartDescription);
                   ("applied", VBool (truthy apply && truthy smartDescription))]))
    (failed id).

Fixpoint analyze_loop (anthropic : bool) (apply : value) (ids : list value) (i : nat)
    (world : nat -> AnalyzeWorld) (entries : list value) : list value :=
  match ids with
  | [] => entries
  | id :: rest =>
      analyze_loop anthropic apply rest (S i) world
        (push entries (analyze_one anthropic apply id (world i)))
  end.

(** The handler of bulk-analyze: [const { ids, apply = false } = req.body]. *)
Definition bulk_analyze (anthropic : bool) (body : value)
    (world : nat -> AnalyzeWorld) : Response :=
  match (let* ids := get body "ids" in
         let apply := match prop body "apply" with
                      | VUndefined => VBool false
                      | given => given
                      end in
         let* list := iterate ids in
         Ok (apply, list)) with
  | Throw message => Json 500 (VObj [("error", VStr message)])
  | Ok (apply, ids) =>
      Json 200 (VObj [("results", VArr (analyze_loop anthropic apply ids 0 world []))])
  end.

End WithRuntime.
End Bulk.

(** ** The upload route of the server without EXIF storage ([server.js]) *)

Module Basic.
Import Normalizer Upload.
Section WithRuntime.
Context `{RT : Runtime}.

(** The [try] block up to the entry that [results.push] receives. *)
Definition attempt (file : File) (w : World) : result value :=
  (* Read file *)
  let* fileBuffer := readFileSync w in
  (* Resize if needed (over 20MB) *)
  let resizeResult := resizeIfNeeded fileBuffer (originalname file) in
  let* response := upload_fetch w in
  let* data := json response in
  let* id := if ok response
             then (let* inner := get data "data" in Ok (opt inner "id"))
             else Ok VNull in
  Ok (VObj [
        ("filename", VStr (originalname file));
        ("success", VBool (ok response));
        ("meural_id", if ok response then id else VNull);
        ("data", if ok response then data else VNull);
        ("resized",
           if resized resizeResult
           then VObj [("from", megabytes (originalSize resizeResult));
                      ("to", megabytes (newSize resizeResult));
                      ("dimensions", dimensions resizeResult)]
           else VNull);
        ("error", if ok response then VNull else data)
      ]).

(** One turn of the loop: push, then unlink; the [catch] block pushes a
    failure entry. *)
Definition process_file (entries : list value) (fw : File * World) : list value :=
  let (file, w) := fw in
  match attempt file w with
  | Throw message => push entries (failure_entry file message)
  | Ok entry =>
      let pushed := push entries entry in
      match unlinkSync_fault w with
      | None => pushed
      | Some message => push pushed (failure_entry file message)
      end
  end.

Definition upload_route (token : result value) (files : list (File * World))
  : Response :=
  match token with
  | Throw message => Json 500 (VObj [("error", VStr message)])
  | Ok _ => Json 200 (VObj [("results", VArr (fold_left process_file files []))])
  end.

End WithRuntime.
End Basic.

(** ** A runtime to run the model on

    Libraries answer with fixed outcomes; dates are read off strings of the
    form "YYYY-MM-DDTHH:MM:SS", the form the extractor produces. *)

Module Sample.

Definition digit_value (c : ascii) : option Z :=
  if is_digit c then Some (Z.of_N (N_of_ascii c) - 48) else None.

(** The zero-based month of an ISO-like date string. *)
Definition month_index (s : string) : option Z :=
  match String.get 5 s, String.get 6 s with
  | Some a, Some b =>
      match digit_value a, digit_value b with
      | Some x, Some y =>
          let m := 10 * x + y in
          if ((1 <=? m) && (m <=? 12))%bool then Some (m - 1) else None
      | _, _ => None
      end
  | _, _ => None
  end.

Definition getMonth (v : value) : number :=
  match v with
  | VStr s => match month_index s with Some m => of_Z m | None => NaN end
  | _ => NaN
  end.

Definition month_names : list string :=
  ["January"; "February"; "March"; "April"; "May"; "June"; "July"; "August";
   "September"; "October"; "November"; "December"].

Definition toLocaleDateString (v : value) : string :=
  match v with
  | VStr s =>
      match month_index s with
      | Some m => nth (Z.to_nat m) month_names "" ++ " " ++ substring 0 4 s
      | None => "Invalid Date"
      end
  | _ => "Invalid Date"
  end.

Definition runtime (loaded metadata : result value) (recompressed : result Buffer)
  : Runtime :=
  {| ToNumber_other := fun _ => NaN;
     ToString_other := fun _ => "[object Object]";
     Date_getMonth := getMonth;
     Date_toLocaleDateString := toLocaleDateString;
     Number_toFixed1 := fun _ => "0.0";
     String_trim := fun s => s;
     JSON_stringify := fun _ => Ok (VStr "{}");
     ExifReader_load := fun _ => loaded;
     sharp_metadata := fun _ => metadata;
     sharp_resize_jpeg := fun _ _ _ => recompressed |}.

(** [{ exif: { tag: { value: [n, d] } } }] *)
Definition rational_tag (tag : string) (pair : list value) : value :=
  VObj [("exif", VObj [(tag, VObj [("value", VArr pair)])])].

(** [{ gps: { Latitude: lat, Longitude: lon, Altitude: alt } }] *)
Definition gps_tags (lat lon alt : value) : value :=
  VObj [("gps", VObj [("Latitude", lat); ("Longitude", lon); ("Altitude", alt)])].

Definition photo : Upload.File :=
  {| Upload.path := "/tmp/meural-uploads/3f2a"; Upload.originalname := "a.jpg";
     Upload.mimetype := VStr "image/jpeg" |}.

(** The vendor accepts the upload and assigns the id 42. *)
Definition accepted : HttpResponse :=
  {| ok := true; json := Ok (VObj [("data", VObj [("id", VInt 42)])]) |}.

(** Every call succeeds; no GPS lookup answer and no caption are needed. *)
Definition calm : Upload.World :=
  {| Upload.readFileSync := Ok [Byte.xff; Byte.xd8];
     Upload.upload_fetch := Ok accepted;
     Upload.geocode_fetch := Throw "fetch failed";
     Upload.vision_create := Throw "Connection error.";
     Upload.update_request := Ok (VObj []);
     Upload.stmt_run_fault := None;
     Upload.current_timestamp := VStr "2026-01-01 00:00:00";
     Upload.unlinkSync_fault := None |}.

(** The same, except that the temp file cannot be removed. *)
Definition stuck_tempfile : Upload.World :=
  {| Upload.readFileSync := Ok [Byte.xff; Byte.xd8];
     Upload.upload_fetch := Ok accepted;
     Upload.geocode_fetch := Throw "fetch failed";
     Upload.vision_create := Throw "Connection error.";
     Upload.update_request := Ok (VObj []);
     Upload.stmt_run_fault := None;
     Upload.current_timestamp := VStr "2026-01-01 00:00:00";
     Upload.unlinkSync_fault := Some "EPERM: operation not permitted, unlink" |}.

(** A runtime whose parser rejects every buffer. *)
Definition unreadable : Runtime :=
  runtime (Throw "Invalid image format") (Throw "Input buffer is empty")
          (Throw "Input buffer is empty").

(** A runtime whose parser finds the given tags. *)
Definition reading (tags : value) : Runtime :=
  runtime (Ok tags) (Throw "Input buffer is empty") (Throw "Input buffer is empty").

(** A buffer one byte over the size limit, and a runtime that sees a
    6000 by 4000 image in it and recompresses it to two bytes. *)
Definition oversized : Buffer :=
  repeat Byte.x00 (Z.to_nat (Normalizer.MAX_FILE_SIZE + 1)).

Definition sharp_6000_4000 : Runtime :=
  runtime (Throw "Invalid image format")
          (Ok (VObj [("width", VInt 6000); ("height", VInt 4000)]))
          (Ok [Byte.xff; Byte.xd8]).


(** A record with every field null except the date. *)
Definition dated_record : value :=
  VObj (("date_taken", VStr "2024-01-15T10:00:00")
        :: map (fun field => (field, VNull)) (tl typed_fields ++ ["exif_json"])).

End Sample.

(** ** Vocabulary of the statements *)

(** The computation returned (did not throw). *)
Definition returns {A : Type} (m : result A) : bool :=
  match m with
  | Ok _ => true
  | Throw _ => false
  end.

(** [tags.group?.tag?.field] on tags that are an object. *)
Definition tagv (tags : value) (group tag field : string) : value :=
  opt (opt (prop tags group) tag) field.

(** The exact quotient of two integers, as the number [n / d] for [d <> 0]. *)
Definition quotient (n d : Z) : number := Fin (Qred (inject_Z n / inject_Z d)).

(** [Math.round(a * (3000 / w))] for integers [a] and [w > 0]. *)
Definition scaled (a w : Z) : Z := (6000 * a + w) / (2 * w).

(** The season of a zero-based month, in the words of the specification:
    months 2-4 are Spring, 5-7 Summer, 8-10 Fall, every other month Winter. *)
Definition season_of_month (m : Z) : string :=
  if ((2 <=? m) && (m <=? 4))%bool then "Spring"
  else if ((5 <=? m) && (m <=? 7))%bool then "Summer"
  else if ((8 <=? m) && (m <=? 10))%bool then "Fall"
  else "Winter".

(** The runtime with another month-and-year formatter. *)
Definition with_formatter (RT : Runtime) (formatter : value -> string) : Runtime :=
  {| ToNumber_other := @ToNumber_other RT;
     ToString_other := @ToString_other RT;
     Date_getMonth := @Date_getMonth RT;
     Date_toLocaleDateString := formatter;
     Number_toFixed1 := @Number_toFixed1 RT;
     String_trim := @String_trim RT;
     JSON_stringify := @JSON_stringify RT;
     ExifReader_load := @ExifReader_load RT;
     sharp_metadata := @sharp_metadata RT;
     sharp_resize_jpeg := @sharp_resize_jpeg RT |}.

(** The [exif] part of the result entry of an accepted upload whose metadata
    could not be read: the six fields copied from the record are absent,
    there is no GPS, no place and no season. *)
Definition degraded_exif : value :=
  VObj [("date_taken", VUndefined); ("camera", VUndefined); ("lens", VUndefined);
        ("aperture", VUndefined); ("shutter", VUndefined); ("iso", VUndefined);
        ("gps", VBool false); ("location", VNull); ("season", VNull)].

(** A step of the [try] block after the file was read throws with the given
    message: the upload request, the parsing of its answer, or the write to
    the store that follows an accepted upload with an id. *)
Definition step_throws (w : Upload.World) (message : string) : Prop :=
  Upload.upload_fetch w = Throw message \/
  (exists response,
     Upload.upload_fetch w = Ok response /\ json response = Throw message) \/
  (exists response data,
     Upload.upload_fetch w = Ok response /\ json response = Ok data /\
     ok response = true /\ nullish data = false /\
     truthy (opt (prop data "data") "id") = true /\
     Upload.stmt_run_fault w = Some message).

(** The file names of a list of result entries. *)
Definition filenames (entries : list value) : list value :=
  map (fun entry => prop entry "filename") entries.

(** A table the server can have built: it starts empty and changes only
    through [savePhotoExif]. *)
Inductive reachable : Store.DB -> Prop :=
| reachable_empty : reachable Store.empty
| reachable_save (db db' : Store.DB) (fault : option string)
    (now meuralId filename exifData : value) :
    reachable db ->
    Store.savePhotoExif db fault now meuralId filename exifData = Ok db' ->
    reachable db'.

(** The column names of a row, in order. *)
Definition columns_of (row : value) : list string :=
  match row with
  | VObj props => map fst props
  | _ => []
  end.

(** The types [CREATE TABLE photos] declares for its columns. *)
Inductive ColumnType : Type := INTEGER | REAL | TEXT.

Definition declared_types : list (string * ColumnType) :=
  [("id", INTEGER); ("meural_id", INTEGER); ("original_filename", TEXT);
   ("uploaded_at", TEXT);
   ("date_taken", TEXT); ("camera_make", TEXT); ("camera_model", TEXT);
   ("lens_model", TEXT); ("focal_length", REAL); ("focal_length_35mm", REAL);
   ("aperture", REAL); ("shutter_speed", TEXT); ("iso", INTEGER);
   ("exposure_compensation", REAL);
   ("gps_latitude", REAL); ("gps_longitude", REAL); ("gps_altitude", REAL);
   ("location_name", TEXT);
   ("width", INTEGER); ("height", INTEGER); ("orientation", INTEGER);
   ("color_space", TEXT); ("white_balance", TEXT);
   ("exif_json", TEXT)].

Definition declared_type (column : string) : option ColumnType :=
  option_map snd (find (fun entry => String.eqb column (fst entry)) declared_types).

(** The bound values that a column of the given type holds as they were
    bound: NULL, text in a TEXT column, a finite number in an INTEGER or
    REAL column.  Every other value is one the engine converts on the way in
    (undefined, NaN, a number for a TEXT column, text for a numeric column)
    or refuses to bind (booleans, arrays, objects). *)
Definition stored_as_bound (type : ColumnType) (v : value) : bool :=
  match v, type with
  | VNull, _ => true
  | VStr _, TEXT => true
  | VNum (Fin _), INTEGER | VNum (Fin _), REAL => true
  | _, _ => false
  end.

(** The part of a result entry that both upload routes produce. *)
Definition core_fields (entry : value) : list value :=
  map (prop entry) ["filename"; "success"; "meural_id"; "data"; "resized"; "error"].

(** The world of a turn of bulk-analyze with another outcome for the
    request that writes the description to the vendor. *)
Definition with_apply_request (w : Bulk.AnalyzeWorld) (outcome : result value)
  : Bulk.AnalyzeWorld :=
  {| Bulk.item_request := Bulk.item_request w;
     Bulk.image_fetch := Bulk.image_fetch w;
     Bulk.caption_create := Bulk.caption_create w;
     Bulk.stored_record := Bulk.stored_record w;
     Bulk.place_fetch := Bulk.place_fetch w;
     Bulk.apply_request := outcome |}.

(** What a file and its result entry have to do with each other: the entry
    carries the file's name, and reports success only if the vendor
    accepted the upload. *)
Definition entry_of (fw : Upload.File * Upload.World) (entry : value) : Prop :=
  prop entry "filename" = VStr (Upload.originalname (fst fw)) /\
  (prop entry "success" = VBool true ->
   exists response,
     Upload.upload_fetch (snd fw) = Ok response /\ ok response = true).

(** The entries of the turns [i], [i+1], ... of a bulk loop. *)
Fixpoint turns {W : Type} (one : value -> W -> value) (ids : list value) (i : nat)
    (world : nat -> W) : list value :=
  match ids with
  | [] => []
  | id :: rest => one id (world i) :: turns one rest (S i) world
  end.

(** Inputs to run the other routes on. *)
Module Scenario.

(** The server was started with a user name and a password, and Cognito
    answers with the token "abc" at time 1000. *)
Definition signing_in : Auth.AuthWorld :=
  {| Auth.clock_on_entry := 1000;
     Auth.env_username := VStr "me@example.com";
     Auth.env_password := VStr "secret";
     Auth.password_file := None;
     Auth.cognito_send :=
       Ok (VObj [("AuthenticationResult", VObj [("AccessToken", VStr "abc")])]);
     Auth.clock_on_answer := 1000 |}.

(** Half an hour later Cognito is down. *)
Definition cognito_down : Auth.AuthWorld :=
  {| Auth.clock_on_entry := 1801000;
     Auth.env_username := VStr "me@example.com";
     Auth.env_password := VStr "secret";
     Auth.password_file := None;
     Auth.cognito_send := Throw "getaddrinfo ENOTFOUND";
     Auth.clock_on_answer := 1801000 |}.

(** The password file is there and holds nothing. *)
Definition blank_password_file : Auth.AuthWorld :=
  {| Auth.clock_on_entry := 1000;
     Auth.env_username := VStr "me@example.com";
     Auth.env_password := VStr "secret";
     Auth.password_file := Some (Ok "");
     Auth.cognito_send :=
       Ok (VObj [("AuthenticationResult", VObj [("AccessToken", VStr "abc")])]);
     Auth.clock_on_answer := 1000 |}.

(** The vendor refuses the upload. *)
Definition refused : HttpResponse :=
  {| ok := false; json := Ok (VObj [("detail", VStr "Invalid image")]) |}.

Definition rejected_upload : Upload.World :=
  {| Upload.readFileSync := Ok [Byte.xff; Byte.xd8];
     Upload.upload_fetch := Ok refused;
     Upload.geocode_fetch := Throw "fetch failed";
     Upload.vision_create := Throw "Connection error.";
     Upload.update_request := Ok (VObj []);
     Upload.stmt_run_fault := None;
     Upload.current_timestamp := VStr "2026-01-01 00:00:00";
     Upload.unlinkSync_fault := None |}.

(** The upload is accepted and the database is locked. *)
Definition locked_database : Upload.World :=
  {| Upload.readFileSync := Ok [Byte.xff; Byte.xd8];
     Upload.upload_fetch := Ok Sample.accepted;
     Upload.geocode_fetch := Throw "fetch failed";
     Upload.vision_create := Throw "Connection error.";
     Upload.update_request := Ok (VObj []);
     Upload.stmt_run_fault := Some "database is locked";
     Upload.current_timestamp := VStr "2026-01-01 00:00:00";
     Upload.unlinkSync_fault := None |}.

(** A table after one write for the remote id 42. *)
Definition after_one_write : Store.DB :=
  Store.insert_or_replace Store.empty (VStr "2026-01-01 00:00:00")
    (Store.run_parameters (VInt 42) (VStr "a.jpg") Sample.dated_record).

(** The vendor knows the photo and its image can be fetched; a caption
    comes back; applying it fails. *)
Definition captioned : Bulk.AnalyzeWorld :=
  {| Bulk.item_request :=
       Ok (VObj [("data", VObj [("image", VStr "https://example.com/1.jpg")])]);
     Bulk.image_fetch := Ok (Ok [Byte.xff; Byte.xd8]);
     Bulk.caption_create :=
       Ok (VObj [("content", VArr [VObj [("text", VStr "Quiet morning with coffee")]])]);
     Bulk.stored_record := Ok VUndefined;
     Bulk.place_fetch := Throw "fetch failed";
     Bulk.apply_request := Throw "Request failed with status 429" |}.

(** EXIF tags with the date "2024:09:25 14:30:00". *)
Definition dated_tags : value :=
  VObj [("exif", VObj [("DateTimeOriginal",
                        VObj [("description", VStr "2024:09:25 14:30:00")])])].

(** EXIF tags whose date description is a number. *)
Definition numeric_date_tags : value :=
  VObj [("exif", VObj [("DateTimeOriginal", VObj [("description", VInt 20240925)])])].

(** A runtime that sees a 2000 by 1000 image in every buffer. *)
Definition sharp_2000_1000 : Runtime :=
  Sample.runtime (Throw "Invalid image format")
                 (Ok (VObj [("width", VInt 2000); ("height", VInt 1000)]))
                 (Ok [Byte.xff; Byte.xd8]).

(** A clock for [getTimeOfDay] that reads the hour off an ISO-like string. *)
Definition getHours (v : value) : number :=
  match v with
  | VStr s =>
      match String.get 11 s, String.get 12 s with
      | Some a, Some b =>
          match Sample.digit_value a, Sample.digit_value b with
          | Some x, Some y => of_Z (10 * x + y)
          | _, _ => NaN
          end
      | _, _ => NaN
      end
  | _ => NaN
  end.

(** A geotagged photo: the upload is accepted and the lookup service
    answers with a town. *)
Definition geotagged : Upload.World :=
  {| Upload.readFileSync := Ok [Byte.xff; Byte.xd8];
     Upload.upload_fetch := Ok Sample.accepted;
     Upload.geocode_fetch :=
       Ok {| ok := true;
             json := Ok (VObj [("address", VObj [("town", VStr "Giverny");
                                                 ("country", VStr "France")])]) |};
     Upload.vision_create := Throw "Connection error.";
     Upload.update_request := Ok (VObj []);
     Upload.stmt_run_fault := None;
     Upload.current_timestamp := VStr "2026-01-01 00:00:00";
     Upload.unlinkSync_fault := None |}.

(** The lookup service answers for a town. *)
Definition town_answer : HttpResponse :=
  {| ok := true;
     json := Ok (VObj [("address", VObj [("town", VStr "Giverny");
                                         ("state", VStr "Normandy");
                                         ("country", VStr "France")])]) |}.

End Scenario.

(** * Facts *)

Lemma returns_Ok {A : Type} (m : result A) :
  returns m = true -> exists a, m = Ok a.
Proof. destruct m as [a|e]; [eauto | discriminate]. Qed.

Lemma get_not_nullish (o : value) (k : string) :
  nullish o = false -> get o k = Ok (prop o k).
Proof. unfold get; intros ->; reflexivity. Qed.

(** ** Numbers *)

Lemma is_zero_inject_Z (z : Z) : is_zero (inject_Z z) = (z =? 0).
Proof.
  unfold is_zero, Qeq_bool, inject_Z; simpl.
  rewrite Z.mul_1_r. reflexivity.
Qed.

Lemma is_pos_inject_Z (z : Z) : is_pos (inject_Z z) = (0 <? z).
Proof.
  unfold is_pos, Qle_bool, inject_Z; simpl.
  rewrite Z.mul_1_r. rewrite Z.ltb_antisym. reflexivity.
Qed.

Lemma div_of_Z (n d : Z) :
  Num.div (of_Z n) (of_Z d) =
  if d =? 0 then (if n =? 0 then NaN else if 0 <? n then PInf else NInf)
  else quotient n d.
Proof.
  unfold Num.div, of_Z, quotient.
  rewrite !is_zero_inject_Z, is_pos_inject_Z. reflexivity.
Qed.

Lemma truthy_quotient (n d : Z) :
  d <> 0 -> Num.truthy (quotient n d) = negb (n =? 0).
Proof.
  intros Hd. unfold Num.truthy, quotient, is_zero. f_equal.
  destruct (Z.eqb_spec n 0) as [->|Hn].
  - apply Qeq_bool_iff. rewrite Qred_correct. unfold Qdiv. apply Qmult_0_l.
  - apply not_true_iff_false. intros H. apply Qeq_bool_iff in H.
    rewrite Qred_correct in H.
    assert (Hq : ~ inject_Z d == 0).
    { unfold Qeq, inject_Z; simpl. lia. }
    apply (Qmult_inj_r _ _ (inject_Z d) Hq) in H.
    rewrite Qmult_0_l in H. unfold Qdiv in H.
    rewrite <- Qmult_assoc, (Qmult_comm (/ _)), Qmult_inv_r, Qmult_1_r in H by exact Hq.
    unfold Qeq, inject_Z in H; simpl in H. lia.
Qed.

(** ** Metadata Extractor *)

Section ExtractorFacts.
Context `{RT : Runtime}.

(** Opens a successful run of the body of [extractExif]: the tags are an
    object, the date was a string or missing, and the blob was serialized. *)
Ltac open_extract H :=
  unfold extract_from_tags, tag_field, get in H;
  (destruct (nullish _) eqn:?; [discriminate H |]);
  cbn [bind] in H;
  match type of H with
  | context [if truthy ?d then normalize_date ?d else _] =>
      destruct (truthy d); [destruct (normalize_date d); [| discriminate H] |]
  end;
  cbn [bind] in H;
  (destruct (JSON_stringify _); [| discriminate H]);
  cbn [bind] in H;
  injection H as <-.

Lemma extract_aperture (tags r : value) :
  extract_from_tags tags = Ok r ->
  prop r "aperture" =
    let v := tagv tags "exif" "FNumber" "value" in
    if truthy v then js_div (index v 0) (index v 1) else VNull.
Proof. intros H. open_extract H; reflexivity. Qed.

Lemma extract_exposure_compensation (tags r : value) :
  extract_from_tags tags = Ok r ->
  prop r "exposure_compensation" =
    let v := tagv tags "exif" "ExposureBiasValue" "value" in
    js_or (js_div (opt_index v 0) (opt_index v 1)) VNull.
Proof. intros H. open_extract H; reflexivity. Qed.

Lemma extract_gps (tags r : value) :
  extract_from_tags tags = Ok r ->
  let gps := prop tags "gps" in
  let both := (truthy (opt gps "Latitude") && truthy (opt gps "Longitude"))%bool in
  prop r "gps_latitude" = (if both then prop gps "Latitude" else VNull) /\
  prop r "gps_longitude" = (if both then prop gps "Longitude" else VNull) /\
  prop r "gps_altitude" = (if both then js_or (opt gps "Altitude") VNull else VNull).
Proof. intros H. open_extract H; repeat split; reflexivity. Qed.

Lemma extractExif_returned (buffer : Buffer) (filename : string) (tags r : value) :
  ExifReader_load buffer = Ok tags ->
  extract_from_tags tags = Ok r ->
  extractExif buffer filename = r.
Proof. intros Hload Hbody. unfold extractExif. rewrite Hload. cbn. rewrite Hbody. reflexivity. Qed.

Lemma extractExif_caught (buffer : Buffer) (filename : string) :
  returns (let* tags := ExifReader_load buffer in extract_from_tags tags) = false ->
  extractExif buffer filename = degraded_record.
Proof.
  unfold extractExif. destruct (let* tags := _ in _); [discriminate | reflexivity].
Qed.

(** The extractor is a function into records: whatever happens inside, it
    hands back either the degraded record or the record its body built. *)
Lemma extractExif_total (buffer : Buffer) (filename : string) :
  extractExif buffer filename = degraded_record \/
  exists tags, ExifReader_load buffer = Ok tags /\
               extract_from_tags tags = Ok (extractExif buffer filename).
Proof.
  unfold extractExif. destruct (ExifReader_load buffer) as [tags|e]; cbn; [| now left].
  destruct (extract_from_tags tags) as [r|e] eqn:Hbody; cbn; [| now left].
  right. exists tags. split; [reflexivity | exact Hbody].
Qed.

Lemma div_pair (n d : Z) :
  js_div (index (VArr [VInt n; VInt d]) 0) (index (VArr [VInt n; VInt d]) 1) =
  VNum (Num.div (of_Z n) (of_Z d)).
Proof. reflexivity. Qed.

(** C2 (as amended): a rational pair [(n, d)] with [d <> 0] is stored as the
    quotient [n / d], so [(28, 10)] gives 2.8 (for the exposure compensation
    when the quotient is not zero); with a zero denominator and a non-zero
    numerator both fields hold plus or minus Infinity, by the sign of the
    numerator, and not null; an exposure-compensation pair [0/0] or one
    without a denominator gives null.  The extractor is a total function, so
    none of these inputs raises an exception. *)
Theorem rational_pair_division (buffer : Buffer) (filename : string)
    (tags : value) (n d : Z) :
  ExifReader_load buffer = Ok tags ->
  returns (extract_from_tags tags) = true ->
  let record := extractExif buffer filename in
  (tagv tags "exif" "FNumber" "value" = VArr [VInt n; VInt d] ->
     (d <> 0 -> prop record "aperture" = VNum (quotient n d)) /\
     (n = 28 -> d = 10 -> prop record "aperture" = VNum (Fin (14 # 5))) /\
     (d = 0 -> 0 < n -> prop record "aperture" = VNum PInf) /\
     (d = 0 -> n < 0 -> prop record "aperture" = VNum NInf)) /\
  (tagv tags "exif" "ExposureBiasValue" "value" = VArr [VInt n; VInt d] ->
     (d <> 0 -> n <> 0 ->
        prop record "exposure_compensation" = VNum (quotient n d)) /\
     (d = 0 -> 0 < n -> prop record "exposure_compensation" = VNum PInf) /\
     (d = 0 -> n < 0 -> prop record "exposure_compensation" = VNum NInf) /\
     (d = 0 -> n = 0 -> prop record "exposure_compensation" = VNull)) /\
  (tagv tags "exif" "ExposureBiasValue" "value" = VArr [VInt n] ->
     prop record "exposure_compensation" = VNull).
Proof.
  intros Hload Hret record.
  destruct (returns_Ok _ Hret) as [r Hbody].
  assert (Hrec : record = r) by (apply (extractExif_returned _ _ tags); assumption).
  rewrite Hrec. clear record Hrec.
  split; [| split].
  - intros Hv. rewrite (extract_aperture _ _ Hbody). cbv zeta. rewrite Hv.
    cbn [truthy]. rewrite div_pair, div_of_Z.
    repeat split.
    + intros Hd. apply Z.eqb_neq in Hd. rewrite Hd. reflexivity.
    + intros -> ->. reflexivity.
    + intros -> Hn. cbn. replace (n =? 0) with false by lia.
      replace (0 <? n) with true by lia. reflexivity.
    + intros -> Hn. cbn. replace (n =? 0) with false by lia.
      replace (0 <? n) with false by lia. reflexivity.
  - intros Hv. rewrite (extract_exposure_compensation _ _ Hbody). cbv zeta. rewrite Hv.
    change (opt_index (VArr [VInt n; VInt d]) 0) with (index (VArr [VInt n; VInt d]) 0).
    change (opt_index (VArr [VInt n; VInt d]) 1) with (index (VArr [VInt n; VInt d]) 1).
    rewrite div_pair, div_of_Z. unfold js_or.
    repeat split.
    + intros Hd Hn. pose proof (truthy_quotient n d Hd) as Ht.
      apply Z.eqb_neq in Hd. rewrite Hd. cbn [truthy]. rewrite Ht.
      apply Z.eqb_neq in Hn. rewrite Hn. reflexivity.
    + intros -> Hn. cbn. replace (n =? 0) with false by lia.
      replace (0 <? n) with true by lia. reflexivity.
    + intros -> Hn. cbn. replace (n =? 0) with false by lia.
      replace (0 <? n) with false by lia. reflexivity.
    + intros -> ->. reflexivity.
  - intros Hv. rewrite (extract_exposure_compensation _ _ Hbody). cbv zeta. rewrite Hv.
    reflexivity.
Qed.

Lemma quotient_zero (d : Z) : quotient 0 d = Fin 0.
Proof.
  unfold quotient. change (Fin 0) with (Fin (Qred 0)). f_equal.
Qed.

(** An aperture pair with numerator 0 is stored as 0 ... *)
Lemma aperture_zero_kept (buffer : Buffer) (filename : string) (tags : value) (d : Z) :
  ExifReader_load buffer = Ok tags ->
  returns (extract_from_tags tags) = true ->
  tagv tags "exif" "FNumber" "value" = VArr [VInt 0; VInt d] ->
  d <> 0 ->
  prop (extractExif buffer filename) "aperture" = VNum (Fin 0).
Proof.
  intros Hload Hret Hv Hd.
  destruct (returns_Ok _ Hret) as [r Hbody].
  rewrite (extractExif_returned _ _ _ _ Hload Hbody).
  rewrite (extract_aperture _ _ Hbody). cbv zeta. rewrite Hv.
  cbn [truthy]. rewrite div_pair, div_of_Z.
  apply Z.eqb_neq in Hd. rewrite Hd, quotient_zero. reflexivity.
Qed.

(** ... while an exposure-compensation pair with numerator 0 is stored as
    null, and so are both fields when their tag is missing. *)
Lemma exposure_compensation_zero_lost (buffer : Buffer) (filename : string)
    (tags : value) (d : Z) :
  ExifReader_load buffer = Ok tags ->
  returns (extract_from_tags tags) = true ->
  tagv tags "exif" "ExposureBiasValue" "value" = VArr [VInt 0; VInt d] ->
  d <> 0 ->
  prop (extractExif buffer filename) "exposure_compensation" = VNull.
Proof.
  intros Hload Hret Hv Hd.
  destruct (returns_Ok _ Hret) as [r Hbody].
  rewrite (extractExif_returned _ _ _ _ Hload Hbody).
  rewrite (extract_exposure_compensation _ _ Hbody). cbv zeta. rewrite Hv.
  change (opt_index (VArr [VInt 0; VInt d]) 0) with (index (VArr [VInt 0; VInt d]) 0).
  change (opt_index (VArr [VInt 0; VInt d]) 1) with (index (VArr [VInt 0; VInt d]) 1).
  rewrite div_pair, div_of_Z. apply Z.eqb_neq in Hd. rewrite Hd, quotient_zero.
  reflexivity.
Qed.

Lemma missing_rational_is_null (buffer : Buffer) (filename : string) (tags : value) :
  ExifReader_load buffer = Ok tags ->
  returns (extract_from_tags tags) = true ->
  (tagv tags "exif" "FNumber" "value" = VUndefined ->
     prop (extractExif buffer filename) "aperture" = VNull) /\
  (tagv tags "exif" "ExposureBiasValue" "value" = VUndefined ->
     prop (extractExif buffer filename) "exposure_compensation" = VNull).
Proof.
  intros Hload Hret.
  destruct (returns_Ok _ Hret) as [r Hbody].
  rewrite (extractExif_returned _ _ _ _ Hload Hbody).
  split; intros Hv.
  - rewrite (extract_aperture _ _ Hbody). cbv zeta. rewrite Hv. reflexivity.
  - rewrite (extract_exposure_compensation _ _ Hbody). cbv zeta. rewrite Hv. reflexivity.
Qed.

(** X30: the three GPS fields go together.  When the latitude and the
    longitude tags both pass the extractor's test (they are truthy), the
    record holds them as they are, with the altitude or null; in every other
    case, in particular when either tag is absent, latitude, longitude and
    altitude are null together. *)
Theorem gps_all_or_nothing (buffer : Buffer) (filename : string) (tags : value) :
  ExifReader_load buffer = Ok tags ->
  returns (extract_from_tags tags) = true ->
  let record := extractExif buffer filename in
  let lat := opt (prop tags "gps") "Latitude" in
  let lon := opt (prop tags "gps") "Longitude" in
  (truthy lat = true -> truthy lon = true ->
     prop record "gps_latitude" = lat /\
     prop record "gps_longitude" = lon /\
     prop record "gps_altitude" = js_or (opt (prop tags "gps") "Altitude") VNull) /\
  (truthy lat = false \/ truthy lon = false ->
     prop record "gps_latitude" = VNull /\
     prop record "gps_longitude" = VNull /\
     prop record "gps_altitude" = VNull) /\
  (nullish lat = true \/ nullish lon = true ->
     prop record "gps_latitude" = VNull /\
     prop record "gps_longitude" = VNull /\
     prop record "gps_altitude" = VNull).
Proof.
  intros Hload Hret record lat lon.
  destruct (returns_Ok _ Hret) as [r Hbody].
  assert (Hrec : record = r) by (apply (extractExif_returned _ _ tags); assumption).
  rewrite Hrec. clear record Hrec.
  destruct (extract_gps _ _ Hbody) as (Hlat & Hlon & Halt).
  fold lat lon in Hlat, Hlon, Halt.
  assert (Hfalse : truthy lat = false \/ truthy lon = false ->
            prop r "gps_latitude" = VNull /\ prop r "gps_longitude" = VNull /\
            prop r "gps_altitude" = VNull).
  { intros Hno. rewrite Hlat, Hlon, Halt.
    destruct Hno as [-> | ->]; [| rewrite andb_false_r]; repeat split; reflexivity. }
  split; [| split].
  - intros Ha Ho. rewrite Hlat, Hlon, Halt, Ha, Ho. cbn [andb].
    repeat split.
    + subst lat. unfold opt in *. destruct (nullish (prop tags "gps")); [discriminate | reflexivity].
    + subst lon. unfold opt in *. destruct (nullish (prop tags "gps")); [discriminate | reflexivity].
  - exact Hfalse.
  - intros Hno. apply Hfalse.
    destruct Hno as [Hn | Hn]; [left | right];
      [destruct lat | destruct lon]; try discriminate; reflexivity.
Qed.

(** A failed parse gives the degraded record: the blob is null and no typed
    field is set. *)
Lemma extractExif_degraded (buffer : Buffer) (filename message : string) :
  ExifReader_load buffer = Throw message ->
  extractExif buffer filename = degraded_record.
Proof. intros H. unfold extractExif. rewrite H. reflexivity. Qed.

Lemma degraded_record_fields :
  prop degraded_record "exif_json" = VNull /\
  Forall (fun field => prop degraded_record field = VUndefined) typed_fields.
Proof. split; [reflexivity |]. repeat constructor. Qed.

End ExtractorFacts.

(** ** Metadata Store *)

Module StoreFacts.
Import Store.

Lemma sql_eq_sym (a b : value) : sql_eq a b = sql_eq b a.
Proof.
  destruct a as [| | |[x| | |]|s| |], b as [| | |[y| | |]|t| |]; cbn; try reflexivity.
  - apply eq_true_iff_eq. rewrite !Qeq_bool_iff. split; intros H; symmetry; exact H.
  - apply String.eqb_sym.
Qed.

Lemma sql_eq_trans (a b c : value) :
  sql_eq a b = true -> sql_eq b c = true -> sql_eq a c = true.
Proof.
  destruct a as [| | |[x| | |]|s| |], b as [| | |[y| | |]|t| |]; cbn; try discriminate;
    destruct c as [| | |[z| | |]|u| |]; cbn; try discriminate; try reflexivity.
  - rewrite !Qeq_bool_iff. intros H1 H2. rewrite H1. exact H2.
  - rewrite !String.eqb_eq. congruence.
Qed.

(** Two ids that both equal a third one equal each other. *)
Lemma sql_eq_common (a b m : value) :
  sql_eq a m = true -> sql_eq b m = true -> sql_eq a b = true.
Proof.
  intros Ha Hb. apply (sql_eq_trans a m b); [exact Ha |].
  rewrite sql_eq_sym. exact Hb.
Qed.

Lemma Forall_filter_keep {A : Type} (P : A -> Prop) (f : A -> bool) (l : list A) :
  Forall P l -> Forall P (filter f l).
Proof.
  induction 1 as [| x l Hx Hl IH]; cbn; [constructor |].
  destruct (f x); [constructor; assumption | assumption].
Qed.

Lemma unique_ids_filter (f : value -> bool) (rows : list value) :
  unique_ids rows -> unique_ids (filter f rows).
Proof.
  induction rows as [| row rest IH]; cbn; [trivial |].
  intros [Hrow Hrest]. destruct (f row); cbn; auto.
  split; [apply Forall_filter_keep; exact Hrow | auto].
Qed.

Lemma unique_ids_snoc (rows : list value) (row : value) :
  unique_ids rows ->
  Forall (fun earlier => has_meural_id (prop earlier "meural_id") row = false) rows ->
  unique_ids (rows ++ [row]).
Proof.
  induction rows as [| r rest IH]; cbn.
  - intros _ _. split; [constructor | trivial].
  - intros [Hr Hrest] Hall. inversion Hall as [| ? ? Hhead Htail]; subst.
    split; [| apply IH; assumption].
    apply Forall_app. split; [exact Hr | constructor; [exact Hhead | constructor]].
Qed.

(** Under the UNIQUE constraint a lookup by remote id finds at most one row. *)
Lemma unique_ids_at_most_one (rows : list value) (m : value) :
  unique_ids rows -> (List.length (filter (has_meural_id m) rows) <= 1)%nat.
Proof.
  induction rows as [| row rest IH]; cbn; [lia |].
  intros [Hrow Hrest]. specialize (IH Hrest).
  destruct (has_meural_id m row) eqn:Hm; [| exact IH].
  assert (Hnone : filter (has_meural_id m) rest = []).
  { clear IH Hrest.
    induction rest as [| later rest' IHr]; cbn; [reflexivity |].
    inversion Hrow as [| ? ? Hlater Hrest']; subst.
    destruct (has_meural_id m later) eqn:Hl; [| auto].
    unfold has_meural_id in *.
    rewrite sql_eq_sym, (sql_eq_common _ _ m Hm Hl) in Hlater. discriminate. }
  cbn. rewrite Hnone. cbn. lia.
Qed.

Lemma filter_removed (m : value) (rows : list value) :
  filter (has_meural_id m) (filter (fun r => negb (has_meural_id m r)) rows) = [].
Proof.
  induction rows as [| row rest IH]; cbn; [reflexivity |].
  destruct (has_meural_id m row) eqn:Hm; cbn; [exact IH |].
  rewrite Hm. exact IH.
Qed.


Lemma savePhotoExif_photos (db db' : DB) (fault : option string)
    (now meuralId filename exifData : value) :
  savePhotoExif db fault now meuralId filename exifData = Ok db' ->
  photos db' =
    (filter (fun r => negb (has_meural_id meuralId r)) (photos db)
     ++ [new_row (last_rowid db + 1) now
           (run_parameters meuralId filename exifData)])%list
  /\ last_rowid db' = last_rowid db + 1.
Proof.
  unfold savePhotoExif. destruct fault; [discriminate |].
  intros H. injection H as <-. split; reflexivity.
Qed.


End StoreFacts.

(** ** Image Normalizer *)

Section NormalizerFacts.
Context `{RT : Runtime}.
Import Normalizer.

Lemma gt_of_Z (a b : Z) : js_gt (VInt a) (VInt b) = (b <? a).
Proof.
  unfold js_gt, Num.gt, Num.lt, VInt, ToNumber, of_Z, Qle_bool, inject_Z.
  cbn [Qnum Qden]. rewrite !Z.mul_1_r. symmetry. apply Z.ltb_antisym.
Qed.

Lemma round_scaled (a w : Z) :
  0 < w ->
  Num.round (Num.mul (of_Z a) (Num.div (of_Z 3000) (of_Z w))) = of_Z (scaled a w).
Proof.
  intros Hw. rewrite div_of_Z. replace (w =? 0) with false by lia.
  unfold quotient, Num.mul, Num.round, of_Z, scaled. do 2 f_equal.
  destruct w as [| p | p]; try lia.
  transitivity (Qfloor ((6000 * a + Zpos p) # (2 * p))); [| reflexivity].
  apply Qfloor_comp.
  rewrite !Qred_correct.
  unfold Qeq, Qdiv, Qmult, Qplus, Qinv, inject_Z; cbn [Qnum Qden].
  rewrite ?Pos2Z.inj_mul. lia.
Qed.

(** The new dimensions of an image of [w] by [h] pixels. *)
Lemma new_dimensions_integers (w h : Z) :
  0 < w -> 0 < h ->
  new_dimensions (VInt w) (VInt h) =
    if ((h <? w) && (3000 <? w))%bool then (VInt 3000, VInt (scaled h w))
    else if 3000 <? h then (VInt (scaled w h), VInt 3000)
    else (VInt w, VInt h).
Proof.
  intros Hw Hh. unfold new_dimensions, MAX_DIMENSION.
  rewrite !gt_of_Z.
  unfold Math_round, js_mul, js_div, VInt, ToNumber.
  rewrite !round_scaled by assumption. reflexivity.
Qed.

Lemma scaled_bounds (a w : Z) :
  0 <= a -> 0 < w ->
  2 * w * scaled a w <= 6000 * a + w < 2 * w * scaled a w + 2 * w.
Proof.
  intros Ha Hw. unfold scaled.
  pose proof (Z.div_mod (6000 * a + w) (2 * w)) as Hdm.
  pose proof (Z.mod_pos_bound (6000 * a + w) (2 * w)) as Hmod.
  lia.
Qed.

(** Scaling brings the long edge to at most 3000 pixels, enlarges neither
    side, and keeps the aspect ratio up to the rounding of one side. *)
Lemma new_dimensions_shrink (w h : Z) :
  0 < w -> 0 < h ->
  exists w' h',
    new_dimensions (VInt w) (VInt h) = (VInt w', VInt h') /\
    w' <= w /\ h' <= h /\ Z.max w' h' <= 3000 /\
    2 * Z.abs (w' * h - h' * w) <= Z.max w h.
Proof.
  intros Hw Hh. rewrite new_dimensions_integers by assumption.
  destruct ((h <? w) && (3000 <? w))%bool eqn:Hland.
  - apply andb_true_iff in Hland as [Hlt Hbig].
    apply Z.ltb_lt in Hlt, Hbig.
    pose proof (scaled_bounds h w ltac:(lia) Hw) as Hs.
    exists 3000, (scaled h w). split; [reflexivity |]. nia.
  - destruct (3000 <? h) eqn:Hport.
    + apply Z.ltb_lt in Hport.
      assert (Hwh : w <= h).
      { apply andb_false_iff in Hland as [Hlt | Hbig];
          [apply Z.ltb_ge in Hlt | apply Z.ltb_ge in Hbig]; lia. }
      pose proof (scaled_bounds w h ltac:(lia) Hh) as Hs.
      exists (scaled w h), 3000. split; [reflexivity |]. nia.
    + apply Z.ltb_ge in Hport.
      assert (Hsmall : w <= 3000).
      { apply andb_false_iff in Hland as [Hlt | Hbig];
          [apply Z.ltb_ge in Hlt | apply Z.ltb_ge in Hbig]; lia. }
      exists w, h. split; [reflexivity |]. lia.
Qed.

(** C4: a buffer of at most 20 MiB comes back as it is, with [resized]
    false.  For a larger buffer whose intrinsic size is 6000 by 4000 the
    dimensions handed to the resizer have a long edge of at most 3000,
    keep the ratio 3:2 and exceed neither 6000 nor 4000 (they are 3000 by
    2000), and they are the dimensions reported once the recompression
    succeeds; when it fails the original bytes come back with [resized]
    false.  For any intrinsic size the new dimensions never exceed the old
    ones, the long edge is at most 3000 and the ratio is kept up to the
    rounding of one side. *)
Theorem resizeIfNeeded_contract (fileBuffer : Buffer) (filename : string) :
  (buffer_length fileBuffer <= MAX_FILE_SIZE ->
     buffer (resizeIfNeeded fileBuffer filename) = fileBuffer /\
     resized (resizeIfNeeded fileBuffer filename) = false) /\
  (MAX_FILE_SIZE < buffer_length fileBuffer ->
   forall metadata,
     sharp_metadata fileBuffer = Ok metadata ->
     prop metadata "width" = VInt 6000 ->
     prop metadata "height" = VInt 4000 ->
     exists w' h',
       new_dimensions (prop metadata "width") (prop metadata "height")
         = (VInt w', VInt h') /\
       Z.max w' h' <= 3000 /\ w' * 4000 = h' * 6000 /\
       w' <= 6000 /\ h' <= 4000 /\
       (forall jpeg,
          sharp_resize_jpeg fileBuffer (VInt w') (VInt h') = Ok jpeg ->
          resizeIfNeeded fileBuffer filename =
            {| buffer := jpeg; resized := true;
               originalSize := VInt (buffer_length fileBuffer);
               newSize := VInt (buffer_length jpeg);
               dimensions := VObj [("width", VInt w'); ("height", VInt h')];
               error := VUndefined |}) /\
       (forall message,
          sharp_resize_jpeg fileBuffer (VInt w') (VInt h') = Throw message ->
          buffer (resizeIfNeeded fileBuffer filename) = fileBuffer /\
          resized (resizeIfNeeded fileBuffer filename) = false)) /\
  (forall w h, 0 < w -> 0 < h ->
     exists w' h',
       new_dimensions (VInt w) (VInt h) = (VInt w', VInt h') /\
       w' <= w /\ h' <= h /\ Z.max w' h' <= 3000 /\
       2 * Z.abs (w' * h - h' * w) <= Z.max w h).
Proof.
  split; [| split].
  - intros Hsmall. unfold resizeIfNeeded.
    apply Z.leb_le in Hsmall. rewrite Hsmall. split; reflexivity.
  - intros Hbig metadata Hmeta Hwidth Hheight.
    assert (Hdims : new_dimensions (VInt 6000) (VInt 4000) = (VInt 3000, VInt 2000)).
    { rewrite new_dimensions_integers by lia. reflexivity. }
    assert (Hobj : nullish metadata = false).
    { destruct metadata; try reflexivity; discriminate Hwidth. }
    assert (Hrun : forall outcome,
              sharp_resize_jpeg fileBuffer (VInt 3000) (VInt 2000) = outcome ->
              resizeIfNeeded fileBuffer filename =
              try_catch
                (let* resizedBuffer := outcome in
                 Ok {| buffer := resizedBuffer; resized := true;
                       originalSize := VInt (buffer_length fileBuffer);
                       newSize := VInt (buffer_length resizedBuffer);
                       dimensions := VObj [("width", VInt 3000); ("height", VInt 2000)];
                       error := VUndefined |})
                (fun message =>
                   {| buffer := fileBuffer; resized := false;
                      originalSize := VUndefined; newSize := VUndefined;
                      dimensions := VUndefined; error := VStr message |})).
    { intros outcome <-. unfold resizeIfNeeded.
      replace (buffer_length fileBuffer <=? MAX_FILE_SIZE) with false by lia.
      rewrite Hmeta. cbn [bind]. rewrite !get_not_nullish by exact Hobj.
      cbn [bind]. rewrite Hwidth, Hheight, Hdims. reflexivity. }
    rewrite Hwidth, Hheight. exists 3000, 2000.
    split; [exact Hdims |].
    do 4 (split; [lia |]).
    split.
    + intros jpeg Hjpeg. rewrite (Hrun _ Hjpeg). reflexivity.
    + intros message Hfail. rewrite (Hrun _ Hfail). split; reflexivity.
  - intros w h Hw Hh. apply new_dimensions_shrink; assumption.
Qed.

End NormalizerFacts.

(** ** Season, caption, description, geocoding *)

Section EnrichFacts.
Context `{RT : Runtime}.
Import Enrich.

Lemma le_of_Z (a b : Z) : Num.le (of_Z a) (of_Z b) = (a <=? b).
Proof.
  unfold Num.le, of_Z, Qle_bool, inject_Z. cbn [Qnum Qden].
  rewrite !Z.mul_1_r. reflexivity.
Qed.

Lemma getSeason_absent (dateString : value) :
  truthy dateString = false -> getSeason dateString = VNull.
Proof. intros H. unfold getSeason. rewrite H. reflexivity. Qed.

Lemma getSeason_month (dateString : value) (m : Z) :
  truthy dateString = true ->
  Date_getMonth dateString = of_Z m ->
  getSeason dateString = VStr (season_of_month m).
Proof.
  intros Ht Hm. unfold getSeason, season_of_month, Num.ge.
  rewrite Ht, Hm, !le_of_Z. cbn [negb].
  repeat match goal with |- context [if ?c then _ else _] => destruct c end;
    reflexivity.
Qed.

(** Whenever a date is given, a season comes back: a month that is not a
    number falls through to Winter. *)
Lemma getSeason_present (dateString : value) :
  truthy dateString = true ->
  exists name, getSeason dateString = VStr name /\
               In name ["Spring"; "Summer"; "Fall"; "Winter"].
Proof.
  intros Ht. unfold getSeason. rewrite Ht. cbn [negb].
  repeat match goal with |- context [if ?c then _ else _] => destruct c end;
    eexists; (split; [reflexivity |]); cbn; tauto.
Qed.

Lemma getSeason_truthy (dateString : value) :
  truthy (getSeason dateString) = truthy dateString.
Proof.
  destruct (truthy dateString) eqn:Ht.
  - destruct (getSeason_present _ Ht) as (name & -> & Hin).
    cbn in Hin. destruct Hin as [<- | [<- | [<- | [<- | []]]]]; reflexivity.
  - rewrite (getSeason_absent _ Ht). reflexivity.
Qed.

(** The pieces of a description: city, season, caption, in this order, each
    one only when present.  The date fallback adds nothing: with a date
    there is a season. *)
Lemma description_parts_order (exifData location visionCaption : value) :
  description_parts exifData location visionCaption =
  ((if truthy (opt location "city") then [prop location "city"] else [])
   ++ (if truthy (prop exifData "date_taken")
       then [getSeason (prop exifData "date_taken")] else [])
   ++ (if truthy visionCaption then [visionCaption] else []))%list.
Proof.
  unfold description_parts, push.
  rewrite getSeason_truthy.
  destruct (truthy (opt location "city")), (truthy (prop exifData "date_taken")),
    (truthy visionCaption); reflexivity.
Qed.

(** C7: the composer joins city, season and caption, in this order and each
    only when present, with the middle-dot separator; the season is there
    exactly when the capture timestamp is, and follows the month as the
    specification lays out.  Paris, July and a caption give the three-part
    string; a January date alone gives Winter; nothing gives null. *)
Theorem description_composer (exifData location visionCaption : value) :
  let date := prop exifData "date_taken" in
  let composed := generateSmartDescription exifData location visionCaption in
  composed =
    js_or (VStr (join separator
             ((if truthy (opt location "city") then [prop location "city"] else [])
              ++ (if truthy date then [getSeason date] else [])
              ++ (if truthy visionCaption then [visionCaption] else []))%list))
          VNull /\
  (forall m, truthy date = true -> Date_getMonth date = of_Z m ->
             getSeason date = VStr (season_of_month m)) /\
  (opt location "city" = VStr "Paris" ->
   truthy date = true -> Date_getMonth date = of_Z 6 ->
   visionCaption = VStr "Golden light on rooftops" ->
   composed = VStr "Paris · Summer · Golden light on rooftops") /\
  (truthy (opt location "city") = false -> truthy visionCaption = false ->
   truthy date = true -> Date_getMonth date = of_Z 0 ->
   composed = VStr "Winter") /\
  (truthy (opt location "city") = false -> truthy date = false ->
   truthy visionCaption = false ->
   composed = VNull).
Proof.
  intros date composed. subst composed. unfold generateSmartDescription.
  rewrite description_parts_order. fold date.
  split; [reflexivity |]. split; [| split; [| split]].
  - intros m Ht Hm. apply getSeason_month; assumption.
  - intros Hcity Ht Hm ->.
    assert (Hprop : prop location "city" = VStr "Paris").
    { unfold opt in Hcity. destruct (nullish location); [discriminate | exact Hcity]. }
    rewrite Hcity, Hprop, Ht, (getSeason_month _ 6 Ht Hm). reflexivity.
  - intros Hcity Hcap Ht Hm.
    rewrite Hcity, Hcap, Ht, (getSeason_month _ 0 Ht Hm). reflexivity.
  - intros Hcity Ht Hcap. rewrite Hcity, Hcap, Ht. reflexivity.
Qed.

Lemma reverseGeocode_fetch_failed (message : string) (lat lon : value) :
  reverseGeocode (Throw message) lat lon = VNull.
Proof. reflexivity. Qed.




End EnrichFacts.

Lemma description_parts_formatter (RT : Runtime) (formatter : value -> string)
    (exifData location visionCaption : value) :
  Enrich.description_parts (RT := with_formatter RT formatter)
    exifData location visionCaption =
  Enrich.description_parts (RT := RT) exifData location visionCaption.
Proof. rewrite !description_parts_order. reflexivity. Qed.

(** X29: the month-and-year fallback of the composer is never taken.  With
    a capture timestamp the season is always there, so the composer never
    finds city, season and caption all missing: its pieces are the city (if
    any), the season and the caption (if any), with no city and no caption
    it returns the season name alone, and its result does not depend on how
    a month and a year would be printed. *)
Theorem month_year_fallback_unreachable (RT : Runtime)
    (exifData location visionCaption : value) :
  truthy (prop exifData "date_taken") = true ->
  let date := prop exifData "date_taken" in
  (exists name, Enrich.getSeason date = VStr name /\
                In name ["Spring"; "Summer"; "Fall"; "Winter"]) /\
  Enrich.description_parts exifData location visionCaption =
    ((if truthy (opt location "city") then [prop location "city"] else [])
     ++ [Enrich.getSeason date]
     ++ (if truthy visionCaption then [visionCaption] else []))%list /\
  (truthy (opt location "city") = false -> truthy visionCaption = false ->
   Enrich.generateSmartDescription exifData location visionCaption
     = Enrich.getSeason date) /\
  (forall formatter,
     Enrich.generateSmartDescription (RT := with_formatter RT formatter)
       exifData location visionCaption =
     Enrich.generateSmartDescription (RT := RT) exifData location visionCaption).
Proof.
  intros Ht date. fold date in Ht.
  pose proof (getSeason_present _ Ht) as Hseason.
  split; [exact Hseason |]. split; [| split].
  - rewrite description_parts_order. fold date. rewrite Ht. reflexivity.
  - intros Hcity Hcap. unfold Enrich.generateSmartDescription.
    rewrite description_parts_order. fold date. rewrite Hcity, Hcap, Ht.
    destruct Hseason as (name & -> & Hin).
    cbn in Hin. destruct Hin as [<- | [<- | [<- | [<- | []]]]]; reflexivity.
  - intros formatter. unfold Enrich.generateSmartDescription.
    rewrite description_parts_formatter. reflexivity.
Qed.

(** ** Upload Orchestrator *)

Section UploadFacts.
Context `{RT : Runtime}.
Import Store Normalizer Enrich Upload.

Lemma savePhotoExif_no_fault (db0 : DB) (now meuralId filename exifData : value) :
  savePhotoExif db0 None now meuralId filename exifData =
  Ok (insert_or_replace db0 now (run_parameters meuralId filename exifData)).
Proof. reflexivity. Qed.

(** Every entry the [try] block builds carries the file's name and a
    boolean [success], the flag of the upload response. *)
Lemma attempt_entry (anthropic : bool) (file : File) (w : World) (db0 db1 : DB)
    (entry : value) :
  attempt anthropic file w db0 = Ok (entry, db1) ->
  prop entry "filename" = VStr (originalname file) /\
  exists response, upload_fetch w = Ok response /\
                   prop entry "success" = VBool (ok response).
Proof.
  unfold attempt.
  destruct (readFileSync w) as [fileBuffer | e]; [| discriminate].
  destruct (upload_fetch w) as [response | e]; [| discriminate].
  cbn [bind].
  destruct (json response) as [data | e]; [| discriminate].
  cbn [bind].
  destruct (ok response) eqn:Hok.
  - destruct (get data "data") as [inner | e]; [| discriminate].
    cbn [bind andb].
    destruct (truthy (opt inner "id")).
    + destruct (savePhotoExif _ _ _ _ _ _) as [db' | e]; [| discriminate].
      cbn [bind]. intros H. injection H as <- <-.
      split; [reflexivity |]. exists response. rewrite Hok. split; reflexivity.
    + cbn [bind]. intros H. injection H as <- <-.
      split; [reflexivity |]. exists response. rewrite Hok. split; reflexivity.
  - cbn [bind andb]. intros H. injection H as <- <-.
    split; [reflexivity |]. exists response. rewrite Hok. split; reflexivity.
Qed.

(** The [try] block on a file whose metadata could not be read, case by
    case: a step that throws ends it with that step's message; a refused
    upload gives a failure entry that carries the vendor's answer; an
    accepted upload gives a success entry with the metadata part empty, and
    hands the degraded record to the store when the answer has an id. *)
Lemma attempt_degraded_cases (anthropic : bool) (file : File) (w : World) (db0 : DB)
    (fileBuffer : Buffer) :
  readFileSync w = Ok fileBuffer ->
  extractExif fileBuffer (originalname file) = degraded_record ->
  (forall message, step_throws w message ->
     attempt anthropic file w db0 = Throw message) /\
  (forall response data,
     upload_fetch w = Ok response -> json response = Ok data ->
     ok response = false ->
     exists entry,
       attempt anthropic file w db0 = Ok (entry, db0) /\
       prop entry "filename" = VStr (originalname file) /\
       prop entry "success" = VBool false /\
       prop entry "error" = data /\
       map (prop entry)
           ["meural_id"; "data"; "exif"; "vision_caption"; "smart_description"]
         = [VNull; VNull; VNull; VNull; VNull]) /\
  (forall response data,
     upload_fetch w = Ok response -> json response = Ok data ->
     ok response = true -> nullish data = false ->
     let id := opt (prop data "data") "id" in
     (truthy id = true -> stmt_run_fault w = None) ->
     exists entry db1,
       attempt anthropic file w db0 = Ok (entry, db1) /\
       prop entry "filename" = VStr (originalname file) /\
       prop entry "success" = VBool true /\
       prop entry "meural_id" = id /\
       prop entry "data" = data /\
       prop entry "error" = VNull /\
       prop entry "exif" = degraded_exif /\
       (if truthy id
        then savePhotoExif db0 (stmt_run_fault w) (current_timestamp w) id
               (VStr (originalname file)) degraded_record = Ok db1
        else db1 = db0) /\
       prop entry "vision_caption" =
         (if truthy id
          then analyzeImageWithVision anthropic (vision_create w)
                 (buffer (resizeIfNeeded fileBuffer (originalname file))) (mimetype file)
          else VNull) /\
       prop entry "smart_description" =
         generateSmartDescription degraded_record VNull (prop entry "vision_caption")) /\
  (forall response data,
     upload_fetch w = Ok response -> json response = Ok data ->
     ok response = true -> nullish data = true ->
     exists message, attempt anthropic file w db0 = Throw message).
Proof.
  intros Hread Hdeg. split; [| split; [| split]].
  - intros message Hstep. unfold attempt. rewrite Hread. cbn [bind]. rewrite Hdeg.
    generalize (resizeIfNeeded fileBuffer (originalname file)). intros resizeResult.
    destruct Hstep as [Hfetch | [(response & Hfetch & Hjson)
                                | (response & data & Hfetch & Hjson & Hok & Hdata & Hid & Hfault)]].
    + rewrite Hfetch. reflexivity.
    + rewrite Hfetch. cbn [bind]. rewrite Hjson. reflexivity.
    + rewrite Hfetch. cbn [bind]. rewrite Hjson. cbn [bind].
      rewrite Hok, (get_not_nullish _ _ Hdata). cbn [bind andb]. rewrite Hid.
      change (truthy (prop degraded_record "gps_latitude")) with false. cbn [andb].
      rewrite Hfault. reflexivity.
  - intros response data Hfetch Hjson Hok. unfold attempt.
    rewrite Hread. cbn [bind]. rewrite Hdeg.
    generalize (resizeIfNeeded fileBuffer (originalname file)). intros resizeResult.
    rewrite Hfetch. cbn [bind]. rewrite Hjson. cbn [bind]. rewrite Hok. cbn [bind andb].
    eexists. split; [reflexivity |]. repeat split; reflexivity.
  - intros response data Hfetch Hjson Hok Hdata id Hfault. unfold attempt.
    rewrite Hread. cbn [bind]. rewrite Hdeg.
    generalize (resizeIfNeeded fileBuffer (originalname file)). intros resizeResult.
    rewrite Hfetch. cbn [bind]. rewrite Hjson. cbn [bind].
    rewrite Hok, (get_not_nullish _ _ Hdata). cbn [bind andb]. fold id.
    destruct (truthy id) eqn:Hid.
    + change (truthy (prop degraded_record "gps_latitude")) with false. cbn [andb].
      rewrite (Hfault eq_refl). rewrite savePhotoExif_no_fault. cbn [bind].
      eexists. eexists. split; [reflexivity |].
      repeat split; reflexivity.
    + cbn [bind]. eexists. eexists. split; [reflexivity |].
      repeat split; reflexivity.
  - intros response data Hfetch Hjson Hok Hdata. unfold attempt.
    rewrite Hread. cbn [bind]. rewrite Hdeg.
    generalize (resizeIfNeeded fileBuffer (originalname file)). intros resizeResult.
    rewrite Hfetch. cbn [bind]. rewrite Hjson. cbn [bind]. rewrite Hok.
    unfold get. rewrite Hdata. cbn [bind]. eexists. reflexivity.
Qed.

(** When the upload is accepted and the store takes the row, the [try]
    block reaches its entry, which reports success, whatever the
    enrichment steps made of the file. *)
Lemma attempt_succeeds (anthropic : bool) (file : File) (w : World) (db0 : DB)
    (fileBuffer : Buffer) (response : HttpResponse) (data : value) :
  readFileSync w = Ok fileBuffer ->
  upload_fetch w = Ok response ->
  ok response = true ->
  json response = Ok data ->
  nullish data = false ->
  stmt_run_fault w = None ->
  exists entry db1,
    attempt anthropic file w db0 = Ok (entry, db1) /\
    prop entry "success" = VBool true /\
    prop entry "error" = VNull.
Proof.
  intros Hread Hfetch Hok Hjson Hdata Hfault. unfold attempt.
  rewrite Hread, Hfetch. cbn [bind]. rewrite Hjson. cbn [bind].
  rewrite Hok, (get_not_nullish _ _ Hdata), Hfault. cbn [bind andb].
  destruct (truthy (opt (prop data "data") "id")).
  - rewrite savePhotoExif_no_fault. cbn [bind].
    eexists. eexists. split; [reflexivity |]. split; reflexivity.
  - cbn [bind]. eexists. eexists. split; [reflexivity |]. split; reflexivity.
Qed.


(** What one turn of the loop adds to [results]. *)
Lemma process_file_results (anthropic : bool) (st : State) (file : File) (w : World) :
  exists added,
    results (process_file anthropic st (file, w)) = (results st ++ added)%list /\
    Forall (fun entry => prop entry "filename" = VStr (originalname file)) added /\
    match attempt anthropic file w (db st), unlinkSync_fault w with
    | Throw message, _ => added = [failure_entry file message]
    | Ok (entry, _), None => added = [entry]
    | Ok (entry, _), Some message => added = [entry; failure_entry file message]
    end.
Proof.
  unfold process_file, push.
  destruct (attempt anthropic file w (db st)) as [[entry db1] | message] eqn:Htry.
  - pose proof (attempt_entry _ _ _ _ _ _ Htry) as [Hname _].
    destruct (unlinkSync_fault w) as [message |].
    + exists [entry; failure_entry file message]. cbn [results].
      rewrite <- app_assoc. repeat split; repeat constructor; assumption.
    + exists [entry]. repeat split; repeat constructor; assumption.
  - exists [failure_entry file message]. repeat split; repeat constructor.
Qed.

(** Every file leaves at least one entry, whatever failed. *)
Lemma loop_covers_every_file (anthropic : bool) (files : list (File * World))
    (st : State) :
  (List.length (results st) + List.length files <=
   List.length (results (fold_left (process_file anthropic) files st)))%nat.
Proof.
  revert st. induction files as [| [file w] rest IH]; intros st; cbn [fold_left List.length].
  - lia.
  - specialize (IH (process_file anthropic st (file, w))).
    destruct (process_file_results anthropic st file w) as (added & Hres & _ & Hshape).
    rewrite Hres, length_app in IH.
    assert (1 <= List.length added)%nat.
    { destruct (attempt anthropic file w (db st)) as [[entry db1] | message];
        [destruct (unlinkSync_fault w) |]; subst added; cbn; lia. }
    lia.
Qed.

(** When no temp file refuses to go, the loop adds one entry per file, in
    the order of the files. *)
Lemma loop_one_entry_per_file (anthropic : bool) (files : list (File * World))
    (st : State) :
  Forall (fun fw => unlinkSync_fault (snd fw) = None) files ->
  filenames (results (fold_left (process_file anthropic) files st)) =
  (filenames (results st)
   ++ map (fun fw => VStr (originalname (fst fw))) files)%list.
Proof.
  revert st. induction files as [| [file w] rest IH]; intros st Hclean;
    cbn [fold_left map].
  - symmetry. apply app_nil_r.
  - inversion Hclean as [| ? ? Hw Hrest]; subst. cbn [snd] in Hw.
    rewrite (IH _ Hrest).
    destruct (process_file_results anthropic st file w) as (added & Hres & Hnames & Hshape).
    rewrite Hres. unfold filenames. rewrite map_app, <- app_assoc. f_equal.
    rewrite Hw in Hshape.
    destruct (attempt anthropic file w (db st)) as [[entry db1] | message];
      subst added; inversion Hnames as [| ? ? Hname _]; subst;
      cbn [map app fst]; rewrite Hname; reflexivity.
Qed.

(** The route answers 200 with one entry per file, in order, as long as the
    token is there and every temp file can be removed. *)
Lemma upload_route_one_entry_per_file (anthropic : bool) (token : value)
    (files : list (File * World)) (db0 : DB) :
  Forall (fun fw => unlinkSync_fault (snd fw) = None) files ->
  exists entries,
    fst (upload_route anthropic (Ok token) files db0)
      = Json 200 (VObj [("results", VArr entries)]) /\
    filenames entries = map (fun fw => VStr (originalname (fst fw))) files /\
    List.length entries = List.length files.
Proof.
  intros Hclean. unfold upload_route. eexists. split; [reflexivity |].
  pose proof (loop_one_entry_per_file anthropic files
                {| results := []; db := db0 |} Hclean) as Hnames.
  cbn [results filenames map app] in Hnames.
  split; [exact Hnames |].
  apply (f_equal (@List.length value)) in Hnames.
  unfold filenames in Hnames. rewrite !length_map in Hnames. exact Hnames.
Qed.

(** C5 (as amended): when anything in the extractor's [try] block throws,
    the extractor returns the degraded record: the blob is null and every
    typed field is absent, so that it reads as undefined and not as null.
    The loop goes on with that record and the file's entry reports what
    became of the upload.  A step that throws (the request, the parsing of
    its answer, the write to the store) gives the failure entry with that
    step's message and leaves the table alone; so does an accepted answer
    with no body.  A refused upload gives [success: false] with the vendor's
    answer as [error] and no [exif].  An accepted upload gives
    [success: true] with the vendor's id and answer, no error, and an [exif]
    part whose six metadata fields are absent, with [gps] false and no place
    and no season; the description is composed from the caption alone, and
    the degraded record is what the store is asked to save when the answer
    has an id.  The entry is the only one of the file when the temp file can
    be removed. *)
Theorem extraction_failure_degrades (buffer : Buffer) (filename : string) :
  returns (let* tags := ExifReader_load buffer in extract_from_tags tags) = false ->
  let record := extractExif buffer filename in
  record = degraded_record /\
  prop record "exif_json" = VNull /\
  Forall (fun field => prop record field = VUndefined) typed_fields /\
  (forall anthropic file w st,
     originalname file = filename ->
     readFileSync w = Ok buffer ->
     let st' := process_file anthropic st (file, w) in
     exists entry rest,
       results st' = (results st ++ entry :: rest)%list /\
       (unlinkSync_fault w = None -> rest = []) /\
       prop entry "filename" = VStr filename /\
       (forall message, step_throws w message ->
          entry = failure_entry file message /\ rest = [] /\ db st' = db st) /\
       (forall response data,
          upload_fetch w = Ok response -> json response = Ok data ->
          ok response = true -> nullish data = true ->
          prop entry "success" = VBool false /\ rest = [] /\ db st' = db st) /\
       (forall response data,
          upload_fetch w = Ok response -> json response = Ok data ->
          ok response = false ->
          prop entry "success" = VBool false /\ prop entry "error" = data /\
          map (prop entry)
              ["meural_id"; "data"; "exif"; "vision_caption"; "smart_description"]
            = [VNull; VNull; VNull; VNull; VNull] /\
          db st' = db st) /\
       (forall response data,
          upload_fetch w = Ok response -> json response = Ok data ->
          ok response = true -> nullish data = false ->
          let id := opt (prop data "data") "id" in
          (truthy id = true -> stmt_run_fault w = None) ->
          prop entry "success" = VBool true /\
          prop entry "meural_id" = id /\
          prop entry "data" = data /\
          prop entry "error" = VNull /\
          prop entry "exif" = degraded_exif /\
          prop entry "vision_caption" =
            (if truthy id
             then analyzeImageWithVision anthropic (vision_create w)
                    (Normalizer.buffer (resizeIfNeeded buffer filename)) (mimetype file)
             else VNull) /\
          prop entry "smart_description" =
            generateSmartDescription record VNull (prop entry "vision_caption") /\
          (if truthy id
           then savePhotoExif (db st) None (current_timestamp w) id
                  (VStr filename) record = Ok (db st')
           else db st' = db st))).
Proof.
  intros Hthrow record.
  assert (Hdeg : record = degraded_record) by (apply extractExif_caught; exact Hthrow).
  split; [exact Hdeg |]. rewrite Hdeg.
  split; [reflexivity |]. split; [repeat constructor |].
  intros anthropic file w st Hname Hread st'. subst filename.
  destruct (attempt_degraded_cases anthropic file w (db st) buffer Hread Hdeg)
    as (Hthrows & Hrefused & Haccepted & Hnodata).
  subst st'. unfold process_file.
  destruct (attempt anthropic file w (db st)) as [[entry db1] | failure] eqn:Htry.
  - exists entry,
      (match unlinkSync_fault w with
       | None => []
       | Some text => [failure_entry file text]
       end).
    assert (Hdb : db (match unlinkSync_fault w with
                      | None => {| results := push (results st) entry; db := db1 |}
                      | Some text =>
                          {| results := push (push (results st) entry)
                                             (failure_entry file text);
                             db := db1 |}
                      end) = db1)
      by (destruct (unlinkSync_fault w); reflexivity).
    rewrite Hdb.
    split; [| split; [| split; [| split; [| split; [| split]]]]].
    + destruct (unlinkSync_fault w); unfold push; cbn [results];
        rewrite <- ?app_assoc; reflexivity.
    + intros ->. reflexivity.
    + destruct (attempt_entry _ _ _ _ _ _ Htry) as [Hfile _]. exact Hfile.
    + intros message Hstep. pose proof (Hthrows message Hstep) as Hrun. congruence.
    + intros response data Hfetch Hjson Hok Hdata.
      destruct (Hnodata response data Hfetch Hjson Hok Hdata) as (message & Hrun).
      congruence.
    + intros response data Hfetch Hjson Hok.
      destruct (Hrefused response data Hfetch Hjson Hok)
        as (entry' & Hrun & _ & Hsuccess & Herror & Hexif).
      assert (Hsame : entry' = entry /\ db st = db1)
        by (split; congruence).
      destruct Hsame as [-> <-]. repeat split; assumption.
    + intros response data Hfetch Hjson Hok Hdata Hfault.
      specialize (Haccepted response data Hfetch Hjson Hok Hdata).
      cbv zeta in Haccepted. destruct (Haccepted Hfault)
        as (entry' & db' & Hrun & _ & Hsuccess & Hid & Hdata' & Herror & Hexif
            & Hstore & Hcaption & Hdescription).
      assert (Hsame : entry' = entry /\ db' = db1) by (split; congruence).
      destruct Hsame as [-> ->].
      do 5 (split; [assumption |]). split; [exact Hcaption |].
      split; [exact Hdescription |].
      destruct (truthy (opt (prop data "data") "id")) eqn:Hid'.
      * rewrite (Hfault eq_refl) in Hstore. exact Hstore.
      * exact Hstore.
  - exists (failure_entry file failure), []. cbn [results db].
    split; [reflexivity |]. split; [reflexivity |]. split; [reflexivity |].
    split; [| split; [| split]].
    + intros message Hstep. pose proof (Hthrows message Hstep) as Hrun.
      assert (failure = message) as -> by congruence. repeat split.
    + intros. repeat split.
    + intros response data Hfetch Hjson Hok.
      destruct (Hrefused response data Hfetch Hjson Hok) as (entry' & Hrun & _).
      congruence.
    + intros response data Hfetch Hjson Hok Hdata Hfault.
      specialize (Haccepted response data Hfetch Hjson Hok Hdata).
      cbv zeta in Haccepted. destruct (Haccepted Hfault)
        as (entry' & db' & Hrun & _).
      congruence.
Qed.


End UploadFacts.

(** ** The model at concrete inputs *)

Module Runs.
Import Store Normalizer Enrich Upload.

(** C1 (defect): one file, accepted by the vendor and stored, whose temp
    file cannot be removed: [fs.unlinkSync] throws after [results.push],
    the [catch] block pushes again, and the batch of one file comes back
    with two entries, a success followed by a failure. *)
Lemma unlink_failure_adds_second_entry :
  exists entry,
    fst (upload_route (RT := Sample.unreadable) false (Ok (VStr "token"))
           [(Sample.photo, Sample.stuck_tempfile)] Store.empty)
    = Json 200 (VObj [("results",
        VArr [entry;
              VObj [("filename", VStr "a.jpg"); ("success", VBool false);
                    ("error", VStr "EPERM: operation not permitted, unlink")]])])
    /\ prop entry "filename" = VStr "a.jpg"
    /\ prop entry "success" = VBool true.
Proof. eexists. split; [reflexivity | split; reflexivity]. Qed.

(** C2 (counterexample): the pair (28, 0) gives an aperture of Infinity,
    and the pair (5, 0) an exposure compensation of Infinity, not null. *)
Lemma zero_denominator_is_not_null :
  prop (extractExif (RT := Sample.reading (Sample.rational_tag "FNumber" [VInt 28; VInt 0]))
          [] "a.jpg") "aperture" = VNum PInf /\
  prop (extractExif (RT := Sample.reading (Sample.rational_tag "FNumber" [VInt 28; VInt 0]))
          [] "a.jpg") "aperture" <> VNull /\
  prop (extractExif
          (RT := Sample.reading (Sample.rational_tag "ExposureBiasValue" [VInt 5; VInt 0]))
          [] "a.jpg") "exposure_compensation" = VNum PInf.
Proof. split; [reflexivity | split; [discriminate | reflexivity]]. Qed.

(** C3 (defect): an exposure compensation of 0, the pair (0, 1), is stored
    as null, while an aperture given by the same pair is stored as 0. *)
Lemma zero_exposure_compensation_becomes_null :
  prop (extractExif
          (RT := Sample.reading (Sample.rational_tag "ExposureBiasValue" [VInt 0; VInt 1]))
          [] "a.jpg") "exposure_compensation" = VNull /\
  prop (extractExif (RT := Sample.reading (Sample.rational_tag "FNumber" [VInt 0; VInt 1]))
          [] "a.jpg") "aperture" = VNum (Fin 0).
Proof. split; reflexivity. Qed.

(** C5 (counterexample): a buffer the parser rejects gives the record
    [{ exif_json: null }], whose typed fields read as undefined: none of
    them is null. *)
Lemma degraded_fields_are_not_null :
  let record := extractExif (RT := Sample.unreadable) [Byte.xff; Byte.xd8] "a.jpg" in
  ExifReader_load (Runtime := Sample.unreadable) [Byte.xff; Byte.xd8]
    = Throw "Invalid image format" /\
  record = VObj [("exif_json", VNull)] /\
  prop record "date_taken" = VUndefined /\
  Forall (fun field => prop record field <> VNull) typed_fields /\
  ~ Forall (fun field => prop record field = VNull) typed_fields.
Proof.
  cbv zeta. split; [reflexivity |]. split; [reflexivity |]. split; [reflexivity |].
  split.
  - repeat (apply Forall_cons; [discriminate |]). apply Forall_nil.
  - intros Hall. inversion Hall as [| ? ? Hdate _]. discriminate Hdate.
Qed.

(** C9 (defect): a photo taken on the equator, latitude 0 and longitude 10,
    has both coordinates present, and all its GPS fields come out null. *)
Lemma equator_latitude_is_dropped :
  let tags := Sample.gps_tags (VInt 0) (VInt 10) (VInt 5) in
  let record := extractExif (RT := Sample.reading tags) [] "a.jpg" in
  nullish (opt (prop tags "gps") "Latitude") = false /\
  nullish (opt (prop tags "gps") "Longitude") = false /\
  prop record "gps_latitude" = VNull /\
  prop record "gps_longitude" = VNull /\
  prop record "gps_altitude" = VNull.
Proof. repeat split; reflexivity. Qed.

End Runs.

(** ** The general statements at concrete inputs *)

Module Witness.
Import Store Normalizer Enrich Upload.

Lemma oversized_length :
  buffer_length Sample.oversized = MAX_FILE_SIZE + 1.
Proof.
  unfold buffer_length, Sample.oversized. rewrite repeat_length.
  apply Z2Nat.id. unfold MAX_FILE_SIZE. lia.
Qed.

Lemma rational_pair_division_witness :
  prop (extractExif (RT := Sample.reading (Sample.rational_tag "FNumber" [VInt 28; VInt 10]))
          [] "a.jpg") "aperture" = VNum (Fin (14 # 5)) /\
  prop (extractExif (RT := Sample.reading (Sample.rational_tag "FNumber" [VInt 28; VInt 0]))
          [] "a.jpg") "aperture" = VNum PInf /\
  prop (extractExif
          (RT := Sample.reading (Sample.rational_tag "ExposureBiasValue" [VInt (-1); VInt 3]))
          [] "a.jpg") "exposure_compensation" = VNum (quotient (-1) 3) /\
  prop (extractExif
          (RT := Sample.reading (Sample.rational_tag "ExposureBiasValue" [VInt 1]))
          [] "a.jpg") "exposure_compensation" = VNull.
Proof.
  split; [| split; [| split]].
  - apply (rational_pair_division
             (RT := Sample.reading (Sample.rational_tag "FNumber" [VInt 28; VInt 10]))
             [] "a.jpg" _ 28 10 eq_refl eq_refl); reflexivity.
  - apply (rational_pair_division
             (RT := Sample.reading (Sample.rational_tag "FNumber" [VInt 28; VInt 0]))
             [] "a.jpg" _ 28 0 eq_refl eq_refl); reflexivity.
  - apply (rational_pair_division
             (RT := Sample.reading (Sample.rational_tag "ExposureBiasValue" [VInt (-1); VInt 3]))
             [] "a.jpg" _ (-1) 3 eq_refl eq_refl); [reflexivity | discriminate | discriminate].
  - apply (rational_pair_division
             (RT := Sample.reading (Sample.rational_tag "ExposureBiasValue" [VInt 1]))
             [] "a.jpg" _ 1 0 eq_refl eq_refl); reflexivity.
Defined.

Lemma resizeIfNeeded_contract_witness :
  (buffer (resizeIfNeeded (RT := Sample.sharp_6000_4000) [Byte.xff; Byte.xd8] "a.jpg")
     = [Byte.xff; Byte.xd8] /\
   resized (resizeIfNeeded (RT := Sample.sharp_6000_4000) [Byte.xff; Byte.xd8] "a.jpg")
     = false) /\
  resizeIfNeeded (RT := Sample.sharp_6000_4000) Sample.oversized "a.jpg" =
    {| buffer := [Byte.xff; Byte.xd8]; resized := true;
       originalSize := VInt (buffer_length Sample.oversized);
       newSize := VInt 2;
       dimensions := VObj [("width", VInt 3000); ("height", VInt 2000)];
       error := VUndefined |}.
Proof.
  split.
  - apply (resizeIfNeeded_contract (RT := Sample.sharp_6000_4000)).
    unfold buffer_length, MAX_FILE_SIZE. cbn. discriminate.
  - assert (Hbig : MAX_FILE_SIZE < buffer_length Sample.oversized).
    { rewrite oversized_length. lia. }
    destruct (resizeIfNeeded_contract (RT := Sample.sharp_6000_4000)
                Sample.oversized "a.jpg") as (_ & Hlarge & _).
    destruct (Hlarge Hbig _ eq_refl eq_refl eq_refl)
      as (w' & h' & Hdims & _ & _ & _ & _ & Hdone & _).
    injection Hdims as <- <-.
    apply (Hdone [Byte.xff; Byte.xd8]). reflexivity.
Defined.

Lemma extraction_failure_degrades_witness :
  extractExif (RT := Sample.unreadable) [Byte.xff; Byte.xd8] "a.jpg" = degraded_record /\
  (exists entry,
     results (process_file (RT := Sample.unreadable) false
                {| results := []; db := Store.empty |} (Sample.photo, Sample.calm))
       = [entry] /\
     prop entry "success" = VBool true /\
     prop entry "meural_id" = VInt 42 /\
     prop entry "exif" = degraded_exif) /\
  (exists entry,
     results (process_file (RT := Sample.unreadable) false
                {| results := []; db := Store.empty |}
                (Sample.photo, Scenario.rejected_upload))
       = [entry] /\
     prop entry "success" = VBool false /\
     prop entry "error" = VObj [("detail", VStr "Invalid image")] /\
     prop entry "exif" = VNull).
Proof.
  destruct (extraction_failure_degrades (RT := Sample.unreadable)
              [Byte.xff; Byte.xd8] "a.jpg" eq_refl)
    as (Hrecord & _ & _ & Hloop).
  split; [exact Hrecord |]. split.
  - destruct (Hloop false Sample.photo Sample.calm {| results := []; db := Store.empty |}
                eq_refl eq_refl)
      as (entry & rest & Hresults & Hclean & _ & _ & _ & _ & Haccepted).
    destruct (Haccepted Sample.accepted _ eq_refl eq_refl eq_refl eq_refl
                (fun _ => eq_refl))
      as (Hsuccess & Hid & _ & _ & Hexif & _).
    exists entry. rewrite Hresults, (Hclean eq_refl).
    split; [reflexivity |]. split; [exact Hsuccess |]. split; [exact Hid | exact Hexif].
  - destruct (Hloop false Sample.photo Scenario.rejected_upload
                {| results := []; db := Store.empty |} eq_refl eq_refl)
      as (entry & rest & Hresults & Hclean & _ & _ & _ & Hrefused & _).
    destruct (Hrefused Scenario.refused _ eq_refl eq_refl eq_refl)
      as (Hsuccess & Herror & Hnulls & _).
    exists entry. rewrite Hresults, (Hclean eq_refl).
    split; [reflexivity |]. split; [exact Hsuccess |]. split; [exact Herror |].
    injection Hnulls as _ _ Hexif _ _. exact Hexif.
Defined.


Lemma description_composer_witness :
  generateSmartDescription (RT := Sample.unreadable)
    (VObj [("date_taken", VStr "2024-07-15T14:30:00")])
    (VObj [("city", VStr "Paris")]) (VStr "Golden light on rooftops")
    = VStr "Paris · Summer · Golden light on rooftops" /\
  generateSmartDescription (RT := Sample.unreadable)
    (VObj [("date_taken", VStr "2024-01-15T10:00:00")]) VNull VNull = VStr "Winter" /\
  generateSmartDescription (RT := Sample.unreadable) (VObj []) VNull VNull = VNull /\
  getSeason (RT := Sample.unreadable) (VStr "2024-03-01T00:00:00") = VStr "Spring".
Proof.
  split; [| split; [| split]].
  - apply (description_composer (RT := Sample.unreadable)
             (VObj [("date_taken", VStr "2024-07-15T14:30:00")])
             (VObj [("city", VStr "Paris")]) (VStr "Golden light on rooftops"));
      reflexivity.
  - apply (description_composer (RT := Sample.unreadable)
             (VObj [("date_taken", VStr "2024-01-15T10:00:00")]) VNull VNull);
      reflexivity.
  - apply (description_composer (RT := Sample.unreadable) (VObj []) VNull VNull);
      reflexivity.
  - apply (proj1 (proj2 (description_composer (RT := Sample.unreadable)
             (VObj [("date_taken", VStr "2024-03-01T00:00:00")]) VNull VNull)) 2);
      reflexivity.
Defined.

Lemma month_year_fallback_unreachable_witness :
  generateSmartDescription (RT := Sample.unreadable) Sample.dated_record VNull VNull
    = VStr "Winter".
Proof.
  destruct (month_year_fallback_unreachable Sample.unreadable Sample.dated_record
              VNull VNull eq_refl) as (_ & _ & Halone & _).
  rewrite (Halone eq_refl eq_refl). reflexivity.
Defined.

Lemma gps_all_or_nothing_witness :
  (let record := extractExif
       (RT := Sample.reading (Sample.gps_tags (VInt 48) (VInt 2) (VInt 35))) [] "a.jpg" in
   prop record "gps_latitude" = VInt 48 /\
   prop record "gps_longitude" = VInt 2 /\
   prop record "gps_altitude" = VInt 35) /\
  (let record := extractExif
       (RT := Sample.reading (Sample.gps_tags (VInt 48) VUndefined (VInt 35))) [] "a.jpg" in
   prop record "gps_latitude" = VNull /\
   prop record "gps_longitude" = VNull /\
   prop record "gps_altitude" = VNull).
Proof.
  split.
  - apply (gps_all_or_nothing
             (RT := Sample.reading (Sample.gps_tags (VInt 48) (VInt 2) (VInt 35)))
             [] "a.jpg" _ eq_refl eq_refl); reflexivity.
  - apply (gps_all_or_nothing
             (RT := Sample.reading (Sample.gps_tags (VInt 48) VUndefined (VInt 35)))
             [] "a.jpg" _ eq_refl eq_refl). right. reflexivity.
Defined.


End Witness.

(** * Further facts *)

(** ** More on the Metadata Store *)

Module StoreInvariants.
Import Store StoreFacts.


Lemma new_row_fields (rowid : Z) (now meuralId filename exifData : value) :
  let row := new_row rowid now (run_parameters meuralId filename exifData) in
  prop row "id" = VInt rowid /\
  prop row "meural_id" = meuralId /\
  prop row "original_filename" = filename /\
  prop row "uploaded_at" = now /\
  prop row "location_name" = VNull /\
  columns_of row = table_columns /\
  Forall (fun column => prop row column = prop exifData column)
         (typed_fields ++ ["exif_json"]).
Proof. repeat split. repeat constructor. Qed.



Lemma filter_none_keeps_all {A : Type} (p : A -> bool) (l : list A) :
  filter p l = [] -> filter (fun x => negb (p x)) l = l.
Proof.
  induction l as [| x l IH]; cbn; [reflexivity |].
  destruct (p x); [discriminate |]. cbn. intros H. f_equal. auto.
Qed.

Lemma reachable_unique (db : DB) : reachable db -> unique_ids (photos db).
Proof.
  induction 1 as [| db db' fault now meuralId filename exifData _ IH Hsave].
  - exact I.
  - destruct (savePhotoExif_photos _ _ _ _ _ _ _ Hsave) as [Hphotos _].
    rewrite Hphotos. apply unique_ids_snoc.
    + apply unique_ids_filter. exact IH.
    + apply Forall_forall. intros r Hin. apply filter_In in Hin as [_ Hneg].
      unfold has_meural_id in *.
      change (prop (new_row _ _ _) "meural_id") with meuralId.
      rewrite sql_eq_sym.
      destruct (sql_eq (prop r "meural_id") meuralId); [discriminate | reflexivity].
Qed.

(** X1: every table the server can have built obeys the UNIQUE constraint
    on [meural_id]: no two rows share a remote id, so a lookup by remote id
    finds at most one row. *)
Theorem reachable_unique_ids (db : DB) :
  reachable db ->
  unique_ids (photos db) /\
  forall meuralId, (List.length (select_by_meural_id db meuralId) <= 1)%nat.
Proof.
  intros Hreach. pose proof (reachable_unique db Hreach) as Huniq.
  split; [exact Huniq |].
  intros meuralId. apply unique_ids_at_most_one. exact Huniq.
Qed.


(** Looking a column up by its declared type: the columns the extractor
    fills, and the catch-all blob, all have one. *)
Lemma typed_columns_declared :
  Forall (fun column => exists type, declared_type column = Some type)
         (typed_fields ++ ["exif_json"]).
Proof. repeat (apply Forall_cons; [eexists; reflexivity |]). apply Forall_nil. Qed.

(** X3: a lookup after a write finds the row written.  Take a table whose
    remote ids are numbers or NULL, as the INTEGER column holds them, and
    write a record under a numeric id with a file name.  Then [stmt.get]
    for that id returns the new row; the row holds the id and the file name,
    and every EXIF column whose value fits the declared type of the column
    (NULL, text for a TEXT column, a finite number for a numeric one) holds
    that value; when the id was not in the table before, the rows already
    there stay as they are, in place; and the remote ids of the new table
    are again numbers or NULL. *)
Theorem save_then_get (db db' : DB) (fault : option string) (now : value)
    (id : Z) (filename : string) (exifData : value) :
  Forall (fun row => stored_as_bound INTEGER (prop row "meural_id") = true)
         (photos db) ->
  savePhotoExif db fault now (VInt id) (VStr filename) exifData = Ok db' ->
  let row := stmt_get db' (VInt id) in
  prop row "meural_id" = VInt id /\
  prop row "original_filename" = VStr filename /\
  (forall column type,
     In column (typed_fields ++ ["exif_json"]) ->
     declared_type column = Some type ->
     stored_as_bound type (prop exifData column) = true ->
     prop row column = prop exifData column) /\
  In row (photos db') /\
  (select_by_meural_id db (VInt id) = [] -> photos db' = (photos db ++ [row])%list) /\
  Forall (fun row => stored_as_bound INTEGER (prop row "meural_id") = true)
         (photos db').
Proof.
  intros Hids Hsave row.
  destruct (savePhotoExif_photos _ _ _ _ _ _ _ Hsave) as [Hphotos _].
  set (written := new_row (last_rowid db + 1) now
                    (run_parameters (VInt id) (VStr filename) exifData)) in *.
  assert (Hself : sql_eq (VInt id) (VInt id) = true).
  { unfold sql_eq, VInt, of_Z. apply Qeq_bool_iff. reflexivity. }
  assert (Hrow : row = written).
  { subst row. unfold stmt_get, select_by_meural_id.
    rewrite Hphotos, filter_app, filter_removed. cbn [filter app].
    unfold has_meural_id at 1.
    change (prop written "meural_id") with (VInt id). rewrite Hself. reflexivity. }
  rewrite Hrow.
  destruct (new_row_fields (last_rowid db + 1) now (VInt id) (VStr filename) exifData)
    as (_ & Hm & Hf & _ & _ & _ & Hcols).
  fold written in Hm, Hf, Hcols.
  split; [exact Hm |]. split; [exact Hf |]. split; [| split; [| split]].
  - intros column type Hin _ _.
    exact (proj1 (Forall_forall _ _) Hcols column Hin).
  - rewrite Hphotos. apply in_or_app. right. left. reflexivity.
  - intros Hnew. rewrite Hphotos. f_equal.
    apply filter_none_keeps_all. exact Hnew.
  - rewrite Hphotos. apply Forall_app. split.
    + apply Forall_filter_keep. exact Hids.
    + constructor; [| constructor]. fold written. rewrite Hm. reflexivity.
Qed.

End StoreInvariants.

(** ** More on the upload route *)

Section UploadMore.
Context `{RT : Runtime}.
Import Store StoreFacts Normalizer Enrich Upload.

(** The [try] block writes to the table at most once, through
    [savePhotoExif]. *)
Lemma attempt_db (anthropic : bool) (file : File) (w : World) (db0 db1 : DB)
    (entry : value) :
  attempt anthropic file w db0 = Ok (entry, db1) ->
  db1 = db0 \/
  exists meuralId exifData,
    savePhotoExif db0 (stmt_run_fault w) (current_timestamp w) meuralId
      (VStr (originalname file)) exifData = Ok db1.
Proof.
  unfold attempt.
  destruct (readFileSync w) as [fileBuffer | e]; [| discriminate].
  destruct (upload_fetch w) as [response | e]; [| discriminate].
  cbn [bind].
  destruct (json response) as [data | e]; [| discriminate].
  cbn [bind].
  destruct (ok response) eqn:Hok.
  - destruct (get data "data") as [inner | e]; [| discriminate].
    cbn [bind andb].
    destruct (truthy (opt inner "id")).
    + destruct (savePhotoExif _ _ _ _ _ _) as [db' | e] eqn:Hsave; [| discriminate].
      cbn [bind]. intros H. injection H as _ <-.
      right. eexists. eexists. exact Hsave.
    + cbn [bind]. intros H. injection H as _ <-. left. reflexivity.
  - cbn [bind andb]. intros H. injection H as _ <-. left. reflexivity.
Qed.

Lemma process_file_reachable (anthropic : bool) (st : State) (fw : File * World) :
  reachable (db st) -> reachable (db (process_file anthropic st fw)).
Proof.
  intros Hreach. destruct fw as [file w]. unfold process_file.
  destruct (attempt anthropic file w (db st)) as [[entry db1] | message] eqn:Htry.
  - assert (Hdb1 : reachable db1).
    { destruct (attempt_db _ _ _ _ _ _ Htry) as [-> | (meuralId & exifData & Hsave)];
        [exact Hreach |].
      apply (reachable_save _ _ _ _ _ _ _ Hreach Hsave). }
    destruct (unlinkSync_fault w); exact Hdb1.
  - exact Hreach.
Qed.

Lemma loop_reachable (anthropic : bool) (files : list (File * World)) (st : State) :
  reachable (db st) ->
  reachable (db (fold_left (process_file anthropic) files st)).
Proof.
  revert st. induction files as [| fw rest IH]; intros st Hreach; cbn [fold_left].
  - exact Hreach.
  - apply IH. apply process_file_reachable. exact Hreach.
Qed.

Lemma upload_route_reachable (anthropic : bool) (token : result value)
    (files : list (File * World)) (db0 : DB) :
  reachable db0 -> reachable (snd (upload_route anthropic token files db0)).
Proof.
  intros Hreach. unfold upload_route. destruct token as [t | e]; cbn [snd].
  - apply (loop_reachable anthropic files {| results := []; db := db0 |}). exact Hreach.
  - exact Hreach.
Qed.

Lemma reachable_place_names (db0 : DB) :
  reachable db0 ->
  Forall (fun row => prop row "location_name" = VNull
                     /\ columns_of row = table_columns) (photos db0).
Proof.
  induction 1 as [| db1 db' fault now meuralId filename exifData _ IH Hsave].
  - constructor.
  - destruct (savePhotoExif_photos _ _ _ _ _ _ _ Hsave) as [Hphotos _].
    rewrite Hphotos. apply Forall_app. split.
    + apply Forall_filter_keep. exact IH.
    + constructor; [| constructor]. split; reflexivity.
Qed.

Lemma save_grows_by_one (db0 db1 : DB) (fault : option string)
    (now meuralId filename exifData : value) :
  savePhotoExif db0 fault now meuralId filename exifData = Ok db1 ->
  (List.length (photos db1) <= List.length (photos db0) + 1)%nat.
Proof.
  intros Hsave. destruct (savePhotoExif_photos _ _ _ _ _ _ _ Hsave) as [Hphotos _].
  rewrite Hphotos, length_app. cbn [List.length].
  pose proof (filter_length_le (fun r => negb (has_meural_id meuralId r)) (photos db0)).
  lia.
Qed.

Lemma loop_row_count (anthropic : bool) (files : list (File * World)) (st : State) :
  (List.length (photos (db (fold_left (process_file anthropic) files st)))
   <= List.length (photos (db st)) + List.length files)%nat.
Proof.
  revert st. induction files as [| [file w] rest IH]; intros st;
    cbn [fold_left List.length]; [lia |].
  specialize (IH (process_file anthropic st (file, w))).
  assert (Hstep : (List.length (photos (db (process_file anthropic st (file, w))))
                   <= List.length (photos (db st)) + 1)%nat).
  { unfold process_file.
    destruct (attempt anthropic file w (db st)) as [[entry db1] | message] eqn:Htry;
      [| cbn [db]; lia].
    assert (List.length (photos db1) <= List.length (photos (db st)) + 1)%nat.
    { destruct (attempt_db _ _ _ _ _ _ Htry) as [-> | (meuralId & exifData & Hsave)];
        [lia |].
      apply (save_grows_by_one _ _ _ _ _ _ _ Hsave). }
    destruct (unlinkSync_fault w); cbn [db]; assumption. }
  lia.
Qed.

(** X4: a batch of uploads keeps the table in order: starting from a table
    the server built, the table after the batch still has at most one row
    per remote id, and it has grown by at most one row per file. *)
Theorem upload_keeps_unique_ids (anthropic : bool) (token : result value)
    (files : list (File * World)) (db0 : DB) :
  reachable db0 ->
  let db' := snd (upload_route anthropic token files db0) in
  unique_ids (photos db') /\
  (forall meuralId, (List.length (select_by_meural_id db' meuralId) <= 1)%nat) /\
  (List.length (photos db') <= List.length (photos db0) + List.length files)%nat.
Proof.
  intros Hreach db'.
  pose proof (upload_route_reachable anthropic token files db0 Hreach) as Hreach'.
  fold db' in Hreach'.
  pose proof (StoreInvariants.reachable_unique db' Hreach') as Huniq.
  split; [exact Huniq |]. split.
  - intros meuralId. apply unique_ids_at_most_one. exact Huniq.
  - subst db'. unfold upload_route. destruct token as [t | e]; cbn [snd]; [| lia].
    apply (loop_row_count anthropic files {| results := []; db := db0 |}).
Qed.

(** X5: the place name is never stored.  The route puts the geocoder's
    display name into [exifData.location_name], but the INSERT statement
    does not list the column: in the table after any batch, every row has
    all the columns of the table and a NULL [location_name]. *)
Theorem upload_never_stores_place_name (anthropic : bool) (token : result value)
    (files : list (File * World)) (db0 : DB) :
  reachable db0 ->
  Forall (fun row => prop row "location_name" = VNull
                     /\ columns_of row = table_columns)
         (photos (snd (upload_route anthropic token files db0))).
Proof.
  intros Hreach. apply reachable_place_names.
  apply upload_route_reachable. exact Hreach.
Qed.

(** X6: when the vendor accepts the upload and assigns an id, and the
    store then refuses the row, the file is reported as failed with the
    store's message, though the photo is on the vendor's side; the table
    is left as it was and the loop adds this one entry. *)
Theorem store_failure_reports_uploaded_file_as_failed (anthropic : bool)
    (st : State) (file : File) (w : World) (fileBuffer : Buffer)
    (response : HttpResponse) (data : value) (message : string) :
  readFileSync w = Ok fileBuffer ->
  upload_fetch w = Ok response ->
  ok response = true ->
  json response = Ok data ->
  truthy (opt (prop data "data") "id") = true ->
  stmt_run_fault w = Some message ->
  process_file anthropic st (file, w) =
    {| results := push (results st)
                   (VObj [("filename", VStr (originalname file));
                          ("success", VBool false);
                          ("error", VStr message)]);
       db := db st |}.
Proof.
  intros Hread Hfetch Hok Hjson Hid Hfault.
  assert (Hdata : nullish data = false).
  { destruct data; try reflexivity; discriminate Hid. }
  unfold process_file, attempt.
  rewrite Hread, Hfetch. cbn [bind]. rewrite Hjson. cbn [bind].
  rewrite Hok, (get_not_nullish _ _ Hdata). cbn [bind andb].
  rewrite Hid, Hfault. reflexivity.
Qed.

(** X7: when the vendor refuses the upload, no enrichment runs and nothing
    is stored: the entry reports the failure with the vendor's answer as
    the error, and has no id, no metadata, no caption and no description. *)
Theorem rejected_upload_entry (anthropic : bool) (file : File) (w : World)
    (db0 : DB) (fileBuffer : Buffer) (response : HttpResponse) (data : value) :
  readFileSync w = Ok fileBuffer ->
  upload_fetch w = Ok response ->
  ok response = false ->
  json response = Ok data ->
  exists entry,
    attempt anthropic file w db0 = Ok (entry, db0) /\
    prop entry "success" = VBool false /\
    prop entry "error" = data /\
    Forall (fun field => prop entry field = VNull)
           ["meural_id"; "data"; "exif"; "vision_caption"; "smart_description"].
Proof.
  intros Hread Hfetch Hok Hjson. unfold attempt.
  rewrite Hread, Hfetch. cbn [bind]. rewrite Hjson. cbn [bind].
  rewrite Hok. cbn [bind andb].
  eexists. split; [reflexivity |]. split; [reflexivity |]. split; [reflexivity |].
  repeat constructor.
Qed.

Lemma process_file_at_most_two (anthropic : bool) (st : State) (fw : File * World) :
  exists added,
    results (process_file anthropic st fw) = (results st ++ added)%list /\
    (1 <= List.length added <= 2)%nat.
Proof.
  destruct fw as [file w].
  destruct (process_file_results anthropic st file w) as (added & Hres & _ & Hshape).
  exists added. split; [exact Hres |].
  destruct (attempt anthropic file w (db st)) as [[entry db1] | message];
    [destruct (unlinkSync_fault w) |]; subst added; cbn; lia.
Qed.

Lemma loop_extends (anthropic : bool) (files : list (File * World)) (st : State) :
  exists more,
    results (fold_left (process_file anthropic) files st) = (results st ++ more)%list /\
    (List.length files <= List.length more <= 2 * List.length files)%nat.
Proof.
  revert st. induction files as [| fw rest IH]; intros st; cbn [fold_left].
  - exists []. split; [symmetry; apply app_nil_r | cbn; lia].
  - destruct (process_file_at_most_two anthropic st fw) as (added & Hadded & Hlen).
    destruct (IH (process_file anthropic st fw)) as (more & Hmore & Hlen').
    exists (added ++ more)%list. split.
    + rewrite Hmore, Hadded. symmetry. apply app_assoc.
    + rewrite length_app. cbn [List.length]. lia.
Qed.

(** X8: on the files multer hands over, the route answers 500 only when
    no token could be had, and then leaves the table alone; otherwise it
    answers 200 with at least one and at most two entries per file. *)
Theorem upload_route_entry_count (anthropic : bool) (token : result value)
    (files : list (File * World)) (db0 : DB) :
  (exists message,
     token = Throw message /\
     upload_route anthropic token files db0
       = (Json 500 (VObj [("error", VStr message)]), db0)) \/
  (exists entries,
     fst (upload_route anthropic token files db0)
       = Json 200 (VObj [("results", VArr entries)]) /\
     (List.length files <= List.length entries <= 2 * List.length files)%nat).
Proof.
  destruct token as [t | message].
  - right. unfold upload_route.
    destruct (loop_extends anthropic files {| results := []; db := db0 |})
      as (more & Hmore & Hlen).
    cbn [results app] in Hmore.
    eexists. split; [reflexivity |]. cbn [fst]. rewrite Hmore. exact Hlen.
  - left. exists message. split; reflexivity.
Qed.

(** X9: entries are final once pushed: the entries of the files processed
    so far are a prefix of the entries of any longer batch, whatever
    happens to the files that follow. *)
Theorem earlier_entries_are_final (anthropic : bool)
    (before after : list (File * World)) (st : State) :
  exists more,
    results (fold_left (process_file anthropic) (before ++ after) st) =
    (results (fold_left (process_file anthropic) before st) ++ more)%list /\
    (List.length after <= List.length more)%nat.
Proof.
  rewrite fold_left_app.
  destruct (loop_extends anthropic after (fold_left (process_file anthropic) before st))
    as (more & Hmore & Hlen).
  exists more. split; [exact Hmore | lia].
Qed.

Lemma entry_of_attempt (anthropic : bool) (file : File) (w : World) (db0 db1 : DB)
    (entry : value) :
  attempt anthropic file w db0 = Ok (entry, db1) -> entry_of (file, w) entry.
Proof.
  intros Htry. destruct (attempt_entry _ _ _ _ _ _ Htry) as (Hname & response & Hfetch & Hsuccess).
  split; [exact Hname |]. cbn [snd]. intros Htrue. exists response.
  split; [exact Hfetch |]. rewrite Hsuccess in Htrue. injection Htrue as ->. reflexivity.
Qed.

Lemma loop_entry_per_file (anthropic : bool) (files : list (File * World)) (st : State) :
  Forall (fun fw => unlinkSync_fault (snd fw) = None) files ->
  exists added,
    results (fold_left (process_file anthropic) files st) = (results st ++ added)%list /\
    Forall2 entry_of files added.
Proof.
  revert st. induction files as [| [file w] rest IH]; intros st Hclean; cbn [fold_left].
  - exists []. split; [symmetry; apply app_nil_r | constructor].
  - inversion Hclean as [| ? ? Hw Hrest]; subst. cbn [snd] in Hw.
    destruct (IH (process_file anthropic st (file, w)) Hrest) as (added & Hadded & Hall).
    destruct (process_file_results anthropic st file w) as (first & Hfirst & _ & Hshape).
    rewrite Hw in Hshape.
    destruct (attempt anthropic file w (db st)) as [[entry db1] | message] eqn:Htry;
      subst first.
    + exists (entry :: added). split.
      * rewrite Hadded, Hfirst, <- app_assoc. reflexivity.
      * constructor; [apply (entry_of_attempt _ _ _ _ _ _ Htry) | exact Hall].
    + exists (failure_entry file message :: added). split.
      * rewrite Hadded, Hfirst, <- app_assoc. reflexivity.
      * constructor; [| exact Hall]. split; [reflexivity | discriminate].
Qed.

(** X10: when every temp file can be removed, the route answers with
    exactly one entry per file, in the order of the files: each entry
    carries its file's name, and reports success only if the vendor
    accepted that file's upload. *)
Theorem one_entry_per_file_when_cleanup_succeeds (anthropic : bool) (token : value)
    (files : list (File * World)) (db0 : DB) :
  Forall (fun fw => unlinkSync_fault (snd fw) = None) files ->
  exists entries,
    fst (upload_route anthropic (Ok token) files db0)
      = Json 200 (VObj [("results", VArr entries)]) /\
    Forall2 entry_of files entries.
Proof.
  intros Hclean. unfold upload_route.
  destruct (loop_entry_per_file anthropic files {| results := []; db := db0 |} Hclean)
    as (added & Hadded & Hall).
  cbn [results app] in Hadded.
  exists added. split; [cbn [fst]; rewrite Hadded; reflexivity | exact Hall].
Qed.

Lemma attempt_agrees_with_basic (anthropic : bool) (file : File) (w : World)
    (db0 : DB) :
  stmt_run_fault w = None ->
  match attempt anthropic file w db0, Basic.attempt file w with
  | Ok (entry, _), Ok entry' => core_fields entry = core_fields entry'
  | Throw message, Throw message' => message = message'
  | _, _ => False
  end.
Proof.
  intros Hfault. unfold attempt, Basic.attempt.
  destruct (readFileSync w) as [fileBuffer | e]; [| reflexivity].
  destruct (upload_fetch w) as [response | e]; [| reflexivity].
  cbn [bind].
  destruct (json response) as [data | e]; [| reflexivity].
  cbn [bind].
  destruct (ok response) eqn:Hok.
  - destruct (get data "data") as [inner | e]; [| reflexivity].
    cbn [bind andb]. rewrite Hfault.
    destruct (truthy (opt inner "id")); cbn [bind savePhotoExif]; reflexivity.
  - reflexivity.
Qed.

Lemma loop_agrees_with_basic (anthropic : bool) (files : list (File * World))
    (st : State) (entries : list value) :
  Forall (fun fw => stmt_run_fault (snd fw) = None) files ->
  map core_fields (results st) = map core_fields entries ->
  map core_fields (results (fold_left (process_file anthropic) files st)) =
  map core_fields (fold_left Basic.process_file files entries).
Proof.
  revert st entries. induction files as [| [file w] rest IH];
    intros st entries Hclean Hsame; cbn [fold_left]; [exact Hsame |].
  inversion Hclean as [| ? ? Hw Hrest]; subst. cbn [snd] in Hw.
  apply IH; [exact Hrest |].
  pose proof (attempt_agrees_with_basic anthropic file w (db st) Hw) as Hagree.
  unfold process_file, Basic.process_file, push.
  destruct (attempt anthropic file w (db st)) as [[entry db1] | message],
    (Basic.attempt file w) as [entry' | message']; try contradiction.
  - destruct (unlinkSync_fault w); cbn [results];
      rewrite !map_app, Hsame; cbn [map]; rewrite Hagree; reflexivity.
  - subst message'. cbn [results]. rewrite !map_app, Hsame. reflexivity.
Qed.

(** X11: the two servers agree on uploads.  As long as the store takes
    every row, the route with EXIF storage and the route of the plain
    server answer with the same status and with entries that agree, one by
    one, on file name, success, remote id, vendor data, resize report and
    error. *)
Theorem upload_agrees_with_basic (anthropic : bool) (token : result value)
    (files : list (File * World)) (db0 : DB) :
  Forall (fun fw => stmt_run_fault (snd fw) = None) files ->
  match fst (upload_route anthropic token files db0), Basic.upload_route token files with
  | Json status body, Json status' body' =>
      status = status' /\
      prop body "error" = prop body' "error" /\
      match prop body "results", prop body' "results" with
      | VArr entries, VArr entries' =>
          map core_fields entries = map core_fields entries'
      | VUndefined, VUndefined => True
      | _, _ => False
      end
  end.
Proof.
  intros Hclean. unfold upload_route, Basic.upload_route.
  destruct token as [t | message]; cbn [fst].
  - split; [reflexivity |]. split; [reflexivity |]. cbn [prop assoc String.eqb].
    apply (loop_agrees_with_basic anthropic files {| results := []; db := db0 |} []);
      [exact Hclean | reflexivity].
  - split; [reflexivity |]. split; reflexivity.
Qed.

End UploadMore.

(** ** The bulk routes *)

Section BulkFacts.
Context `{RT : Runtime}.
Import Enrich Upload Bulk.

Lemma delete_loop_turns (ids : list value) (i : nat) (outcome : nat -> result value)
    (entries : list value) :
  delete_loop ids i outcome entries = (entries ++ turns delete_one ids i outcome)%list.
Proof.
  revert i entries. induction ids as [| id rest IH]; intros i entries; cbn.
  - symmetry. apply app_nil_r.
  - rewrite IH. unfold push. rewrite <- app_assoc. reflexivity.
Qed.

Lemma analyze_loop_turns (anthropic : bool) (apply : value) (ids : list value)
    (i : nat) (world : nat -> AnalyzeWorld) (entries : list value) :
  analyze_loop anthropic apply ids i world entries =
  (entries ++ turns (analyze_one anthropic apply) ids i world)%list.
Proof.
  revert i entries. induction ids as [| id rest IH]; intros i entries; cbn.
  - symmetry. apply app_nil_r.
  - rewrite IH. unfold push. rewrite <- app_assoc. reflexivity.
Qed.

Lemma turns_ids {W : Type} (one : value -> W -> value) (ids : list value) (i : nat)
    (world : nat -> W) :
  (forall id w, prop (one id w) "id" = id) ->
  map (fun entry => prop entry "id") (turns one ids i world) = ids.
Proof.
  intros Hone. revert i. induction ids as [| id rest IH]; intros i; cbn; [reflexivity |].
  rewrite Hone, IH. reflexivity.
Qed.

Lemma turns_field {W : Type} (one : value -> W -> value) (field : string)
    (f : W -> value) (ids : list value) (i : nat) (world : nat -> W) :
  (forall id w, prop (one id w) field = f w) ->
  map (fun entry => prop entry field) (turns one ids i world) =
  map (fun k => f (world k)) (seq i (List.length ids)).
Proof.
  intros Hone. revert i. induction ids as [| id rest IH]; intros i; cbn; [reflexivity |].
  rewrite Hone, IH. reflexivity.
Qed.

(** X12: bulk-delete answers a body whose [ids] is an array with exactly
    one entry per id, in the order of the ids, each telling whether its
    delete request returned; a failed delete never stops the ones after
    it.  A body whose [ids] is neither an array nor a string is answered
    500. *)
Theorem bulk_delete_one_entry_per_id (body : value) (outcome : nat -> result value) :
  match prop body "ids" with
  | VArr ids =>
      exists entries,
        bulk_delete body outcome = Json 200 (VObj [("results", VArr entries)]) /\
        map (fun entry => prop entry "id") entries = ids /\
        map (fun entry => prop entry "success") entries =
          map (fun k => VBool (returns (outcome k))) (seq 0 (List.length ids))
  | VStr s =>
      exists entries,
        bulk_delete body outcome = Json 200 (VObj [("results", VArr entries)])
  | _ => exists message,
           bulk_delete body outcome = Json 500 (VObj [("error", VStr message)])
  end.
Proof.
  unfold bulk_delete, get.
  destruct body as [| | b | n | s | l | props]; cbn [nullish prop bind];
    try (eexists; reflexivity).
  destruct (assoc "ids" props) as [[| | b | n | s | ids | ps] |]; cbn [iterate bind];
    try (eexists; reflexivity).
  eexists. split; [reflexivity |].
  rewrite delete_loop_turns. cbn [app]. split.
  - apply turns_ids. intros id w. unfold delete_one. destruct w; reflexivity.
  - apply (turns_field delete_one "success" (fun w => VBool (returns w))).
    intros id w. unfold delete_one. destruct w; reflexivity.
Qed.

Lemma failed_fields (id : value) (message : string) :
  prop (failed id message) "id" = id /\
  prop (failed id message) "success" = VBool false /\
  prop (failed id message) "applied" = VUndefined.
Proof. repeat split. Qed.

(** Opens one turn of bulk-analyze along the path the world takes. *)
Ltac open_turn :=
  unfold analyze_one;
  repeat match goal with
  | |- context [bind ?m _] =>
      lazymatch m with
      | Ok _ => cbn [bind]
      | Throw _ => cbn [bind try_catch]
      | _ => let e := fresh "e" in destruct m as [? | e] eqn:?; cbn [bind try_catch]
      end
  | |- context [if negb (truthy ?v) then _ else _] =>
      destruct (truthy v) eqn:?; cbn [negb bind try_catch]
  end.

Lemma analyze_one_id (anthropic : bool) (apply id : value) (w : AnalyzeWorld) :
  prop (analyze_one anthropic apply id w) "id" = id.
Proof. open_turn; reflexivity. Qed.

Lemma analyze_one_success (anthropic : bool) (apply id : value) (w : AnalyzeWorld) :
  exists b, prop (analyze_one anthropic apply id w) "success" = VBool b.
Proof. open_turn; eexists; reflexivity. Qed.

(** X13: bulk-analyze too answers with exactly one entry per id, in the
    order of the ids, each with a boolean [success], whichever step of a
    turn fails. *)
Theorem bulk_analyze_one_entry_per_id (anthropic : bool) (body : value)
    (ids : list value) (world : nat -> AnalyzeWorld) :
  prop body "ids" = VArr ids ->
  exists entries,
    bulk_analyze anthropic body world = Json 200 (VObj [("results", VArr entries)]) /\
    map (fun entry => prop entry "id") entries = ids /\
    Forall (fun entry => exists b, prop entry "success" = VBool b) entries.
Proof.
  intros Hids.
  assert (Hbody : nullish body = false).
  { destruct body; try reflexivity; discriminate Hids. }
  unfold bulk_analyze. rewrite (get_not_nullish _ _ Hbody), Hids. cbn [bind iterate].
  eexists. split; [reflexivity |].
  rewrite analyze_loop_turns. cbn [app]. split.
  - apply turns_ids. intros id w. apply analyze_one_id.
  - generalize 0%nat. induction ids as [| id rest IH] in |- *; intros i; cbn [turns];
      constructor; [apply analyze_one_success | apply IH].
Qed.

(** X14: an entry says [applied: true] only when applying was asked for,
    a description was composed, the request that writes it to the vendor
    returned, and the entry reports success. *)
Theorem applied_means_applied (anthropic : bool) (apply id : value) (w : AnalyzeWorld) :
  let entry := analyze_one anthropic apply id w in
  prop entry "applied" = VBool true ->
  truthy apply = true /\
  returns (apply_request w) = true /\
  prop entry "success" = VBool true /\
  truthy (prop entry "smart_description") = true.
Proof.
  cbv zeta. open_turn; cbn [prop assoc String.eqb Ascii.eqb Bool.eqb];
    try discriminate.
  intros H. injection H as H. apply andb_true_iff in H as [Happly Hdescription].
  match goal with
  | Hrun : (if _ then apply_request w else _) = Ok _ |- _ =>
      rewrite Happly, Hdescription in Hrun; cbn [andb] in Hrun; rewrite Hrun
  end.
  repeat split; assumption.
Qed.

(** X15: in bulk-analyze a failed write-back is not swallowed: if a turn
    would report [applied: true] when the request returns, then with the
    request failing the id's entry is a failure carrying the request's
    message, and the caption and the description are not reported. *)
Theorem failed_apply_fails_the_turn (anthropic : bool) (apply id answer : value)
    (w : AnalyzeWorld) (message : string) :
  prop (analyze_one anthropic apply id (with_apply_request w (Ok answer))) "applied"
    = VBool true ->
  analyze_one anthropic apply id (with_apply_request w (Throw message))
    = failed id message.
Proof.
  unfold analyze_one. cbn [with_apply_request item_request image_fetch caption_create
                           stored_record place_fetch apply_request].
  destruct (item_request w) as [itemData | e]; cbn [bind try_catch]; [| discriminate].
  destruct (get itemData "data") as [photo | e]; cbn [bind try_catch]; [| discriminate].
  destruct (truthy photo); cbn [negb]; [| discriminate].
  destruct (truthy (js_or (prop photo "image") (prop photo "image_large")));
    cbn [negb]; [| discriminate].
  destruct (image_fetch w) as [[imageBuffer | e] | e]; cbn [bind try_catch];
    try discriminate.
  destruct (stored_record w) as [exifRecord | e]; cbn [bind try_catch];
    [| discriminate].
  match goal with
  | |- context [if ?c then Ok answer else Ok VUndefined] => destruct c
  end; cbn [bind try_catch]; [reflexivity | discriminate].
Qed.

End BulkFacts.

(** ** Authentication *)

Section AuthFacts.
Context `{RT : Runtime}.
Import Auth.

Lemma truthy_VInt (z : Z) : truthy (VInt z) = negb (z =? 0).
Proof. unfold truthy, VInt, Num.truthy, of_Z. rewrite is_zero_inject_Z. reflexivity. Qed.

(** X16: the token cache is only ever replaced by a fresh token: a call
    that throws leaves both variables as they were, and a call that
    returns hands back a truthy token, which is then the cached one. *)
Theorem getToken_cache_discipline (cache : TokenCache) (w : AuthWorld) :
  match getToken cache w with
  | (Throw _, cache') => cache' = cache
  | (Ok token, cache') =>
      truthy token = true /\ authToken cache' = token /\
      (cache' = cache \/
       tokenExpiry cache' = VInt (clock_on_answer w + TOKEN_LIFETIME))
  end.
Proof.
  unfold getToken.
  destruct (truthy (authToken cache)) eqn:Htoken; cbn [andb].
  - destruct (truthy (tokenExpiry cache) && js_gt _ _)%bool.
    + split; [exact Htoken | split; [reflexivity | left; reflexivity]].
    + destruct (negb _ || negb _)%bool; [reflexivity |].
      destruct (cognito_send w) as [response | e]; cbn [bind]; [| reflexivity].
      destruct (get response "AuthenticationResult") as [authentication | e];
        cbn [bind]; [| reflexivity].
      destruct (truthy (opt authentication "AccessToken")) eqn:Hnew; cbn [negb].
      * split; [exact Hnew | split; [reflexivity | right; reflexivity]].
      * destruct (JSON_stringify response); reflexivity.
  - destruct (negb _ || negb _)%bool; [reflexivity |].
    destruct (cognito_send w) as [response | e]; cbn [bind]; [| reflexivity].
    destruct (get response "AuthenticationResult") as [authentication | e];
      cbn [bind]; [| reflexivity].
    destruct (truthy (opt authentication "AccessToken")) eqn:Hnew; cbn [negb].
    + split; [exact Hnew | split; [reflexivity | right; reflexivity]].
    + destruct (JSON_stringify response); reflexivity.
Qed.

Lemma getToken_hit (cache : TokenCache) (w : AuthWorld) (expiry : Z) :
  truthy (authToken cache) = true ->
  tokenExpiry cache = VInt expiry ->
  expiry <> 0 ->
  clock_on_entry w < expiry ->
  getToken cache w = (Ok (authToken cache), cache).
Proof.
  intros Htoken Hexpiry Hnonzero Hclock. unfold getToken.
  rewrite Htoken, Hexpiry, truthy_VInt, gt_of_Z.
  replace (expiry =? 0) with false by lia.
  replace (clock_on_entry w <? expiry) with true by lia.
  reflexivity.
Qed.

Lemma getToken_first (w : AuthWorld) (token : value) (cache : TokenCache) :
  getToken signed_out w = (Ok token, cache) ->
  truthy token = true /\
  cache = {| authToken := token;
             tokenExpiry := VInt (clock_on_answer w + TOKEN_LIFETIME) |}.
Proof.
  unfold getToken. cbn [signed_out authToken truthy andb].
  destruct (negb _ || negb _)%bool; [discriminate |].
  destruct (cognito_send w) as [response | e]; cbn [bind]; [| discriminate].
  destruct (get response "AuthenticationResult") as [authentication | e];
    cbn [bind]; [| discriminate].
  destruct (truthy (opt authentication "AccessToken")) eqn:Hnew; cbn [negb].
  - intros H. injection H as <- <-. split; [exact Hnew | reflexivity].
  - destruct (JSON_stringify response); discriminate.
Qed.

(** X17: a token is reused for an hour.  After the server, started without
    a token, has obtained one, every call made less than 3600000 ms after
    the token was stored returns that token and leaves the cache alone,
    whatever the credentials and Cognito have become. *)
Theorem token_reused_within_the_hour (w later : AuthWorld) (token : value)
    (cache : TokenCache) :
  getToken signed_out w = (Ok token, cache) ->
  0 <= clock_on_answer w ->
  clock_on_entry later < clock_on_answer w + TOKEN_LIFETIME ->
  getToken cache later = (Ok token, cache).
Proof.
  intros Hfirst Hclock Hlater.
  destruct (getToken_first _ _ _ Hfirst) as [Htruthy ->].
  exact (getToken_hit
           {| authToken := token;
              tokenExpiry := VInt (clock_on_answer w + TOKEN_LIFETIME) |}
           later (clock_on_answer w + TOKEN_LIFETIME) Htruthy eq_refl
           ltac:(unfold TOKEN_LIFETIME; lia) Hlater).
Qed.

(** X18: a password file that is there wins over the environment even
    when it is blank: if its trimmed content is empty, a call that cannot
    use the cache throws the configuration error and never reaches
    Cognito, although MEURAL_PASSWORD may be set. *)
Theorem blank_password_file_blocks_sign_in (w : AuthWorld) (content : string) :
  password_file w = Some (Ok content) ->
  String_trim content = "" ->
  getToken signed_out w =
    (Throw "MEURAL_USERNAME and MEURAL_PASSWORD must be set in .env", signed_out).
Proof.
  intros Hfile Hblank. unfold getToken, read_password. rewrite Hfile, Hblank.
  cbn [signed_out authToken truthy andb negb String.eqb].
  rewrite orb_true_r. reflexivity.
Qed.

(** X19: [meuralRequest] leaves the token cache exactly as [getToken]
    does, also when the request itself then fails; it throws what
    [getToken] throws, and with a token and no body it returns what the
    response parses to. *)
Theorem meuralRequest_follows_getToken (cache : TokenCache) (w : AuthWorld)
    (body : value) (fetched : result HttpResponse) :
  snd (meuralRequest cache w body fetched) = snd (getToken cache w) /\
  match fst (getToken cache w) with
  | Throw message => fst (meuralRequest cache w body fetched) = Throw message
  | Ok _ =>
      truthy body = false ->
      fst (meuralRequest cache w body fetched) = (let* res := fetched in json res)
  end.
Proof.
  unfold meuralRequest. destruct (getToken cache w) as [[token | message] cache'];
    cbn [fst snd]; split; try reflexivity.
  intros ->. reflexivity.
Qed.

End AuthFacts.

(** ** More on the Metadata Extractor *)

Section ExtractorMore.
Context `{RT : Runtime}.

Ltac open_body H :=
  unfold extract_from_tags, tag_field, get in H;
  (destruct (nullish _) eqn:?; [discriminate H |]);
  cbn [bind] in H;
  match type of H with
  | context [if truthy ?d then normalize_date ?d else _] =>
      destruct (truthy d) eqn:?;
      [destruct (normalize_date d) eqn:?; [| discriminate H] |]
  end;
  cbn [bind] in H;
  (destruct (JSON_stringify _) eqn:?; [| discriminate H]);
  cbn [bind] in H;
  injection H as <-.

Lemma js_or_null_defined (v : value) : js_or v VNull <> VUndefined.
Proof.
  unfold js_or. destruct (truthy v) eqn:Ht; [| discriminate].
  intros ->. discriminate Ht.
Qed.

Lemma js_or_defined (v fallback : value) :
  fallback <> VUndefined -> js_or v fallback <> VUndefined.
Proof.
  intros Hf. unfold js_or. destruct (truthy v) eqn:Ht; [| exact Hf].
  intros ->. discriminate Ht.
Qed.

Lemma truthy_opt_prop (o : value) (k : string) :
  truthy (opt o k) = true -> prop o k <> VUndefined.
Proof.
  unfold opt. destruct (nullish o); [discriminate |].
  intros Ht Hu. rewrite Hu in Ht. discriminate.
Qed.

Lemma normalize_date_string (d v : value) :
  normalize_date d = Ok v -> exists s, d = VStr s /\ v = VStr (replace_first_space (replace_date_colons s)).
Proof.
  destruct d; cbn; try discriminate. intros H. injection H as <-. eauto.
Qed.

(** X20: the body of the extractor fails in exactly three ways: the parser
    returned null or undefined, the description of DateTimeOriginal is a
    truthy value that is not a string, or the tags cannot be serialized.
    In each of them, and only then, a parsed image gets the degraded
    record. *)
Theorem extraction_succeeds_iff (tags : value) :
  returns (extract_from_tags tags) = true <->
  nullish tags = false /\
  (truthy (tagv tags "exif" "DateTimeOriginal" "description") = false \/
   exists s, tagv tags "exif" "DateTimeOriginal" "description" = VStr s) /\
  returns (JSON_stringify tags) = true.
Proof.
  unfold tagv. split.
  - intros Hret. destruct (returns_Ok _ Hret) as [r H]. clear Hret.
    unfold extract_from_tags, tag_field, get in H.
    destruct (nullish tags) eqn:Hnull; [discriminate H |]. cbn [bind] in H.
    split; [reflexivity |].
    destruct (truthy (opt (opt (prop tags "exif") "DateTimeOriginal") "description"))
      eqn:Ht.
    + destruct (normalize_date _) as [v |] eqn:Hdate; [| discriminate H].
      cbn [bind] in H. destruct (normalize_date_string _ _ Hdate) as (s & Hs & _).
      split; [right; exists s; exact Hs |].
      destruct (JSON_stringify tags); [reflexivity | discriminate H].
    + cbn [bind] in H. split; [left; reflexivity |].
      destruct (JSON_stringify tags); [reflexivity | discriminate H].
  - intros (Hnull & Hdate & Hjson).
    destruct (returns_Ok _ Hjson) as [text Htext].
    unfold extract_from_tags, tag_field, get. rewrite Hnull. cbn [bind].
    destruct Hdate as [Hfalsy | (s & Hs)].
    + rewrite Hfalsy. cbn [bind]. rewrite Htext. reflexivity.
    + rewrite Hs. cbn [normalize_date].
      destruct (truthy (VStr s)); cbn [bind]; rewrite Htext; reflexivity.
Qed.

(** X21: a record extracted from a parsed image has every typed field
    set: each is null or a value, never undefined (only the degraded
    record leaves them out). *)
Theorem extracted_fields_are_defined (buffer : Buffer) (filename : string)
    (tags : value) :
  ExifReader_load buffer = Ok tags ->
  returns (extract_from_tags tags) = true ->
  Forall (fun field => prop (extractExif buffer filename) field <> VUndefined)
         typed_fields.
Proof.
  intros Hload Hret. destruct (returns_Ok _ Hret) as [r Hbody].
  rewrite (extractExif_returned _ _ _ _ Hload Hbody). clear Hload Hret.
  assert (Hgps : forall (a b : bool) (o : value) (k : string) (x : value),
             (a = true -> x <> VUndefined) -> VNull <> VUndefined ->
             (if (a && b)%bool then x else VNull) <> VUndefined).
  { intros a b o k x Hx _. destruct a; cbn [andb]; [| discriminate].
    destruct b; [auto | discriminate]. }
  open_body Hbody; unfold typed_fields;
    repeat (apply Forall_cons;
      [ cbn [prop assoc String.eqb Ascii.eqb Bool.eqb];
        first
          [ apply js_or_null_defined
          | apply js_or_defined; apply js_or_null_defined
          | discriminate
          | match goal with
            | Hd : normalize_date _ = Ok _ |- _ =>
                destruct (normalize_date_string _ _ Hd) as (? & _ & ->); discriminate
            end
          | unfold js_div;
            match goal with
            | |- (if truthy ?c then _ else _) <> _ => destruct (truthy c); discriminate
            end
          | match goal with
            | |- (if (truthy (opt ?o ?k1) && _)%bool then prop ?o ?k1 else _) <> _ =>
                apply (Hgps _ _ o k1); [apply truthy_opt_prop | discriminate]
            | |- (if (?a && truthy (opt ?o ?k2))%bool then prop ?o ?k2 else _) <> _ =>
                rewrite (andb_comm a);
                apply (Hgps _ _ o k2); [apply truthy_opt_prop | discriminate]
            | |- (if (_ && _)%bool then js_or _ VNull else _) <> _ =>
                apply (Hgps _ _ VNull ""); [intros _; apply js_or_null_defined
                                           | discriminate]
            end ]
      | ]);
    apply Forall_nil.
Qed.

Lemma digit_is_not_space (c : ascii) : is_digit c = true -> Ascii.eqb c " " = false.
Proof.
  unfold is_digit. intros H. apply andb_true_iff in H as [Hlow _].
  apply N.leb_le in Hlow.
  destruct (Ascii.eqb c " ") eqn:Heq; [| reflexivity].
  apply Ascii.eqb_eq in Heq. subst c. cbn in Hlow. lia.
Qed.

Lemma normalize_exif_date (y1 y2 y3 y4 m1 m2 d1 d2 : ascii) (time : string) :
  forallb is_digit [y1; y2; y3; y4; m1; m2; d1; d2] = true ->
  normalize_date
    (VStr (String y1 (String y2 (String y3 (String y4 (String ":"
            (String m1 (String m2 (String ":" (String d1 (String d2
              (String " " time)))))))))))) =
  Ok (VStr (String y1 (String y2 (String y3 (String y4 (String "-"
              (String m1 (String m2 (String "-" (String d1 (String d2
                (String "T" time)))))))))))).
Proof.
  intros Hdigits. unfold normalize_date, replace_date_colons. rewrite Hdigits.
  cbn [forallb] in Hdigits.
  repeat (apply andb_true_iff in Hdigits as [?Hd Hdigits]).
  change (Ascii.eqb ":" ":") with true. cbn [andb].
  do 2 f_equal. cbn [replace_first_space].
  repeat match goal with
         | H : is_digit ?c = true |- _ => rewrite (digit_is_not_space c H); clear H
         end.
  reflexivity.
Qed.

(** X22: the capture date is rewritten as the comment in the code says:
    a description "YYYY:MM:DD" + " " + time, with digits for the date,
    becomes "YYYY-MM-DD" + "T" + time in [date_taken]. *)
Theorem date_taken_is_iso_like (buffer : Buffer) (filename : string) (tags : value)
    (y1 y2 y3 y4 m1 m2 d1 d2 : ascii) (time : string) :
  ExifReader_load buffer = Ok tags ->
  returns (JSON_stringify tags) = true ->
  forallb is_digit [y1; y2; y3; y4; m1; m2; d1; d2] = true ->
  tagv tags "exif" "DateTimeOriginal" "description" =
    VStr (String y1 (String y2 (String y3 (String y4 (String ":"
           (String m1 (String m2 (String ":" (String d1 (String d2
             (String " " time))))))))))) ->
  prop (extractExif buffer filename) "date_taken" =
    VStr (String y1 (String y2 (String y3 (String y4 (String "-"
           (String m1 (String m2 (String "-" (String d1 (String d2
             (String "T" time))))))))))).
Proof.
  intros Hload Hjson Hdigits Hdate.
  assert (Hnull : nullish tags = false).
  { destruct tags; try reflexivity; discriminate Hdate. }
  destruct (returns_Ok _ Hjson) as [text Htext].
  unfold extractExif. rewrite Hload. cbn [bind].
  unfold extract_from_tags, tag_field, get. rewrite Hnull. cbn [bind].
  unfold tagv in Hdate. rewrite Hdate.
  rewrite (normalize_exif_date _ _ _ _ _ _ _ _ _ Hdigits).
  change (truthy (VStr (String y1 ?rest))) with true.
  cbn [bind]. rewrite Htext. reflexivity.
Qed.

End ExtractorMore.

(** ** More on the Image Normalizer *)

Section NormalizerMore.
Context `{RT : Runtime}.
Import Normalizer.

(** X23: the cases of the new dimensions, for sides below 2^32.  An image
    whose sides are both within 3000 pixels keeps its dimensions.  An image with a side beyond 3000 gets a long
    edge of exactly 3000: the width when the image is wider than tall, the
    height otherwise.  The short side comes out as 0 pixels whenever the
    long side is more than 6000 times the short one, and only if it is at
    least 6000 times the short one.  (Where the scaled side falls exactly
    halfway between two integers the statement leaves the choice open.) *)
Theorem new_dimensions_cases (w h : Z) :
  0 < w < 2 ^ 32 -> 0 < h < 2 ^ 32 ->
  (w <= 3000 -> h <= 3000 ->
     new_dimensions (VInt w) (VInt h) = (VInt w, VInt h)) /\
  (3000 < Z.max w h ->
     exists w' h',
       new_dimensions (VInt w) (VInt h) = (VInt w', VInt h') /\
       (h < w -> w' = 3000) /\ (w <= h -> h' = 3000) /\
       Z.max w' h' = 3000 /\ 0 <= Z.min w' h') /\
  (6000 * h < w -> new_dimensions (VInt w) (VInt h) = (VInt 3000, VInt 0)) /\
  (6000 * w < h -> new_dimensions (VInt w) (VInt h) = (VInt 0, VInt 3000)) /\
  (forall w', new_dimensions (VInt w) (VInt h) = (VInt w', VInt 0) -> 6000 * h <= w) /\
  (forall h', new_dimensions (VInt w) (VInt h) = (VInt 0, VInt h') -> 6000 * w <= h).
Proof.
  intros [Hw _] [Hh _]. rewrite new_dimensions_integers by assumption.
  pose proof (scaled_bounds h w ltac:(lia) Hw) as Hsh.
  pose proof (scaled_bounds w h ltac:(lia) Hh) as Hsw.
  split; [| split; [| split; [| split; [| split]]]].
  - intros Hw' Hh'.
    replace (3000 <? w) with false by lia. replace (3000 <? h) with false by lia.
    rewrite andb_false_r. reflexivity.
  - intros Hbig.
    destruct ((h <? w) && (3000 <? w))%bool eqn:Hland.
    + apply andb_true_iff in Hland as [Hlt Hgt].
      apply Z.ltb_lt in Hlt, Hgt.
      exists 3000, (scaled h w). split; [reflexivity |].
      split; [reflexivity |]. split; [lia |]. nia.
    + assert (Hport : 3000 < h /\ w <= h).
      { apply andb_false_iff in Hland as [Hlt | Hgt];
          [apply Z.ltb_ge in Hlt | apply Z.ltb_ge in Hgt]; lia. }
      replace (3000 <? h) with true by lia.
      exists (scaled w h), 3000. split; [reflexivity |].
      split; [lia |]. split; [reflexivity |]. nia.
  - intros Hflat.
    replace (h <? w) with true by lia. replace (3000 <? w) with true by lia.
    cbn [andb]. do 2 f_equal. nia.
  - intros Htall.
    replace (h <? w) with false by lia. replace (3000 <? h) with true by lia.
    cbn [andb]. f_equal. f_equal. nia.
  - intros w' Hzero.
    destruct ((h <? w) && (3000 <? w))%bool eqn:Hland.
    + injection Hzero as _ Hzero. nia.
    + destruct (3000 <? h); injection Hzero as _ Hzero; lia.
  - intros h' Hzero.
    destruct ((h <? w) && (3000 <? w))%bool eqn:Hland.
    + injection Hzero as Hzero _. lia.
    + destruct (3000 <? h) eqn:Hport; injection Hzero as Hzero _; [nia | lia].
Qed.

(** X24: what comes back from the normalizer is either the input itself,
    marked not resized and without dimensions, or a recompressed buffer of
    an input over 20 MiB, marked resized, with the size of the input, the
    size of the output and no error; it is the buffer sharp produced for
    the dimensions computed from the image's own. *)
Theorem resizeIfNeeded_outcomes (fileBuffer : Buffer) (filename : string) :
  let result := resizeIfNeeded fileBuffer filename in
  (resized result = false /\ buffer result = fileBuffer /\
   dimensions result = VUndefined /\
   (error result = VUndefined -> buffer_length fileBuffer <= MAX_FILE_SIZE)) \/
  (resized result = true /\ MAX_FILE_SIZE < buffer_length fileBuffer /\
   originalSize result = VInt (buffer_length fileBuffer) /\
   newSize result = VInt (buffer_length (buffer result)) /\
   error result = VUndefined /\
   exists metadata,
     sharp_metadata fileBuffer = Ok metadata /\
     sharp_resize_jpeg fileBuffer
       (fst (new_dimensions (prop metadata "width") (prop metadata "height")))
       (snd (new_dimensions (prop metadata "width") (prop metadata "height")))
     = Ok (buffer result)).
Proof.
  cbv zeta. unfold resizeIfNeeded.
  destruct (buffer_length fileBuffer <=? MAX_FILE_SIZE) eqn:Hsize.
  - left. apply Z.leb_le in Hsize. repeat split; auto.
  - apply Z.leb_gt in Hsize.
    destruct (sharp_metadata fileBuffer) as [metadata | e]; cbn [bind try_catch];
      [| left; repeat split; discriminate].
    unfold get. destruct (nullish metadata); cbn [bind try_catch];
      [left; repeat split; discriminate |].
    destruct (new_dimensions (prop metadata "width") (prop metadata "height"))
      as [width height] eqn:Hdims.
    destruct (sharp_resize_jpeg fileBuffer width height) as [jpeg | e] eqn:Hjpeg;
      cbn [bind try_catch]; [| left; repeat split; discriminate].
    right. cbn [resized buffer originalSize newSize error].
    repeat split; try assumption.
    exists metadata. split; [reflexivity | rewrite Hdims; exact Hjpeg].
Qed.

End NormalizerMore.

(** ** More on the enrichment helpers *)

Section EnrichMore.
Context `{RT : Runtime}.
Import Enrich.

(** X25: a timestamp that [Date] cannot read counts as Winter: when the
    month is not a number, or lies outside 2..10, the season is Winter,
    and so the composed description of such a photo starts with or is
    "Winter". *)
Theorem unreadable_date_is_winter (dateString : value) :
  truthy dateString = true ->
  (Date_getMonth dateString = NaN -> getSeason dateString = VStr "Winter") /\
  (forall m, Date_getMonth dateString = of_Z m -> m < 2 \/ 10 < m ->
             getSeason dateString = VStr "Winter").
Proof.
  intros Ht. split.
  - intros Hnan. unfold getSeason. rewrite Ht, Hnan. reflexivity.
  - intros m Hm Hout. rewrite (getSeason_month _ m Ht Hm). unfold season_of_month.
    destruct Hout.
    + replace (2 <=? m) with false by lia. replace (5 <=? m) with false by lia.
      replace (8 <=? m) with false by lia. reflexivity.
    + replace (m <=? 4) with false by lia. replace (m <=? 7) with false by lia.
      replace (m <=? 10) with false by lia. rewrite !andb_false_r. reflexivity.
Qed.

Lemma js_or_null_cases (v : value) :
  js_or v VNull = VNull \/ truthy (js_or v VNull) = true.
Proof.
  unfold js_or. destruct (truthy v) eqn:Ht; [right; exact Ht | left; reflexivity].
Qed.

(** X26: the geocoder returns null in exactly three cases: the request
    threw, the body was not JSON, or the body was the JSON null.  Every
    other answer, an error payload included, gives an object, whose
    [city], [state], [country] and [country_code] are each null or truthy. *)
Theorem reverseGeocode_null_iff (fetched : result HttpResponse) (lat lon : value) :
  (reverseGeocode fetched lat lon = VNull <->
   returns (let* response := fetched in json response) = false \/
   exists response data,
     fetched = Ok response /\ json response = Ok data /\ nullish data = true) /\
  (reverseGeocode fetched lat lon <> VNull ->
   Forall (fun field =>
             prop (reverseGeocode fetched lat lon) field = VNull \/
             truthy (prop (reverseGeocode fetched lat lon) field) = true)
          ["city"; "state"; "country"; "country_code"]).
Proof.
  unfold reverseGeocode, get.
  destruct fetched as [response | e]; cbn [bind try_catch returns].
  2:{ split; [split; [left; reflexivity | reflexivity] | intros H; contradiction]. }
  destruct (json response) as [data | e] eqn:Hjson; cbn [bind try_catch returns].
  2:{ split; [split; [left; reflexivity | reflexivity] | intros H; contradiction]. }
  destruct (nullish data) eqn:Hnull; cbn [bind try_catch].
  { split; [split; [| reflexivity] | intros H; contradiction].
    intros _. right. exists response, data. auto. }
  split.
  - split; [discriminate |].
    intros [Hfalse | (response' & data' & Hr & Hj & Hn)]; [discriminate |].
    injection Hr as <-. rewrite Hjson in Hj. injection Hj as <-. congruence.
  - intros _.
    repeat (apply Forall_cons;
            [cbn [prop assoc String.eqb Ascii.eqb Bool.eqb];
             apply js_or_null_cases |]).
    apply Forall_nil.
Qed.

(** X27: the caption generator returns null, undefined or a trimmed
    string, and nothing else: undefined when the model's answer has no
    text in its first block (an empty [content] included), and the
    trimmed text of the first block when there is one. *)
Theorem caption_is_null_undefined_or_text (anthropic : bool) (created : result value)
    (imageBuffer : Buffer) (mimeType : value) :
  let caption := analyzeImageWithVision anthropic created imageBuffer mimeType in
  (caption = VNull \/ caption = VUndefined \/
   exists text, caption = VStr (String_trim text)) /\
  (forall response blocks,
     anthropic = true -> created = Ok response ->
     prop response "content" = VArr blocks ->
     (nullish (opt (nth 0 blocks VUndefined) "text") = true ->
        caption = VUndefined) /\
     (forall text, opt (nth 0 blocks VUndefined) "text" = VStr text ->
        caption = VStr (String_trim text))).
Proof.
  cbv zeta. split.
  - unfold analyzeImageWithVision. destruct anthropic; cbn [negb]; [| auto].
    destruct created as [response | e]; cbn [bind try_catch]; [| auto].
    destruct (get response "content") as [content | e]; cbn [bind try_catch]; [| auto].
    destruct (nullish content); cbn [bind try_catch]; [auto |].
    destruct (nullish (opt (index content 0) "text")); cbn [try_catch]; [auto |].
    destruct (opt (index content 0) "text"); cbn [try_catch]; eauto.
  - intros response blocks -> -> Hcontent.
    assert (Hresponse : nullish response = false).
    { destruct response; try reflexivity; discriminate Hcontent. }
    unfold analyzeImageWithVision. cbn [negb bind].
    rewrite (get_not_nullish _ _ Hresponse), Hcontent. cbn [bind nullish index].
    split.
    + intros ->. reflexivity.
    + intros text ->. reflexivity.
Qed.

End EnrichMore.

(** ** Time of day *)

Section TimeOfDayFacts.
Import TimeOfDay.
Variable getHours : value -> number.

Lemma lt_of_Z (a b : Z) : Num.lt (of_Z a) (of_Z b) = (a <? b).
Proof.
  unfold Num.lt, of_Z, Qle_bool, inject_Z. cbn [Qnum Qden].
  rewrite !Z.mul_1_r. symmetry. apply Z.ltb_antisym.
Qed.

Lemma between_of_Z (h low high : Z) :
  between (of_Z h) low high = ((low <=? h) && (h <? high))%bool.
Proof. unfold between, Num.ge. rewrite le_of_Z, lt_of_Z. reflexivity. Qed.

(** X28: [getTimeOfDay] returns null only for a missing date; for a date
    whose hour is [h] it says "night" exactly when [h] is before 5 or from
    22 on, and it also says "night" when the hour is not a number. *)
Theorem night_hours (dateString : value) :
  (getTimeOfDay getHours dateString = VNull <-> truthy dateString = false) /\
  (truthy dateString = true ->
   (getHours dateString = NaN -> getTimeOfDay getHours dateString = VStr "night") /\
   (forall h, getHours dateString = of_Z h ->
      (getTimeOfDay getHours dateString = VStr "night" <-> h < 5 \/ 22 <= h))).
Proof.
  unfold getTimeOfDay. destruct (truthy dateString) eqn:Ht; cbn [negb].
  - split.
    + split; [| discriminate].
      repeat match goal with |- context [if ?c then _ else _] => destruct c end;
        discriminate.
    + intros _. split.
      * intros ->. reflexivity.
      * intros h ->. rewrite !between_of_Z.
        assert (Hband : h < 5 \/ 5 <= h < 8 \/ 8 <= h < 11 \/ 11 <= h < 14 \/
                        14 <= h < 17 \/ 17 <= h < 20 \/ 20 <= h < 22 \/ 22 <= h)
          by lia.
        repeat destruct Hband as [Hband | Hband];
          repeat match goal with
                 | |- context [?a <=? ?b] =>
                     first [replace (a <=? b) with true by lia
                           | replace (a <=? b) with false by lia]
                 | |- context [?a <? ?b] =>
                     first [replace (a <? b) with true by lia
                           | replace (a <? b) with false by lia]
                 end;
          cbn [andb]; split; intros Hgoal; try discriminate Hgoal;
          try reflexivity; lia.
  - split; [split; reflexivity | discriminate].
Qed.

End TimeOfDayFacts.

(** ** The further statements at concrete inputs *)

Module Examples.
Import Store Normalizer Enrich Upload Bulk Auth.

Lemma after_one_write_reachable : reachable Scenario.after_one_write.
Proof.
  apply (reachable_save Store.empty _ None (VStr "2026-01-01 00:00:00") (VInt 42)
           (VStr "a.jpg") Sample.dated_record reachable_empty).
  reflexivity.
Qed.

Lemma reachable_unique_ids_witness :
  unique_ids (photos Scenario.after_one_write) /\
  (List.length (select_by_meural_id Scenario.after_one_write (VInt 42)) <= 1)%nat.
Proof.
  destruct (StoreInvariants.reachable_unique_ids Scenario.after_one_write
              after_one_write_reachable) as [Hunique Hone].
  split; [exact Hunique | apply Hone].
Defined.


Lemma save_then_get_witness :
  let db' := insert_or_replace Scenario.after_one_write (VStr "2026-01-02 00:00:00")
               (run_parameters (VInt 43) (VStr "b.jpg") Sample.dated_record) in
  let row := stmt_get db' (VInt 43) in
  prop row "meural_id" = VInt 43 /\
  prop row "original_filename" = VStr "b.jpg" /\
  prop row "date_taken" = VStr "2024-01-15T10:00:00" /\
  prop row "camera_model" = VNull /\
  photos db' = (photos Scenario.after_one_write ++ [row])%list.
Proof.
  cbv zeta.
  assert (Hids : Forall (fun row => stored_as_bound INTEGER (prop row "meural_id") = true)
                        (photos Scenario.after_one_write)).
  { constructor; [reflexivity | constructor]. }
  destruct (StoreInvariants.save_then_get Scenario.after_one_write _ None
              (VStr "2026-01-02 00:00:00") 43 "b.jpg" Sample.dated_record
              Hids eq_refl) as (Hid & Hname & Hcolumns & _ & Hfresh & _).
  split; [exact Hid |]. split; [exact Hname |]. split; [| split].
  - apply (Hcolumns "date_taken" TEXT); [cbn; tauto | reflexivity | reflexivity].
  - apply (Hcolumns "camera_model" TEXT); [cbn; tauto | reflexivity | reflexivity].
  - exact (Hfresh eq_refl).
Defined.

Lemma upload_keeps_unique_ids_witness :
  (List.length
     (photos (snd (upload_route (RT := Sample.unreadable) false (Ok (VStr "token"))
                     [(Sample.photo, Sample.calm); (Sample.photo, Sample.calm)]
                     Scenario.after_one_write)))
   <= List.length (photos Scenario.after_one_write) + 2)%nat.
Proof.
  apply (upload_keeps_unique_ids (RT := Sample.unreadable) false (Ok (VStr "token"))
           [(Sample.photo, Sample.calm); (Sample.photo, Sample.calm)]
           Scenario.after_one_write after_one_write_reachable).
Defined.

Lemma upload_never_stores_place_name_witness :
  Forall (fun row => prop row "location_name" = VNull
                     /\ columns_of row = table_columns)
    (photos (snd (upload_route
                    (RT := Sample.reading (Sample.gps_tags (VInt 48) (VInt 2) (VInt 35)))
                    false (Ok (VStr "token")) [(Sample.photo, Scenario.geotagged)]
                    Store.empty))).
Proof.
  apply (upload_never_stores_place_name
           (RT := Sample.reading (Sample.gps_tags (VInt 48) (VInt 2) (VInt 35)))
           false (Ok (VStr "token")) [(Sample.photo, Scenario.geotagged)] Store.empty
           reachable_empty).
Defined.

Lemma store_failure_reports_uploaded_file_as_failed_witness :
  process_file (RT := Sample.unreadable) false {| results := []; db := Store.empty |}
    (Sample.photo, Scenario.locked_database) =
  {| results := [VObj [("filename", VStr "a.jpg"); ("success", VBool false);
                       ("error", VStr "database is locked")]];
     db := Store.empty |}.
Proof.
  apply (store_failure_reports_uploaded_file_as_failed (RT := Sample.unreadable) false
           {| results := []; db := Store.empty |} Sample.photo Scenario.locked_database
           [Byte.xff; Byte.xd8] Sample.accepted
           (VObj [("data", VObj [("id", VInt 42)])]) "database is locked");
    reflexivity.
Defined.

Lemma rejected_upload_entry_witness :
  exists entry,
    attempt (RT := Sample.unreadable) true Sample.photo Scenario.rejected_upload
      Store.empty = Ok (entry, Store.empty) /\
    prop entry "success" = VBool false /\
    prop entry "error" = VObj [("detail", VStr "Invalid image")].
Proof.
  destruct (rejected_upload_entry (RT := Sample.unreadable) true Sample.photo
              Scenario.rejected_upload Store.empty [Byte.xff; Byte.xd8]
              Scenario.refused (VObj [("detail", VStr "Invalid image")])
              eq_refl eq_refl eq_refl eq_refl) as (entry & Hrun & Hsuccess & Herror & _).
  exists entry. split; [exact Hrun | split; [exact Hsuccess | exact Herror]].
Defined.

Lemma one_entry_per_file_when_cleanup_succeeds_witness :
  exists entries,
    fst (upload_route (RT := Sample.unreadable) false (Ok (VStr "token"))
           [(Sample.photo, Sample.calm); (Sample.photo, Scenario.rejected_upload)]
           Store.empty)
      = Json 200 (VObj [("results", VArr entries)]) /\
    Forall2 entry_of
      [(Sample.photo, Sample.calm); (Sample.photo, Scenario.rejected_upload)] entries.
Proof.
  apply (one_entry_per_file_when_cleanup_succeeds (RT := Sample.unreadable) false
           (VStr "token")).
  constructor; [reflexivity | constructor; [reflexivity | constructor]].
Defined.

Lemma upload_agrees_with_basic_witness :
  match fst (upload_route (RT := Sample.unreadable) false (Ok (VStr "token"))
               [(Sample.photo, Sample.stuck_tempfile)] Store.empty),
        Basic.upload_route (RT := Sample.unreadable) (Ok (VStr "token"))
               [(Sample.photo, Sample.stuck_tempfile)] with
  | Json status body, Json status' body' =>
      status = status' /\
      prop body "error" = prop body' "error" /\
      match prop body "results", prop body' "results" with
      | VArr entries, VArr entries' =>
          map core_fields entries = map core_fields entries'
      | VUndefined, VUndefined => True
      | _, _ => False
      end
  end.
Proof.
  apply (upload_agrees_with_basic (RT := Sample.unreadable) false (Ok (VStr "token"))
           [(Sample.photo, Sample.stuck_tempfile)] Store.empty).
  constructor; [reflexivity | constructor].
Defined.

Lemma bulk_analyze_one_entry_per_id_witness :
  exists entries,
    bulk_analyze (RT := Sample.unreadable) true
      (VObj [("ids", VArr [VInt 7; VInt 8])]) (fun _ => Scenario.captioned)
      = Json 200 (VObj [("results", VArr entries)]) /\
    map (fun entry => prop entry "id") entries = [VInt 7; VInt 8].
Proof.
  destruct (bulk_analyze_one_entry_per_id (RT := Sample.unreadable) true
              (VObj [("ids", VArr [VInt 7; VInt 8])]) [VInt 7; VInt 8]
              (fun _ => Scenario.captioned) eq_refl) as (entries & Hrun & Hids & _).
  exists entries. split; [exact Hrun | exact Hids].
Defined.

Lemma applied_means_applied_witness :
  prop (analyze_one (RT := Sample.unreadable) true (VBool true) (VInt 7)
          (with_apply_request Scenario.captioned (Ok (VObj [])))) "success" = VBool true.
Proof.
  apply (applied_means_applied (RT := Sample.unreadable) true (VBool true) (VInt 7)
           (with_apply_request Scenario.captioned (Ok (VObj [])))).
  reflexivity.
Defined.

Lemma failed_apply_fails_the_turn_witness :
  analyze_one (RT := Sample.unreadable) true (VBool true) (VInt 7)
    (with_apply_request Scenario.captioned (Throw "Request failed with status 429"))
  = failed (VInt 7) "Request failed with status 429".
Proof.
  apply (failed_apply_fails_the_turn (RT := Sample.unreadable) true (VBool true)
           (VInt 7) (VObj []) Scenario.captioned "Request failed with status 429").
  reflexivity.
Defined.

Lemma token_reused_within_the_hour_witness :
  getToken (RT := Sample.unreadable)
    {| authToken := VStr "abc"; tokenExpiry := VInt 3601000 |} Scenario.cognito_down
  = (Ok (VStr "abc"), {| authToken := VStr "abc"; tokenExpiry := VInt 3601000 |}).
Proof.
  apply (token_reused_within_the_hour (RT := Sample.unreadable) Scenario.signing_in
           Scenario.cognito_down (VStr "abc")
           {| authToken := VStr "abc"; tokenExpiry := VInt 3601000 |}).
  - reflexivity.
  - cbn. discriminate.
  - reflexivity.
Defined.

Lemma blank_password_file_blocks_sign_in_witness :
  getToken (RT := Sample.unreadable) signed_out Scenario.blank_password_file =
    (Throw "MEURAL_USERNAME and MEURAL_PASSWORD must be set in .env", signed_out).
Proof.
  apply (blank_password_file_blocks_sign_in (RT := Sample.unreadable)
           Scenario.blank_password_file ""); reflexivity.
Defined.

Lemma meuralRequest_follows_getToken_witness :
  fst (meuralRequest (RT := Sample.unreadable) signed_out Scenario.signing_in VNull
         (Ok Sample.accepted))
  = Ok (VObj [("data", VObj [("id", VInt 42)])]).
Proof.
  exact (proj2 (meuralRequest_follows_getToken (RT := Sample.unreadable) signed_out
                  Scenario.signing_in VNull (Ok Sample.accepted)) eq_refl).
Defined.

Lemma extraction_succeeds_iff_witness :
  returns (extract_from_tags (RT := Sample.unreadable) Scenario.dated_tags) = true.
Proof.
  apply (extraction_succeeds_iff (RT := Sample.unreadable) Scenario.dated_tags).
  split; [reflexivity |]. split; [| reflexivity].
  right. eexists. reflexivity.
Defined.

Lemma extracted_fields_are_defined_witness :
  Forall (fun field =>
            prop (extractExif (RT := Sample.reading Scenario.dated_tags) [] "a.jpg") field
            <> VUndefined) typed_fields.
Proof.
  apply (extracted_fields_are_defined (RT := Sample.reading Scenario.dated_tags)
           [] "a.jpg" Scenario.dated_tags); reflexivity.
Defined.

Lemma date_taken_is_iso_like_witness :
  prop (extractExif (RT := Sample.reading Scenario.dated_tags) [] "a.jpg") "date_taken"
  = VStr "2024-09-25T14:30:00".
Proof.
  apply (date_taken_is_iso_like (RT := Sample.reading Scenario.dated_tags) [] "a.jpg"
           Scenario.dated_tags "2" "0" "2" "4" "0" "9" "2" "5" "14:30:00");
    reflexivity.
Defined.

Lemma new_dimensions_cases_witness :
  new_dimensions (RT := Sample.unreadable) (VInt 2000) (VInt 1000)
    = (VInt 2000, VInt 1000) /\
  new_dimensions (RT := Sample.unreadable) (VInt 7000) (VInt 1) = (VInt 3000, VInt 0) /\
  new_dimensions (RT := Sample.unreadable) (VInt 2) (VInt 12001) = (VInt 0, VInt 3000) /\
  fst (new_dimensions (RT := Sample.unreadable) (VInt 4000) (VInt 3500)) = VInt 3000.
Proof.
  split; [| split; [| split]].
  - apply (new_dimensions_cases (RT := Sample.unreadable) 2000 1000);
      first [split; reflexivity | discriminate].
  - apply (new_dimensions_cases (RT := Sample.unreadable) 7000 1);
      first [split; reflexivity | reflexivity].
  - apply (new_dimensions_cases (RT := Sample.unreadable) 2 12001);
      first [split; reflexivity | reflexivity].
  - destruct (new_dimensions_cases (RT := Sample.unreadable) 4000 3500)
      as (_ & Hlong & _); [split; reflexivity | split; reflexivity |].
    destruct (Hlong eq_refl) as (w' & h' & -> & Hwide & _).
    cbn [fst]. rewrite (Hwide eq_refl). reflexivity.
Defined.

Lemma resizeIfNeeded_outcomes_witness :
  buffer (resizeIfNeeded (RT := Scenario.sharp_2000_1000) [Byte.xff; Byte.xd8] "a.jpg")
    = [Byte.xff; Byte.xd8] \/
  resized (resizeIfNeeded (RT := Scenario.sharp_2000_1000) [Byte.xff; Byte.xd8] "a.jpg")
    = true.
Proof.
  destruct (resizeIfNeeded_outcomes (RT := Scenario.sharp_2000_1000)
              [Byte.xff; Byte.xd8] "a.jpg") as [Hsame | Hnew].
  - left. apply Hsame.
  - right. apply Hnew.
Defined.

Lemma unreadable_date_is_winter_witness :
  getSeason (RT := Sample.unreadable) (VStr "yesterday") = VStr "Winter".
Proof.
  apply (unreadable_date_is_winter (RT := Sample.unreadable) (VStr "yesterday"));
    reflexivity.
Defined.

Lemma reverseGeocode_null_iff_witness :
  reverseGeocode (RT := Sample.unreadable) (Throw "fetch failed") (VInt 48) (VInt 2)
    = VNull /\
  prop (reverseGeocode (RT := Sample.unreadable) (Ok Scenario.town_answer)
          (VInt 48) (VInt 2)) "city" = VStr "Giverny".
Proof.
  split.
  - apply (reverseGeocode_null_iff (RT := Sample.unreadable) (Throw "fetch failed")).
    left. reflexivity.
  - destruct (reverseGeocode_null_iff (RT := Sample.unreadable) (Ok Scenario.town_answer)
                (VInt 48) (VInt 2)) as [_ Hfields].
    reflexivity.
Defined.

Lemma caption_is_null_undefined_or_text_witness :
  analyzeImageWithVision (RT := Sample.unreadable) true (Ok (VObj [("content", VArr [])]))
    [Byte.xff] (VStr "image/jpeg") = VUndefined /\
  analyzeImageWithVision (RT := Sample.unreadable) true (caption_create Scenario.captioned)
    [Byte.xff] (VStr "image/jpeg") = VStr "Quiet morning with coffee".
Proof.
  split.
  - destruct (caption_is_null_undefined_or_text (RT := Sample.unreadable) true
                (Ok (VObj [("content", VArr [])])) [Byte.xff] (VStr "image/jpeg"))
      as [_ Hshape].
    apply (Hshape (VObj [("content", VArr [])]) [] eq_refl eq_refl eq_refl).
    reflexivity.
  - destruct (caption_is_null_undefined_or_text (RT := Sample.unreadable) true
                (caption_create Scenario.captioned) [Byte.xff] (VStr "image/jpeg"))
      as [_ Hshape].
    apply (Hshape _ [VObj [("text", VStr "Quiet morning with coffee")]]
             eq_refl eq_refl eq_refl).
    reflexivity.
Defined.

Lemma night_hours_witness :
  TimeOfDay.getTimeOfDay Scenario.getHours (VStr "2024-01-15T23:10:00") = VStr "night".
Proof.
  apply (night_hours Scenario.getHours (VStr "2024-01-15T23:10:00") ) with (h := 23).
  - reflexivity.
  - reflexivity.
  - right. cbn. discriminate.
Defined.

End Examples.
